(** * NeSPReSO client: a shallow embedding of [nespreso_client] and its verified properties

    The first half of the file is the program:
    - [Py]        the fragment of the Python runtime the package relies on
                  (exceptions, [str], [format], [range], slicing, floats);
                  a [str] is held in its UTF-8 encoding, a [bytes] object
                  as it is;
    - [Calendar]  the proleptic Gregorian arithmetic of the [datetime] module;
    - [IO]        requests, files, datasets and the console, as a trace of
                  events answered by an environment;
    - [Utils]     [nespreso_client/utils.py];
    - [Profile]   [nespreso_client/profile.py];
    - [Grid]      [nespreso_client/grid.py].

    The second half states and proves its properties: [Spec] and
    [Observe] hold the notions the statements are written with, and
    [PyFacts], [CalendarFacts], [UtilsFacts], [ProfileFacts], [GridFacts],
    [LibraryFacts], [DateRangeFacts], [ConversionFacts], [GridRunFacts] and
    [ProfileRunFacts] the theorems. *)

From Stdlib Require Import ZArith QArith Qround Qabs Lqa Lia Bool List String Ascii DecimalString.
Import ListNotations.

Local Open Scope string_scope.
Local Open Scope list_scope.
Local Open Scope Z_scope.

(** String concatenation, written as Python's [+] on [str]. *)
Infix "+++" := String.append (right associativity, at level 60).

(* ================================================================== *)
(** * The Python runtime fragment *)
(* ================================================================== *)

Module Py.

(** ** Exceptions *)

Inductive exn_kind :=
| ValueError | OverflowError | TypeError | ImportError | OSError
| RequestsTimeout | RequestException | RuntimeError.

Record exn := Exn { exn_kind_of : exn_kind; exn_msg : string }.

(** A computation that either returns or raises. *)
Inductive result (A : Type) :=
| Ret (a : A)
| Raise (e : exn).
Arguments Ret {A} a.
Arguments Raise {A} e.

Definition rbind {A B} (m : result A) (k : A -> result B) : result B :=
  match m with
  | Ret a => k a
  | Raise e => Raise e
  end.

Declare Scope result_scope.
Delimit Scope result_scope with result.
Notation "x <- m ;; k" := (rbind m (fun x => k))
  (at level 100, m at next level, right associativity) : result_scope.

(** [[f(x) for x in l]]: the elements are taken in order, and the first
    exception ends the comprehension. *)
Fixpoint map_result {A B} (f : A -> result B) (l : list A) : result (list B) :=
  match l with
  | [] => Ret []
  | x :: rest => (y <- f x ;; ys <- map_result f rest ;; Ret (y :: ys))%result
  end.

(** ** Strings *)

Definition str_of_Z (z : Z) : string := NilZero.string_of_int (Z.to_int z).

Fixpoint repeat_char (c : ascii) (n : nat) : string :=
  match n with
  | O => EmptyString
  | S n' => String c (repeat_char c n')
  end.

(** [format(z, "0Wd")]: sign first, then zeros up to the width [w]. *)
Definition format_0d (w : nat) (z : Z) : string :=
  let digits := str_of_Z (Z.abs z) in
  let sign := if z <? 0 then "-" else EmptyString in
  sign +++ repeat_char "0" (w - String.length sign - String.length digits) +++ digits.

Definition newline : string := String (ascii_of_nat 10) EmptyString.

Definition startswith (s p : string) : bool := String.prefix p s.

Fixpoint string_rev_acc (s acc : string) : string :=
  match s with
  | EmptyString => acc
  | String c s' => string_rev_acc s' (String c acc)
  end.

Definition string_rev (s : string) : string := string_rev_acc s EmptyString.

Definition endswith (s p : string) : bool :=
  String.prefix (string_rev p) (string_rev s).

(** A byte that continues a character in UTF-8: [10xxxxxx]. *)
Definition is_continuation (c : ascii) : bool :=
  let n := Z.of_nat (nat_of_ascii c) in (128 <=? n) && (n <? 192).

(** [s[:n]] for a non-negative [n]: the first [n] characters, each with
    the bytes that continue it. *)
Fixpoint str_take (n : nat) (s : string) : string :=
  match s with
  | EmptyString => EmptyString
  | String c s' =>
      if is_continuation c then String c (str_take n s')
      else
        match n with
        | O => EmptyString
        | S n' => String c (str_take n' s')
        end
  end.

(** [s.rstrip(chr(0))]: the NUL characters at the end are dropped. *)
Fixpoint rstrip_nul (s : string) : string :=
  match s with
  | EmptyString => EmptyString
  | String c s' =>
      match rstrip_nul s' with
      | EmptyString => if Ascii.eqb c zero then EmptyString else String c EmptyString
      | rest => String c rest
      end
  end.

(** ** Lists: [range] and slices *)

(** The iteration of [range(start, stop, step)] for a positive step:
    yield [cur] while it is below [stop].  [fuel] bounds the number of
    items. *)
Fixpoint range_up (fuel : nat) (cur stop step : Z) : list Z :=
  match fuel with
  | O => []
  | S fuel' =>
      if cur <? stop then cur :: range_up fuel' (cur + step) stop step else []
  end.

(** The same for a negative step: yield [cur] while it is above [stop]. *)
Fixpoint range_down (fuel : nat) (cur stop step : Z) : list Z :=
  match fuel with
  | O => []
  | S fuel' =>
      if stop <? cur then cur :: range_down fuel' (cur + step) stop step else []
  end.

(** [range(start, stop, step)]: a zero step raises [ValueError]. *)
Definition range (start stop step : Z) : result (list Z) :=
  if step =? 0 then
    Raise (Exn ValueError "range() arg 3 must not be zero")
  else if 0 <? step then
    Ret (range_up (Z.to_nat (stop - start)) start stop step)
  else
    Ret (range_down (Z.to_nat (start - stop)) start stop step).

(** [l[a:b]] for non-negative [a] and [b]; both ends are clamped to the
    length, and the slice is empty when [b <= a]. *)
Definition slice {A} (l : list A) (a b : Z) : list A :=
  skipn (Z.to_nat a) (firstn (Z.to_nat b) l).

Definition len {A} (l : list A) : Z := Z.of_nat (List.length l).

(** ** Floats

    A binary64 value is one of the special values or a finite rational;
    the finite values of the model are all the rationals, a superset of
    the binary64 values.  The package compares floats, formats them and
    subtracts 366.0 from them.  Comparisons and formatting depend on the
    exact value only.  A float object carries the text [str] gives for
    it, which the runtime determines. *)

Inductive fvalue :=
| FNan
| FInf (negative : bool)
| FNegZero
| FFin (q : Q).

Record pyfloat := PyFloatObj { fval : fvalue; frepr : string }.

Inductive pynum :=
| PyInt (z : Z)
| PyFloat (f : pyfloat).

(** The most decimal digits [str] renders of an [int]
    ([sys.get_int_max_str_digits()], at its default). *)
Definition INT_MAX_STR_DIGITS : Z := 4300.

(** [str(z)] and [repr(z)] for an [int]: an integer of more digits than
    the limit is refused. *)
Definition str_int (z : Z) : result string :=
  if 10 ^ INT_MAX_STR_DIGITS <=? Z.abs z then
    Raise (Exn ValueError
             "Exceeds the limit (4300 digits) for integer string conversion; use sys.set_int_max_str_digits() to increase the limit")
  else Ret (str_of_Z z).

(** [str(value)]; for a float it is the text the object carries. *)
Definition str_num (v : pynum) : result string :=
  match v with
  | PyInt z => str_int z
  | PyFloat f => Ret (frepr f)
  end.

(** A non-negative integer rounded to 53 significant bits, halves to
    even: the nearest binary64 value, should it be finite. *)
Definition round_to_53_bits (a : Z) : Z :=
  let e := Z.log2 a - 52 in
  if e <=? 0 then a
  else
    let q := a / 2 ^ e in
    let r := a mod 2 ^ e in
    let half := 2 ^ (e - 1) in
    let q := if (half <? r) || ((r =? half) && Z.odd q) then q + 1 else q in
    q * 2 ^ e.

(** [float(z)] for an [int]: the nearest binary64 value, halves to even;
    an integer that rounds to [2^1024] or beyond is refused. *)
Definition float_of_int (z : Z) : result fvalue :=
  let r := Z.sgn z * round_to_53_bits (Z.abs z) in
  if 2 ^ 1024 <=? Z.abs r then
    Raise (Exn OverflowError "int too large to convert to float")
  else Ret (FFin (inject_Z r)).

(** [float(value)] *)
Definition float_of_num (v : pynum) : result fvalue :=
  match v with
  | PyInt z => float_of_int z
  | PyFloat f => Ret (fval f)
  end.

(** [x - c] for a finite constant [c], taken exactly.  The binary64
    subtraction [x - 366.0] is exact for [183 <= x < 2^53]; for the other
    values the rounded difference, like the exact one, is below zero or
    far beyond the last day, and nothing else of it is looked at. *)
Definition fsub_const (x : fvalue) (c : Q) : fvalue :=
  match x with
  | FNan => FNan
  | FInf s => FInf s
  | FNegZero => FFin (0 - c)
  | FFin q => FFin (q - c)
  end.

(** The integer part of C's [modf]: truncation towards zero. *)
Definition Qtrunc (x : Q) : Z := Z.quot (Qnum x) (Zpos (Qden x)).

(** C's [round]: to the nearest integer, halves away from zero. *)
Definition c_round (x : Q) : Z :=
  if Qle_bool 0 x then Qfloor (x + (1 # 2)) else - Qfloor ((1 # 2) - x).

Definition Qabs_eqb_half (x : Q) : bool :=
  Qeq_bool x (1 # 2) || Qeq_bool x (- (1 # 2)).

(** Comparisons: anything involving NaN is false. *)
Definition fle (a b : fvalue) : bool :=
  match a, b with
  | FNan, _ | _, FNan => false
  | FInf true, _ => true
  | _, FInf false => true
  | FInf false, _ => false
  | _, FInf true => false
  | FNegZero, FNegZero => true
  | FNegZero, FFin q => Qle_bool 0 q
  | FFin q, FNegZero => Qle_bool q 0
  | FFin p, FFin q => Qle_bool p q
  end.

Definition flt (a b : fvalue) : bool :=
  match a, b with
  | FNan, _ | _, FNan => false
  | _, _ => negb (fle b a)
  end.

(** Round a non-negative rational to the nearest integer, halves to even. *)
Definition round_half_even (x : Q) : Z :=
  let f := Qfloor x in
  let r := (x - inject_Z f)%Q in
  match Qcompare r (1 # 2) with
  | Lt => f
  | Gt => f + 1
  | Eq => if Z.even f then f else f + 1
  end.

(** [format(x, ".Nf")] for a float: the exact value rounded to [n]
    decimals, halves to even; the sign is kept also when the digits are
    all zero. *)
Definition format_fixed (n : nat) (x : fvalue) : string :=
  let body (q : Q) :=
    let scaled := round_half_even (Qabs q * inject_Z (10 ^ Z.of_nat n)) in
    let ip := scaled / 10 ^ Z.of_nat n in
    let fp := scaled mod 10 ^ Z.of_nat n in
    str_of_Z ip +++ (match n with
                     | O => EmptyString
                     | S _ => "." +++ format_0d n fp
                     end) in
  match x with
  | FNan => "nan"
  | FInf false => "inf"
  | FInf true => "-inf"
  | FNegZero => "-" +++ body 0%Q
  | FFin q => (if Qlt_le_dec q 0 then "-" else EmptyString) +++ body q
  end.

(** [format(v, ".Nf")] for a number: an [int] is converted to [float]
    first. *)
Definition format_f (n : nat) (v : pynum) : result string :=
  (x <- float_of_num v ;; Ret (format_fixed n x))%result.

End Py.

Import Py.

(* ================================================================== *)
(** * The [datetime] module: proleptic Gregorian dates and durations *)
(* ================================================================== *)

(** The ordinal arithmetic follows the reference implementation of the
    module ([_ymd2ord], [_ord2ymd], [datetime.__add__], [_strptime]), the
    handling of a float number of days its C implementation. *)

Module Calendar.

(** ** Ordinals: day 1 is 0001-01-01 *)

Definition MINYEAR : Z := 1.
Definition MAXYEAR : Z := 9999.
Definition MAXORDINAL : Z := 3652059.

Definition is_leap (year : Z) : bool :=
  (year mod 4 =? 0) && (negb (year mod 100 =? 0) || (year mod 400 =? 0)).

Definition DAYS_IN_MONTH (month : Z) : Z :=
  match month with
  | 1 => 31 | 2 => 28 | 3 => 31 | 4 => 30 | 5 => 31 | 6 => 30
  | 7 => 31 | 8 => 31 | 9 => 30 | 10 => 31 | 11 => 30 | 12 => 31
  | _ => -1
  end.

Definition DAYS_BEFORE_MONTH (month : Z) : Z :=
  match month with
  | 1 => 0 | 2 => 31 | 3 => 59 | 4 => 90 | 5 => 120 | 6 => 151
  | 7 => 181 | 8 => 212 | 9 => 243 | 10 => 273 | 11 => 304 | 12 => 334
  | _ => -1
  end.

Definition days_before_year (year : Z) : Z :=
  let y := year - 1 in
  y * 365 + y / 4 - y / 100 + y / 400.

Definition days_in_month (year month : Z) : Z :=
  if (month =? 2) && is_leap year then 29 else DAYS_IN_MONTH month.

Definition days_before_month (year month : Z) : Z :=
  DAYS_BEFORE_MONTH month + (if (2 <? month) && is_leap year then 1 else 0).

Definition ymd2ord (year month day : Z) : Z :=
  days_before_year year + days_before_month year month + day.

Definition DI400Y : Z := 146097.
Definition DI100Y : Z := 36524.
Definition DI4Y : Z := 1461.

Record date := Date { year : Z; month : Z; day : Z }.

(** [_ord2ymd]: the date of an ordinal. *)
Definition ord2ymd (n : Z) : date :=
  let n := n - 1 in
  let n400 := n / DI400Y in
  let n := n mod DI400Y in
  let year := n400 * 400 + 1 in
  let n100 := n / DI100Y in
  let n := n mod DI100Y in
  let n4 := n / DI4Y in
  let n := n mod DI4Y in
  let n1 := n / 365 in
  let n := n mod 365 in
  let year := year + n100 * 100 + n4 * 4 + n1 in
  if (n1 =? 4) || (n100 =? 4) then Date (year - 1) 12 31
  else
    let leapyear := (n1 =? 3) && (negb (n4 =? 24) || (n100 =? 3)) in
    let month := Z.shiftr (n + 50) 5 in
    let preceding :=
      DAYS_BEFORE_MONTH month + (if (2 <? month) && leapyear then 1 else 0) in
    if n <? preceding then
      let month := month - 1 in
      let preceding :=
        preceding - (DAYS_IN_MONTH month
                     + (if (month =? 2) && leapyear then 1 else 0)) in
      Date year month (n - preceding + 1)
    else Date year month (n - preceding + 1).

(** ** Durations *)

Record timedelta := Timedelta { td_days : Z; td_seconds : Z; td_microseconds : Z }.

Definition US_PER_SECOND : Z := 1000000.
Definition SECONDS_PER_DAY : Z := 86400.
Definition US_PER_DAY : Z := 86400000000.

(** [microseconds_to_delta]: split a whole number of microseconds; the day
    count must have magnitude at most 999999999. *)
Definition microseconds_to_delta (us : Z) : result timedelta :=
  let s := us / US_PER_SECOND in
  let us := us mod US_PER_SECOND in
  let d := s / SECONDS_PER_DAY in
  let s := s mod SECONDS_PER_DAY in
  if 999999999 <? Z.abs d then
    Raise (Exn OverflowError "days; must have magnitude <= 999999999")
  else Ret (Timedelta d s us).

(** The leftover fraction of a microsecond is rounded to the nearest whole
    microsecond; exactly halfway, the parity of the total [x] so far
    decides, so that the sum comes out even. *)
Definition whole_microseconds (x : Z) (leftover_us : Q) : Z :=
  let whole_us := c_round leftover_us in
  if Qabs_eqb_half (inject_Z whole_us - leftover_us) then
    let x_is_odd := if Z.odd x then 1 else 0 in
    2 * c_round ((leftover_us + inject_Z x_is_odd) * (1 # 2)) - x_is_odd
  else whole_us.

(** The whole microseconds of [timedelta(days=x)] for a finite [x]: the
    integer part of [x] is scaled exactly; the fraction is scaled, split
    again, and what is left over is rounded.  The product of the fraction
    and [US_PER_DAY] is taken exactly (binary64 rounds it by less than
    [2^-16] microseconds). *)
Definition days_to_microseconds (x : Q) : Z :=
  let intpart := Qtrunc x in
  let fracpart := (x - inject_Z intpart)%Q in
  let sum := intpart * US_PER_DAY in
  if Qeq_bool fracpart 0 then sum
  else
    let dnum := (inject_Z US_PER_DAY * fracpart)%Q in
    let intpart := Qtrunc dnum in
    let leftover_us := (dnum - inject_Z intpart)%Q in
    let x := sum + intpart in
    if Qeq_bool leftover_us 0 then x
    else x + whole_microseconds x leftover_us.

(** [timedelta(days=x)] for a float [x]. *)
Definition timedelta_of_days (x : fvalue) : result timedelta :=
  match x with
  | FNan => Raise (Exn ValueError "cannot convert float NaN to integer")
  | FInf _ => Raise (Exn OverflowError "cannot convert float infinity to integer")
  | FNegZero => microseconds_to_delta (days_to_microseconds 0)
  | FFin q => microseconds_to_delta (days_to_microseconds q)
  end.

(** [timedelta(days, seconds, microseconds)] on integers: carries are
    propagated upwards. *)
Definition timedelta_of_ints (d s us : Z) : result timedelta :=
  let s := s + us / US_PER_SECOND in
  let us := us mod US_PER_SECOND in
  let d := d + s / SECONDS_PER_DAY in
  let s := s mod SECONDS_PER_DAY in
  if 999999999 <? Z.abs d then
    Raise (Exn OverflowError "timedelta # of days is too large")
  else Ret (Timedelta d s us).

(** ** Timestamps *)

Record datetime := Datetime {
  dt_date : date;
  dt_hour : Z; dt_minute : Z; dt_second : Z; dt_microsecond : Z }.

(** [datetime(y, m, d)] with valid fields. *)
Definition datetime_ymd (y m d : Z) : datetime := Datetime (Date y m d) 0 0 0 0.

Definition toordinal (d : date) : Z := ymd2ord (year d) (month d) (day d).

(** [datetime.__add__]: turn the timestamp into a duration since ordinal 0,
    add, and rebuild; the resulting ordinal must lie in [1, MAXORDINAL]. *)
Definition datetime_add (self : datetime) (other : timedelta) : result datetime :=
  (delta <- timedelta_of_ints
             (toordinal (dt_date self) + td_days other)
             (dt_hour self * 3600 + dt_minute self * 60 + dt_second self
              + td_seconds other)
             (dt_microsecond self + td_microseconds other) ;;
   let hour := td_seconds delta / 3600 in
   let rem := td_seconds delta mod 3600 in
   let minute := rem / 60 in
   let second := rem mod 60 in
   if (0 <? td_days delta) && (td_days delta <=? MAXORDINAL) then
     Ret (Datetime (ord2ymd (td_days delta)) hour minute second
                   (td_microseconds delta))
   else Raise (Exn OverflowError "date value out of range"))%result.

(** ** Formatting and parsing *)

(** How the C library renders [%Y]: four digits with leading zeros, or
    the bare decimal (glibc) for years below 1000. *)
Record platform := Platform { pads_year : bool }.

Definition format_Y (p : platform) (y : Z) : string :=
  if pads_year p then format_0d 4 y else str_of_Z y.

(** [strftime("%Y-%m-%d")] *)
Definition strftime_ymd (p : platform) (d : date) : string :=
  format_Y p (year d) +++ "-" +++ format_0d 2 (month d) +++ "-" +++ format_0d 2 (day d).

(** The ISO 8601 calendar date [YYYY-MM-DD]. *)
Definition isoformat (d : date) : string :=
  format_0d 4 (year d) +++ "-" +++ format_0d 2 (month d) +++ "-" +++ format_0d 2 (day d).

(** ** The calendar, one day at a time

    The reading of "a date plus [n] days" that does not go through
    ordinals: step to the following (or preceding) day [n] times. *)

Definition next_day (d : date) : date :=
  if day d <? days_in_month (year d) (month d) then
    Date (year d) (month d) (day d + 1)
  else if month d <? 12 then Date (year d) (month d + 1) 1
  else Date (year d + 1) 1 1.

Definition prev_day (d : date) : date :=
  if 1 <? day d then Date (year d) (month d) (day d - 1)
  else if 1 <? month d then
    Date (year d) (month d - 1) (days_in_month (year d) (month d - 1))
  else Date (year d - 1) 12 31.

Definition plus_days (d : date) (n : Z) : date :=
  if 0 <=? n then Nat.iter (Z.to_nat n) next_day d
  else Nat.iter (Z.to_nat (- n)) prev_day d.

(** ** Decimal digits

    [\d] in a pattern on [str] matches every character of the category
    Nd, and [int] reads every one of them.  The characters of that
    category come in runs of ten, from the zero to the nine of a script;
    the table lists the zeros (Unicode 14.0, the version of CPython
    3.11). *)

Definition DECIMAL_ZEROS : list Z :=
  [48; 1632; 1776; 1984; 2406; 2534; 2662; 2790; 2918; 3046; 3174; 3302; 3430;
   3558; 3664; 3792; 3872; 4160; 4240; 6112; 6160; 6470; 6608; 6784; 6800; 6992;
   7088; 7232; 7248; 42528; 43216; 43264; 43472; 43504; 43600; 44016; 65296;
   66720; 68912; 69734; 69872; 69942; 70096; 70384; 70736; 70864; 71248; 71360;
   71472; 71904; 72016; 72784; 73040; 73120; 92768; 92864; 93008; 120782; 120792;
   120802; 120812; 120822; 123200; 123632; 125264; 130032].

(** The value of a decimal digit, given by its code point. *)
Definition decimal_value (cp : Z) : option Z :=
  match find (fun zero => (zero <=? cp) && (cp <? zero + 10)) DECIMAL_ZEROS with
  | Some zero => Some (cp - zero)
  | None => None
  end.

Definition byte (c : ascii) : Z := Z.of_nat (nat_of_ascii c).

(** The six low bits of a continuation byte. *)
Definition continuation (c : ascii) : option Z :=
  if is_continuation c then Some (byte c - 128) else None.

(** The first character of a string in UTF-8, as a code point, and the
    bytes after it; a character has one encoding, the shortest. *)
Definition next_char (s : string) : option (Z * string) :=
  match s with
  | EmptyString => None
  | String b0 s1 =>
      let n0 := byte b0 in
      if n0 <? 128 then Some (n0, s1)
      else if n0 <? 194 then None
      else if n0 <? 224 then
        match s1 with
        | String b1 s2 =>
            match continuation b1 with
            | Some n1 => Some ((n0 - 192) * 64 + n1, s2)
            | None => None
            end
        | EmptyString => None
        end
      else if n0 <? 240 then
        match s1 with
        | String b1 (String b2 s3) =>
            match continuation b1, continuation b2 with
            | Some n1, Some n2 =>
                let cp := (n0 - 224) * 4096 + n1 * 64 + n2 in
                if cp <? 2048 then None else Some (cp, s3)
            | _, _ => None
            end
        | _ => None
        end
      else if n0 <? 245 then
        match s1 with
        | String b1 (String b2 (String b3 s4)) =>
            match continuation b1, continuation b2, continuation b3 with
            | Some n1, Some n2, Some n3 =>
                let cp := (n0 - 240) * 262144 + n1 * 4096 + n2 * 64 + n3 in
                if (cp <? 65536) || (1114111 <? cp) then None else Some (cp, s4)
            | _, _, _ => None
            end
        | _ => None
        end
      else None
  end.

(** [\d]: one decimal digit of any script, with its value. *)
Definition parse_digit (s : string) : option (Z * string) :=
  match next_char s with
  | Some (cp, rest) =>
      match decimal_value cp with
      | Some v => Some (v, rest)
      | None => None
      end
  | None => None
  end.

(** [strptime(s, "%Y-%m-%d")].  The directives match the regular
    expressions of [_strptime]: [%Y] is [\d\d\d\d], [%m] is
    [1[0-2]|0[1-9]|[1-9]], [%d] is [3[01]|[12]\d|0[1-9]|[1-9]| [1-9]]; the
    whole string must be consumed and the fields must form a date.  The
    classes written with brackets hold ASCII digits only.  The message of
    a string that does not match also quotes the string, which is left
    out here. *)

Definition digit_of (c : ascii) : option Z :=
  let n := Z.of_nat (nat_of_ascii c) in
  if (48 <=? n) && (n <=? 57) then Some (n - 48) else None.

Definition digit_in (lo hi : Z) (c : ascii) : option Z :=
  match digit_of c with
  | Some v => if (lo <=? v) && (v <=? hi) then Some v else None
  | None => None
  end.

Definition parse_Y (s : string) : option (Z * string) :=
  match parse_digit s with
  | Some (a, s1) =>
      match parse_digit s1 with
      | Some (b, s2) =>
          match parse_digit s2 with
          | Some (c, s3) =>
              match parse_digit s3 with
              | Some (d, rest) => Some (a * 1000 + b * 100 + c * 10 + d, rest)
              | None => None
              end
          | None => None
          end
      | None => None
      end
  | None => None
  end.

Definition parse_literal (c : ascii) (s : string) : option string :=
  match s with
  | String c' rest => if Ascii.eqb c c' then Some rest else None
  | EmptyString => None
  end.

(** Two characters [a b] with [a] in [alo..ahi] and [b] in [blo..bhi]. *)
Definition parse_two (alo ahi blo bhi : Z) (s : string) : option (Z * string) :=
  match s with
  | String a (String b rest) =>
      match digit_in alo ahi a, digit_in blo bhi b with
      | Some a, Some b => Some (a * 10 + b, rest)
      | _, _ => None
      end
  | _ => None
  end.

(** A character [a] in [alo..ahi] followed by [\d]. *)
Definition parse_then_digit (alo ahi : Z) (s : string) : option (Z * string) :=
  match s with
  | String a s1 =>
      match digit_in alo ahi a, parse_digit s1 with
      | Some a, Some (b, rest) => Some (a * 10 + b, rest)
      | _, _ => None
      end
  | EmptyString => None
  end.

Definition parse_one (lo hi : Z) (s : string) : option (Z * string) :=
  match s with
  | String a rest =>
      match digit_in lo hi a with
      | Some a => Some (a, rest)
      | None => None
      end
  | EmptyString => None
  end.

Definition orelse {A} (a b : option A) : option A :=
  match a with
  | Some _ => a
  | None => b
  end.

(** The month, followed by the literal that comes after it in the format
    (an alternative is only taken when the rest of the pattern matches). *)
Definition parse_m_then (c : ascii) (s : string) : option (Z * string) :=
  let alt (r : option (Z * string)) :=
    match r with
    | Some (v, rest) =>
        match parse_literal c rest with
        | Some rest' => Some (v, rest')
        | None => None
        end
    | None => None
    end in
  orelse (alt (parse_two 1 1 0 2 s))
         (orelse (alt (parse_two 0 0 1 9 s)) (alt (parse_one 1 9 s))).

Definition parse_d (s : string) : option (Z * string) :=
  orelse (parse_two 3 3 0 1 s)
   (orelse (parse_then_digit 1 2 s)
     (orelse (parse_two 0 0 1 9 s)
       (orelse (parse_one 1 9 s)
               (match parse_literal " " s with
                | Some rest => parse_one 1 9 rest
                | None => None
                end)))).

Definition strptime_ymd (s : string) : result datetime :=
  let no_match := Raise (Exn ValueError "time data does not match format '%Y-%m-%d'") in
  match parse_Y s with
  | None => no_match
  | Some (y, s1) =>
      match parse_literal "-" s1 with
      | None => no_match
      | Some s2 =>
          match parse_m_then "-" s2 with
          | None => no_match
          | Some (m, s3) =>
              match parse_d s3 with
              | None => no_match
              | Some (d, EmptyString) =>
                  if (y <? MINYEAR) || (MAXYEAR <? y) then
                    Raise (Exn ValueError ("year " +++ str_of_Z y +++ " is out of range"))
                  else if days_in_month y m <? d then
                    Raise (Exn ValueError "day is out of range for month")
                  else Ret (datetime_ymd y m d)
              | Some (_, String c rest) =>
                  Raise (Exn ValueError ("unconverted data remains: " +++ String c rest))
              end
          end
      end
  end.

(** [self <= other] on timestamps: field by field. *)
Definition datetime_key (d : datetime) : list Z :=
  [year (dt_date d); month (dt_date d); day (dt_date d);
   dt_hour d; dt_minute d; dt_second d; dt_microsecond d].

Fixpoint lex_le (a b : list Z) : bool :=
  match a, b with
  | x :: a', y :: b' => (x <? y) || ((x =? y) && lex_le a' b')
  | [], _ => true
  | _ :: _, [] => false
  end.

Definition datetime_le (a b : datetime) : bool :=
  lex_le (datetime_key a) (datetime_key b).

End Calendar.

(* ================================================================== *)
(** * The outside world: HTTP, files, datasets, the console *)
(* ================================================================== *)

Module IO.
Import Calendar.

(** JSON bodies. *)
#[warnings="-register-all"] Inductive json :=
| JNull
| JNum (x : fvalue)
| JStr (s : string)
| JList (l : list json)
| JObj (fields : list (string * json)).

Inductive http_client := Httpx | Requests.

(** What a POST is issued with.  Timeouts are in seconds. *)
Record http_request := HttpRequest {
  rq_client : http_client;
  rq_url : string;
  rq_json : json;
  rq_connect_timeout : Q;
  rq_read_timeout : Q;
  rq_follow_redirects : bool }.

(** A response.  [json_repr] is the text of the decoded body when the body
    is valid JSON. *)
Record response := Response {
  status_code : Z;
  headers : list (string * string);
  text : string;
  content : string;
  json_repr : option string }.

(** A dataset as the merge step sees it: records along the
    [profile_number] dimension, each with its coordinate value, and the
    global attributes. *)
Record profile := Profile { profile_number : Z; profile_data : string }.

Record dataset := Dataset {
  ds_profiles : list profile;
  ds_attrs : list (string * string) }.

Inductive event :=
| EvPrint (line : string)
| EvWarn (message : string)
| EvPost (rq : http_request)
| EvWriteFile (path : string) (data : string)
| EvMakedirs (path : string)
| EvOpenDataset (path : string)
| EvToNetcdf (path : string) (ds : dataset)
| EvCloseDataset (ds : dataset).

Definition trace := list event.

(** The environment answers every request of the program; an answer may
    depend on everything that happened before. *)
Record world := World {
  w_platform : platform;
  w_post : trace -> http_request -> result response;
  w_write_file : trace -> string -> string -> result unit;
  w_path_exists : trace -> string -> bool;
  w_makedirs : trace -> string -> result unit;
  w_xarray_installed : bool;
  w_open_dataset : trace -> string -> result dataset;
  w_to_netcdf : trace -> string -> dataset -> result unit;
  w_running_loop : bool }.

(** [w_running_loop] tells whether the calling thread runs an [asyncio]
    event loop, as a notebook cell or a coroutine does: what
    [asyncio.get_running_loop()] finds. *)

(** How a call ends when it does not raise: it returns, or it waits for
    ever. *)
Inductive call (A : Type) :=
| Returned (a : A)
| Blocked.
Arguments Returned {A} a.
Arguments Blocked {A}.

(** Computations that extend the trace and return or raise. *)
Definition M (A : Type) : Type := trace -> result A * trace.

Definition ret {A} (a : A) : M A := fun t => (Ret a, t).
Definition raise {A} (e : exn) : M A := fun t => (Raise e, t).

Definition bind {A B} (m : M A) (k : A -> M B) : M B :=
  fun t =>
    match m t with
    | (Ret a, t') => k a t'
    | (Raise e, t') => (Raise e, t')
    end.

(** [try: m  except Exception as exc: ...]: the outcome of [m] as a value. *)
Definition try {A} (m : M A) : M (result A) :=
  fun t => let (r, t') := m t in (Ret r, t').

Definition lift {A} (r : result A) : M A := fun t => (r, t).

Definition emit (e : event) : M unit := fun t => (Ret tt, t ++ [e]).

Definition print (line : string) : M unit := emit (EvPrint line).

(** An effect that asks the world: the event is recorded, then the
    world's answer (computed from the history before the event) is
    returned or raised. *)
Definition ask {A} (e : event) (answer : trace -> result A) : M A :=
  fun t => (answer t, t ++ [e]).

Declare Scope io_scope.
Delimit Scope io_scope with io.
Notation "x <- m ;; k" := (bind m (fun x => k))
  (at level 100, m at next level, right associativity) : io_scope.
Notation "m ;; k" := (bind m (fun _ => k))
  (at level 100, right associativity) : io_scope.

Definition posts (t : trace) : list http_request :=
  flat_map (fun e => match e with EvPost rq => [rq] | _ => [] end) t.

(** ** Header lookup ([Headers.get] ignores case) *)

Definition lower_ascii (c : ascii) : ascii :=
  let n := nat_of_ascii c in
  if (Nat.leb 65 n && Nat.leb n 90)%bool then ascii_of_nat (n + 32) else c.

Fixpoint lower (s : string) : string :=
  match s with
  | EmptyString => EmptyString
  | String c s' => String (lower_ascii c) (lower s')
  end.

Fixpoint headers_get (h : list (string * string)) (name : string) : option string :=
  match h with
  | [] => None
  | (k, v) :: h' => if String.eqb (lower k) (lower name) then Some v else headers_get h' name
  end.

End IO.

(* ================================================================== *)
(** * [utils.py] *)
(* ================================================================== *)

Module Utils.
Import Calendar IO.

(** ** Inputs after [np.asarray]

    [_as_numpy_array] hands every input to NumPy; what the package then
    looks at is the kind of the array, its number of dimensions and its
    elements. *)

(** Coordinates.  An array of one or more dimensions is given by its
    elements in C order, which is the order [ravel] and [tolist] keep: of
    kind [i] or [u] by its integers, of another kind that [astype(float)]
    converts by the floats it converts to.  An array of no dimension (a
    scalar handed in as it is) holds one element.  [CoordRefused] is an
    array [astype(float)] raises on, with the exception. *)
Inductive coord_array :=
| CoordFloat (l : list fvalue)
| CoordInt (l : list Z)
| CoordFloatScalar (x : fvalue)
| CoordIntScalar (z : Z)
| CoordRefused (e : exn).

(** What [tolist()] returns: a list, or the bare float of an array of no
    dimension. *)
Inductive floats :=
| FList (l : list fvalue)
| FScalar (x : fvalue).

(** An element of an object array: a number, a [datetime], or anything
    else, given by what [str] returns for it. *)
Inductive pyobj :=
| ONum (v : pynum)
| ODatetime (d : datetime)
| OText (s : string).

(** Dates.  [convert_date_to_iso_strings] wraps a scalar in a list and
    does not flatten: it goes through the entries along the first axis.
    - [DatesFloat], [DatesInt]: one dimension, kind [f], [i];
    - [DatesDatetime64]: kind [M], each entry given by the text of its
      value at day precision (of a row of values, with two dimensions or
      more);
    - [DatesText]: kind [U] or [S], which is also what a list that mixes
      numbers and strings becomes;
    - [DatesObject]: any other kind, one dimension;
    - [DatesNested]: two dimensions or more, of a kind other than [M];
      [tolist()] gives a list for each entry, and the entry is given by
      the text of that list;
    - [DatesNoDimension]: an array of no dimension, which cannot be
      iterated; the message names the type. *)
Inductive date_array :=
| DatesFloat (l : list pyfloat)
| DatesInt (l : list Z)
| DatesDatetime64 (l : list string)
| DatesText (l : list string)
| DatesObject (l : list pyobj)
| DatesNested (l : list string)
| DatesNoDimension (message : string).

(** [_to_float_list]: [arr.ravel().astype(float).tolist()]. *)
Definition _to_float_list (data : coord_array) : result floats :=
  match data with
  | CoordFloat l => Ret (FList l)
  | CoordInt l => (l' <- map_result float_of_int l ;; Ret (FList l'))%result
  | CoordFloatScalar x => Ret (FScalar x)
  | CoordIntScalar z => (x <- float_of_int z ;; Ret (FScalar x))%result
  | CoordRefused e => Raise e
  end.

(** [len(x)] on what [_to_float_list] returned. *)
Definition len_floats (x : floats) : result Z :=
  match x with
  | FList l => Ret (len l)
  | FScalar _ => Raise (Exn TypeError "object of type 'float' has no len()")
  end.

(** [_datenum_to_iso_string]: the whole body is guarded by
    [except Exception], whose handler returns [str(value)]; what [str]
    raises there reaches the caller. *)
Definition _datenum_to_iso_string (p : platform) (value : pynum) : result string :=
  match (x <- float_of_num value ;;
         let days_since_year1 := fsub_const x 366 in
         let base := datetime_ymd 1 1 1 in
         td <- timedelta_of_days days_since_year1 ;;
         dt <- datetime_add base td ;;
         Ret (strftime_ymd p (dt_date dt)))%result with
  | Ret s => Ret s
  | Raise _ => str_num value
  end.

(** [convert_date_to_iso_strings] *)
Definition convert_date_to_iso_strings (p : platform) (arr : date_array)
  : result (list string) :=
  match arr with
  | DatesFloat l => map_result (fun v => _datenum_to_iso_string p (PyFloat v)) l
  | DatesInt l => map_result (fun v => _datenum_to_iso_string p (PyInt v)) l
  | DatesDatetime64 l => Ret l
  | DatesText l => Ret l
  | DatesObject l =>
      map_result (fun v =>
                    match v with
                    | ONum n => _datenum_to_iso_string p n
                    | ODatetime d => Ret (strftime_ymd p (dt_date d))
                    | OText s => Ret s
                    end) l
  | DatesNested l => Ret l
  | DatesNoDimension message => Raise (Exn TypeError message)
  end.

(** [preprocess_inputs] *)
Definition preprocess_inputs (p : platform) (lat lon : coord_array) (date : date_array)
  : result (floats * floats * list string) :=
  (lat_out <- _to_float_list lat ;;
   lon_out <- _to_float_list lon ;;
   date_out <- convert_date_to_iso_strings p date ;;
   Ret (lat_out, lon_out, date_out))%result.

(** ** Dictionaries with string keys, in insertion order *)

Fixpoint dict_set (d : list (string * string)) (k v : string) : list (string * string) :=
  match d with
  | [] => [(k, v)]
  | (k', v') :: d' =>
      if String.eqb k' k then (k', v) :: d' else (k', v') :: dict_set d' k v
  end.

Definition dict_update (d extra : list (string * string)) : list (string * string) :=
  fold_left (fun acc kv => dict_set acc (fst kv) (snd kv)) extra d.

Definition default_attrs : list (string * string) :=
  [("coordinate_system", "geographic");
   ("institution", "COAPS, FSU");
   ("author", "Jose Roberto Miranda");
   ("contact", "jrm22n@fsu.edu");
   ("DOI", "https://doi.org/10.1016/j.ocemod.2025.102550")].

(** [apply_netcdf_global_attributes] *)
Definition apply_netcdf_global_attributes
  (ds : dataset) (extra_attrs : option (list (string * string))) : dataset :=
  let defaults :=
    match extra_attrs with
    | Some (kv :: extra) => dict_update default_attrs (kv :: extra)
    | _ => default_attrs
    end in
  Dataset (ds_profiles ds) (dict_update (ds_attrs ds) defaults).

End Utils.

(* ================================================================== *)
(** * [profile.py] *)
(* ================================================================== *)

Module Profile.
Import Calendar IO Utils.
Local Open Scope io_scope.

Definition DEFAULT_API : string := "http://localhost:5000/v1/profile".
Definition DEFAULT_TIMEOUT : Q := 1800.
Definition DEFAULT_CONNECT_TIMEOUT : Q := 10.

(** Truth value of a [str | None]. *)
Definition truthy (r : option string) : bool :=
  match r with
  | Some s => negb (String.eqb s EmptyString)
  | None => false
  end.

(** [httpx.Timeout(DEFAULT_TIMEOUT, connect=DEFAULT_CONNECT_TIMEOUT)] on a
    client created with [follow_redirects=False]. *)
Definition profile_request (api_url : string) (data : json) : http_request :=
  HttpRequest Httpx api_url data DEFAULT_CONNECT_TIMEOUT DEFAULT_TIMEOUT false.

(** [fetch_predictions] *)
Definition fetch_predictions (w : world) (lat lon date : json)
  (filename : string) (api_url : option string) : M (option string) :=
  let api_url := if truthy api_url then match api_url with Some u => u | None => DEFAULT_API end
                 else DEFAULT_API in
  (if endswith api_url "/predict"
   then emit (EvWarn "You are using the deprecated /predict endpoint. Use /v1/profile.")
   else ret tt) ;;
  let data := JObj [("lat", lat); ("lon", lon); ("date", date)] in
  let rq := profile_request api_url data in
  r <- try (ask (EvPost rq) (fun t => w_post w t rq)) ;;
  match r with
  | Raise exc =>
      print ("HTTP error: " +++ exn_msg exc) ;;
      ret None
  | Ret response =>
      if negb (status_code response =? 200) then
        print ("Request failed: " +++ str_of_Z (status_code response) +++ " – "
               +++ str_take 200 (text response)) ;;
        ret None
      else if negb (startswith
                      (match headers_get (headers response) "Content-Type" with
                       | Some v => v
                       | None => EmptyString
                       end)
                      "application/x-netcdf") then
        print ("Unexpected content type: "
               +++ match headers_get (headers response) "Content-Type" with
                   | Some v => v
                   | None => "None"
                   end) ;;
        ret None
      else
        wr <- try (ask (EvWriteFile filename (content response))
                       (fun t => w_write_file w t filename (content response))) ;;
        match wr with
        | Raise exc =>
            print ("Failed to write " +++ filename +++ ": " +++ exn_msg exc) ;;
            ret None
        | Ret _ => ret (Some filename)
        end
  end.

(** The JSON form of what [_to_float_list] returned. *)
Definition json_of_floats (x : floats) : json :=
  match x with
  | FList l => JList (map JNum l)
  | FScalar v => JNum v
  end.

(** [get_predictions].  Without a running loop, [asyncio.run] drives the
    coroutine to its end and returns its value.  With a loop running in
    the calling thread, the coroutine is handed to that loop by
    [run_coroutine_threadsafe] and the thread then waits in [.result()]:
    it is the thread the loop runs in, so the coroutine is never started
    and the call does not return. *)
Definition get_predictions (w : world) (lat lon : coord_array) (date : date_array)
  (filename : string) (api_url : option string) : M (call (option string)) :=
  inputs <- lift (preprocess_inputs (w_platform w) lat lon date) ;;
  let '(lat, lon, date) := inputs in
  n <- lift (len_floats lat) ;;
  print ("Fetching predictions for " +++ str_of_Z n +++ " points...") ;;
  if w_running_loop w then ret Blocked
  else
    r <- fetch_predictions w (json_of_floats lat) (json_of_floats lon)
                           (JList (map JStr date)) filename api_url ;;
    ret (Returned r).

(** ** The merge step *)

(** [xr.concat(datasets, dim="profile_number")]: the records of the
    datasets one after the other, in the order of the list; the global
    attributes of the first dataset are kept.  An empty list is refused. *)
Definition xr_concat (datasets : list dataset) : result dataset :=
  match datasets with
  | [] => Raise (Exn ValueError "must supply at least one object to concatenate")
  | ds :: _ => Ret (Dataset (flat_map ds_profiles datasets) (ds_attrs ds))
  end.

(** [np.arange(n)] *)
Definition arange (n : nat) : list Z := map Z.of_nat (seq 0 n).

(** [ds.assign_coords(profile_number=values)] *)
Definition assign_coords (ds : dataset) (values : list Z) : dataset :=
  Dataset
    (map (fun pv => Profile (snd pv) (profile_data (fst pv)))
         (combine (ds_profiles ds) values))
    (ds_attrs ds).

(** The loop that opens the inputs.  [datasets] is the list the source
    appends to; it is returned together with the outcome because the
    [finally] clause needs it also when an [open_dataset] raised. *)
Fixpoint open_all (w : world) (n i : Z) (files : list string) (datasets : list dataset)
  : M (list dataset * result unit) :=
  match files with
  | [] => ret (datasets, Ret tt)
  | filename :: rest =>
      print ("  Loading file " +++ str_of_Z (i + 1) +++ "/" +++ str_of_Z n +++ ": "
             +++ filename) ;;
      r <- try (ask (EvOpenDataset filename) (fun t => w_open_dataset w t filename)) ;;
      match r with
      | Ret ds => open_all w n (i + 1) rest (datasets ++ [ds])
      | Raise e => ret (datasets, Raise e)
      end
  end.

Fixpoint close_all (datasets : list dataset) : M unit :=
  match datasets with
  | [] => ret tt
  | ds :: rest => emit (EvCloseDataset ds) ;; close_all rest
  end.

(** [merge_netcdf_files] *)
Definition merge_netcdf_files (w : world) (file_list : list string)
  (output_filename : string) : M (option string) :=
  if negb (w_xarray_installed w) then
    print "xarray is required for merging NetCDF files. Install with: pip install nespreso-client[merge]" ;;
    ret None
  else
    match file_list with
    | [] => print "No files to merge" ;; ret None
    | _ :: _ =>
        print ("Merging " +++ str_of_Z (len file_list) +++ " NetCDF files into "
               +++ output_filename) ;;
        opened <- open_all w (len file_list) 0 file_list [] ;;
        let '(datasets, r) := opened in
        outcome <-
          match r with
          | Raise e => ret (Raise e)
          | Ret _ =>
              try (print "  Concatenating datasets..." ;;
                   merged_ds <- lift (xr_concat datasets) ;;
                   let merged_ds :=
                     assign_coords merged_ds
                                   (arange (List.length (ds_profiles merged_ds))) in
                   let merged_ds := apply_netcdf_global_attributes merged_ds None in
                   print ("  Writing merged dataset to " +++ output_filename) ;;
                   ask (EvToNetcdf output_filename merged_ds)
                       (fun t => w_to_netcdf w t output_filename merged_ds) ;;
                   print ("Successfully merged " +++ str_of_Z (len file_list)
                          +++ " files into " +++ output_filename) ;;
                   ret output_filename)
          end ;;
        result <-
          match outcome with
          | Ret f => ret (Some f)
          | Raise exc => print ("Error merging files: " +++ exn_msg exc) ;; ret None
          end ;;
        close_all datasets ;;
        ret result
    end.

(** ** The batch orchestrator *)

(** What one iteration of the loop prepares before it calls
    [get_predictions]. *)
Record batch := Batch {
  b_start : Z;
  b_end : Z;
  b_lat : list fvalue;
  b_lon : list fvalue;
  b_date : list string;
  b_number : Z;
  b_filename : string }.

Definition make_batch (lat lon : list fvalue) (date : list string)
  (total_points batch_size : Z) (filename_prefix : string) (start_index : Z) : batch :=
  let end_index := Z.min (start_index + batch_size) total_points in
  Batch start_index end_index
        (slice lat start_index end_index)
        (slice lon start_index end_index)
        (slice date start_index end_index)
        (start_index / batch_size + 1)
        (filename_prefix +++ "_batch_" +++ format_0d 3 (start_index / batch_size + 1)
         +++ ".nc").

(** The array [np.asarray] makes of a list of strings: of kind [U], or,
    for the empty list, of kind [f].  An element of a [U] array is read
    back without the NUL characters it ends with. *)
Definition array_of_texts (l : list string) : date_array :=
  match l with
  | [] => DatesFloat []
  | _ :: _ => DatesText (map rstrip_nul l)
  end.

(** The body of the loop after the batch is prepared.  A call of
    [get_predictions] that does not return leaves the loop waiting. *)
Definition process_batch (w : world) (api_url : option string) (total_points : Z)
  (successful_files : list string) (b : batch) : M (call (list string)) :=
  print ("Processing batch " +++ str_of_Z (b_number b) +++ " ("
         +++ str_of_Z (b_start b + 1) +++ "-" +++ str_of_Z (b_end b) +++ " of "
         +++ str_of_Z total_points +++ ")") ;;
  r <- try (get_predictions w (CoordFloat (b_lat b)) (CoordFloat (b_lon b))
                            (array_of_texts (b_date b))
                            (b_filename b) api_url) ;;
  match r with
  | Ret Blocked => ret Blocked
  | Ret (Returned result) =>
      if truthy result then
        match result with
        | Some f =>
            print ("Batch " +++ str_of_Z (b_number b) +++ " completed successfully: " +++ f) ;;
            ret (Returned (successful_files ++ [f]))
        | None => ret (Returned successful_files)
        end
      else
        print ("Batch " +++ str_of_Z (b_number b) +++ " failed") ;;
        ret (Returned successful_files)
  | Raise exc =>
      print ("Batch " +++ str_of_Z (b_number b) +++ " failed with error: " +++ exn_msg exc) ;;
      ret (Returned successful_files)
  end.

(** [for x in items: s = body(s, x)], up to the first call that does not
    return. *)
Fixpoint for_each {A S} (body : S -> A -> M (call S)) (items : list A) (s : S)
  : M (call S) :=
  match items with
  | [] => ret (Returned s)
  | x :: rest =>
      r <- body s x ;;
      match r with
      | Returned s' => for_each body rest s'
      | Blocked => ret Blocked
      end
  end.

(** What the orchestrator returns: one path, or a list of paths. *)
Inductive batch_output :=
| OutFile (path : string)
| OutFiles (paths : list string).

(** The batches of a run, in the order of the loop. *)
Definition batches (lat lon : list fvalue) (date : list string)
  (batch_size : Z) (filename_prefix : string) : result (list batch) :=
  (starts <- range 0 (len lat) batch_size ;;
   Ret (map (make_batch lat lon date (len lat) batch_size filename_prefix) starts))%result.

(** The same when [lon] may be a bare float: [lon[start:end]] then raises
    in the first iteration, before anything is sent; without an iteration
    nothing is sliced. *)
Definition batches_of (lat : list fvalue) (lon : floats) (date : list string)
  (batch_size : Z) (filename_prefix : string) : result (list batch) :=
  match lon with
  | FList lon => batches lat lon date batch_size filename_prefix
  | FScalar _ =>
      (starts <- range 0 (len lat) batch_size ;;
       match starts with
       | [] => Ret []
       | _ :: _ => Raise (Exn TypeError "'float' object is not subscriptable")
       end)%result
  end.

(** The code after the loop. *)
Definition finish (w : world) (merge_output : bool) (filename_prefix : string)
  (successful_files : list string) : M batch_output :=
  if merge_output && (1 <? len successful_files) then
    let final_output :=
      if endswith filename_prefix ".nc" then filename_prefix
      else filename_prefix +++ ".nc" in
    print ("Auto-merging " +++ str_of_Z (len successful_files) +++ " batch files into "
           +++ final_output) ;;
    merged_file <- merge_netcdf_files w successful_files final_output ;;
    if truthy merged_file then
      match merged_file with
      | Some f => print ("Successfully created merged output: " +++ f) ;; ret (OutFile f)
      | None => ret (OutFiles successful_files)
      end
    else
      print "Failed to merge files, returning batch file list" ;;
      ret (OutFiles successful_files)
  else if len successful_files =? 1 then
    match successful_files with
    | f :: _ => ret (OutFile f)
    | [] => ret (OutFiles successful_files)
    end
  else ret (OutFiles successful_files).

(** [get_predictions_batch].  The lengths and counters the lines show
    are far below the limit of [str]; the batch size is any [int]. *)
Definition get_predictions_batch (w : world) (lat lon : coord_array) (date : date_array)
  (batch_size : Z) (filename_prefix : string) (api_url : option string)
  (merge_output : bool) : M (call batch_output) :=
  inputs <- lift (preprocess_inputs (w_platform w) lat lon date) ;;
  let '(lat, lon, date) := inputs in
  match lat with
  | FScalar _ => raise (Exn TypeError "object of type 'float' has no len()")
  | FList lat =>
      let total_points := len lat in
      size <- lift (str_int batch_size) ;;
      print ("Processing " +++ str_of_Z total_points +++ " points in batches of "
             +++ size) ;;
      bs <- lift (batches_of lat lon date batch_size filename_prefix) ;;
      looped <- for_each (process_batch w api_url total_points) bs [] ;;
      match looped with
      | Blocked => ret Blocked
      | Returned successful_files =>
          print ("Completed " +++ str_of_Z (len successful_files) +++ " out of "
                 +++ str_of_Z ((total_points + batch_size - 1) / batch_size)
                 +++ " batches") ;;
          r <- finish w merge_output filename_prefix successful_files ;;
          ret (Returned r)
      end
  end.

End Profile.

(* ================================================================== *)
(** * [grid.py] *)
(* ================================================================== *)

Module Grid.
Import Calendar IO.
Local Open Scope io_scope.

Definition GRID_OUTPUT_DIR : string := "uses/grid".
Definition DEFAULT_API_URL : string := "https://ozavala.coaps.fsu.edu/nespreso_grid".
Definition DEFAULT_TIMEOUT : Q := 600.

(** ** Arguments

    A value handed in where a number is expected:
    - [VNum]: an [int] or a [float];
    - [VStr]: a string, with the text [repr] gives for it and the value
      [float] reads from it, if it reads one;
    - [VOther]: an object [float] refuses, such as [None] or a list,
      with the texts [str] and [repr] give for it. *)
Inductive pyval :=
| VNum (v : pynum)
| VStr (s repr : string) (parsed : option fvalue)
| VOther (s repr : string).

(** The [bbox] argument: a list, or an object that is no list or tuple,
    such as a NumPy array, with what [str] and [bool] make of it. *)
Inductive bbox_arg :=
| BList (items : list pyval)
| BOther (text : result string) (truth : result bool).

(** [float(x)] *)
Definition float_of_val (x : pyval) : result fvalue :=
  match x with
  | VNum v => float_of_num v
  | VStr s _ (Some v) => Ret v
  | VStr s _ None => Raise (Exn ValueError "could not convert string to float")
  | VOther _ _ => Raise (Exn TypeError "float() argument must be a string or a real number")
  end.

(** [repr(x)], which is what the text of a list shows of its items. *)
Definition repr_val (x : pyval) : result string :=
  match x with
  | VNum v => str_num v
  | VStr _ r _ => Ret r
  | VOther _ r => Ret r
  end.

(** [str(x)], which is what an f-string shows of a value. *)
Definition str_val (x : pyval) : result string :=
  match x with
  | VNum v => str_num v
  | VStr s _ _ => Ret s
  | VOther s _ => Ret s
  end.

Fixpoint join (sep : string) (l : list string) : string :=
  match l with
  | [] => EmptyString
  | [x] => x
  | x :: rest => x +++ sep +++ join sep rest
  end.

(** [str(bbox)] *)
Definition str_bbox (b : bbox_arg) : result string :=
  match b with
  | BList items =>
      (texts <- map_result repr_val items ;; Ret ("[" +++ join ", " texts +++ "]"))%result
  | BOther text _ => text
  end.

(** [bool(bbox)] for the optional argument: [None] and the empty list are
    false. *)
Definition truth_of_bbox (bbox : option bbox_arg) : result bool :=
  match bbox with
  | None => Ret false
  | Some (BList []) => Ret false
  | Some (BList (_ :: _)) => Ret true
  | Some (BOther _ truth) => truth
  end.

(** [[float(x) for x in bbox]] *)
Fixpoint floats_of (items : list pyval) : result (list fvalue) :=
  match items with
  | [] => Ret []
  | x :: rest =>
      (v <- float_of_val x ;; vs <- floats_of rest ;; Ret (v :: vs))%result
  end.

(** ** Results *)

Inductive grid_result :=
| GridSuccess (filename : string) (size_bytes : Z) (status : Z)
| GridFailure (status : option Z) (error : string).

Definition success (r : grid_result) : bool :=
  match r with
  | GridSuccess _ _ _ => true
  | GridFailure _ _ => false
  end.

(** [requests.post(api_url, json=request_data, timeout=DEFAULT_TIMEOUT)]:
    one number bounds the connection and every read alike; redirects are
    followed, since [allow_redirects] is left at its default. *)
Definition grid_request (api_url : string) (request_data : list (string * json))
  : http_request :=
  HttpRequest Requests api_url (JObj request_data) DEFAULT_TIMEOUT DEFAULT_TIMEOUT true.

(** [ensure_grid_output_dir] *)
Definition ensure_grid_output_dir (w : world) : M unit :=
  fun t =>
    (if w_path_exists w t GRID_OUTPUT_DIR then ret tt
     else
       ask (EvMakedirs GRID_OUTPUT_DIR) (fun t' => w_makedirs w t' GRID_OUTPUT_DIR) ;;
       print ("Created output directory: " +++ GRID_OUTPUT_DIR)) t.

(** The outcome of the checks on [bbox] and [resolution]: an early
    return, or the request data extended so far. *)
Inductive checked :=
| Rejected (error : string)
| Accepted (request_data : list (string * json)).

Definition check_bbox (bbox : option bbox_arg) (request_data : list (string * json))
  : checked :=
  match bbox with
  | None => Accepted request_data
  | Some (BOther _ _) => Rejected "Invalid bbox. Use [lon_min, lat_min, lon_max, lat_max]."
  | Some (BList items) =>
      if negb (len items =? 4) then
        Rejected "Invalid bbox. Use [lon_min, lat_min, lon_max, lat_max]."
      else
        match floats_of items with
        | Ret [lon_min; lat_min; lon_max; lat_max] =>
            if negb (fle (FFin (-180)) lon_min && fle lon_min (FFin 180)
                     && fle (FFin (-180)) lon_max && fle lon_max (FFin 180)
                     && fle (FFin (-90)) lat_min && fle lat_min (FFin 90)
                     && fle (FFin (-90)) lat_max && fle lat_max (FFin 90)) then
              Rejected "BBOX out of range. Lon in [-180,180], Lat in [-90,90]."
            else if negb (flt lon_min lon_max && flt lat_min lat_max) then
              Rejected "BBOX order invalid. Require lon_min < lon_max and lat_min < lat_max."
            else
              Accepted (request_data
                        ++ [("bbox", JList [JNum lon_min; JNum lat_min;
                                            JNum lon_max; JNum lat_max])])
        | _ =>
            Rejected "Invalid bbox values. Must be numeric [lon_min, lat_min, lon_max, lat_max]."
        end
  end.

Definition check_resolution (resolution : option pyval)
  (request_data : list (string * json)) : checked :=
  match resolution with
  | None => Accepted request_data
  | Some r =>
      match float_of_val r with
      | Raise _ => Rejected "Resolution must be a positive number (degrees)."
      | Ret res =>
          if negb (flt (FFin 0) res) then Rejected "Resolution must be > 0 (degrees)."
          else Accepted (request_data ++ [("resolution", JNum res)])
      end
  end.

(** [x:.Nf] for an argument; a value that is no number has no such
    format, a string that reads as a number included. *)
Definition format_val (n : nat) (x : pyval) : result string :=
  match x with
  | VNum v => format_f n v
  | VStr _ _ _ => Raise (Exn ValueError "Unknown format code 'f' for object of type 'str'")
  | VOther _ _ => Raise (Exn TypeError "unsupported format string")
  end.

Definition nth_val (items : list pyval) (i : nat) : pyval :=
  nth i items (VOther EmptyString EmptyString).

(** The name of the output file: the list [parts] joined, plus [.nc]. *)
Definition output_name (date_str : string) (bbox : option bbox_arg)
  (resolution : option pyval) : result string :=
  (let parts := ["nespreso_grid_" +++ date_str] in
   parts <-
     match bbox with
     | Some (BList (x :: items)) =>
         let b := x :: items in
         b0 <- format_val 2 (nth_val b 0) ;;
         b1 <- format_val 2 (nth_val b 1) ;;
         b2 <- format_val 2 (nth_val b 2) ;;
         b3 <- format_val 2 (nth_val b 3) ;;
         Ret (parts ++ ["_bbox_" +++ b0 +++ "_" +++ b1 +++ "_" +++ b2 +++ "_" +++ b3])
     | _ => Ret parts
     end ;;
   parts <-
     match resolution with
     | Some r =>
         res <- float_of_val r ;;
         Ret (parts ++ ["_res_" +++ format_fixed 3 res])
     | None => Ret parts
     end ;;
   Ret (join EmptyString parts +++ ".nc"))%result.

(** The body of the [try] block once the response is there. *)
Definition handle_response (w : world) (date_str : string) (bbox : option bbox_arg)
  (resolution : option pyval) (response : IO.response) : M grid_result :=
  if status_code response =? 200 then
    output_filename <- lift (output_name date_str bbox resolution) ;;
    let output_path := GRID_OUTPUT_DIR +++ "/" +++ output_filename in
    ask (EvWriteFile output_path (content response))
        (fun t => w_write_file w t output_path (content response)) ;;
    print "✅ Grid query successful!" ;;
    print ("Output saved to: " +++ output_path) ;;
    print ("File size: " +++ str_of_Z (Z.of_nat (String.length (content response)))
           +++ " bytes") ;;
    ret (GridSuccess output_path (Z.of_nat (String.length (content response)))
                     (status_code response))
  else
    print ("❌ Grid query failed with status " +++ str_of_Z (status_code response)) ;;
    match json_repr response with
    | Some error_data => print ("Error details: " +++ error_data)
    | None => print ("Error response: " +++ text response)
    end ;;
    ret (GridFailure (Some (status_code response)) (text response)).

(** The line that announces a query.  The fields of the f-string are
    rendered from left to right. *)
Definition query_line (date_str : string) (bbox : option bbox_arg)
  (resolution : option pyval) : result string :=
  match bbox, resolution with
  | Some b, Some r =>
      (b' <- str_bbox b ;; r' <- str_val r ;;
       Ret ("Querying grid for date: " +++ date_str +++ " with BBOX: " +++ b'
            +++ " at resolution: " +++ r'))%result
  | Some b, None =>
      (b' <- str_bbox b ;;
       Ret ("Querying grid for date: " +++ date_str +++ " with BBOX: " +++ b'))%result
  | None, Some r =>
      (r' <- str_val r ;;
       Ret ("Querying grid for date: " +++ date_str +++ " at resolution: " +++ r'))%result
  | None, None => Ret ("Querying grid for date: " +++ date_str +++ " (full grid)")
  end.

(** [query_grid].  The directory is seen to and the query announced
    outside the [try] block. *)
Definition query_grid (w : world) (date_str : string) (bbox : option bbox_arg)
  (resolution : option pyval) (api_url : string) : M grid_result :=
  ensure_grid_output_dir w ;;
  let request_data := [("date", JStr date_str)] in
  match strptime_ymd date_str with
  | Raise _ =>
      print "Invalid date. Use YYYY-MM-DD." ;;
      ret (GridFailure None "Invalid date. Use YYYY-MM-DD.")
  | Ret _ =>
      match check_bbox bbox request_data with
      | Rejected error => ret (GridFailure None error)
      | Accepted request_data =>
          match check_resolution resolution request_data with
          | Rejected error => ret (GridFailure None error)
          | Accepted request_data =>
              line <- lift (query_line date_str bbox resolution) ;;
              print line ;;
              print ("API endpoint: " +++ api_url) ;;
              let rq := grid_request api_url request_data in
              r <- try (response <- ask (EvPost rq) (fun t => w_post w t rq) ;;
                        handle_response w date_str bbox resolution response) ;;
              match r with
              | Ret result => ret result
              | Raise exc =>
                  match exn_kind_of exc with
                  | RequestsTimeout =>
                      print "❌ Request timed out (10 minutes)" ;;
                      ret (GridFailure None "Request timed out")
                  | RequestException =>
                      print ("❌ Request failed: " +++ exn_msg exc) ;;
                      ret (GridFailure None (exn_msg exc))
                  | _ =>
                      print ("❌ Unexpected error: " +++ exn_msg exc) ;;
                      ret (GridFailure None (exn_msg exc))
                  end
              end
          end
      end
  end.

Record tally := Tally {
  total : Z;
  successful : Z;
  failed : Z;
  results : list grid_result }.

(** The loop of [query_multiple_dates]; [i] is the 1-based position. *)
Fixpoint query_dates_loop (w : world) (n : Z) (bbox : option bbox_arg)
  (resolution : option pyval) (api_url : string)
  (i : Z) (dates : list string) (acc : tally) : M tally :=
  match dates with
  | [] => ret acc
  | date_str :: rest =>
      print (newline +++ "[" +++ str_of_Z i +++ "/" +++ str_of_Z n +++ "] Processing date: " +++ date_str) ;;
      result <- query_grid w date_str bbox resolution api_url ;;
      let acc :=
        if success result then
          Tally (total acc) (successful acc + 1) (failed acc) (results acc ++ [result])
        else
          Tally (total acc) (successful acc) (failed acc + 1) (results acc ++ [result]) in
      query_dates_loop w n bbox resolution api_url (i + 1) rest acc
  end.

(** The two optional parts of the first line of [query_multiple_dates]:
    [if bbox] asks for the truth value of the argument. *)
Definition bbox_info (bbox : option bbox_arg) : result string :=
  (truth <- truth_of_bbox bbox ;;
   match bbox with
   | Some b => if truth then (b' <- str_bbox b ;; Ret (" with BBOX " +++ b'))
               else Ret EmptyString
   | None => Ret EmptyString
   end)%result.

Definition res_info (resolution : option pyval) : result string :=
  match resolution with
  | Some r => (r' <- str_val r ;; Ret (" at resolution " +++ r'))%result
  | None => Ret EmptyString
  end.

(** [query_multiple_dates].  The first line is put together outside any
    [try] block. *)
Definition query_multiple_dates (w : world) (date_list : list string)
  (bbox : option bbox_arg) (resolution : option pyval) (api_url : string) : M tally :=
  bbox_info <- lift (bbox_info bbox) ;;
  res_info <- lift (res_info resolution) ;;
  print ("Querying grid for " +++ str_of_Z (len date_list) +++ " dates" +++ bbox_info
         +++ res_info +++ "...") ;;
  acc <- query_dates_loop w (len date_list) bbox resolution api_url 1 date_list
                          (Tally (len date_list) 0 0 []) ;;
  print (newline +++ "=== Summary ===") ;;
  print ("Total dates: " +++ str_of_Z (len date_list)) ;;
  print ("Successful: " +++ str_of_Z (successful acc)) ;;
  print ("Failed: " +++ str_of_Z (failed acc)) ;;
  ret acc.

(** The [while current <= end] loop of [generate_date_range].  Every
    iteration moves [current] one day forward, so the number of days from
    [start] to [end] bounds the number of iterations. *)
Fixpoint date_range_loop (fuel : nat) (p : platform) (current end_ : datetime)
  (date_list : list string) : result (list string) :=
  match fuel with
  | O => Ret date_list
  | S fuel' =>
      if datetime_le current end_ then
        (let date_list := date_list ++ [strftime_ymd p (dt_date current)] in
         current <- datetime_add current (Timedelta 1 0 0) ;;
         date_range_loop fuel' p current end_ date_list)%result
      else Ret date_list
  end.

(** [generate_date_range] *)
Definition generate_date_range (p : platform) (start_date end_date : string)
  : result (list string) :=
  (start <- strptime_ymd start_date ;;
   end_ <- strptime_ymd end_date ;;
   date_range_loop
     (Z.to_nat (toordinal (dt_date end_) - toordinal (dt_date start) + 1) + 1)
     p start end_ [])%result.

(** [get_common_bbox_regions] *)
Definition get_common_bbox_regions : list (string * list Q) :=
  [("full_gulf", [-97; 18; -82; 31]%Q);
   ("western_gulf", [-97; 20; -90; 29]%Q);
   ("eastern_gulf", [-90; 20; -82; 29]%Q);
   ("northern_gulf", [-97; 25; -82; 29]%Q);
   ("southern_gulf", [-97; 18; -82; 25]%Q);
   ("florida_straits", [-82; 24; -79; 26]%Q);
   ("yucatan_channel", [-87; 20; -84; 22]%Q)].

End Grid.

(* ================================================================== *)
(** * Notions used to state the properties *)
(* ================================================================== *)

Module Spec.
Import Calendar IO Utils Profile Grid.

(** ** Day counts *)

(** The number of whole days [timedelta(days=q)] holds: the value is
    rounded to the nearest microsecond first, so a time of day within half
    a microsecond of midnight belongs to the following day. *)
Definition day_offset (q : Q) : Z := Qfloor (q + (1 # 172800000000)).

(** The whole days between 0001-01-01 and the day count [v]; undefined
    for NaN and the infinities. *)
Definition whole_days (v : pynum) : option Z :=
  match v with
  | PyInt z => Some (z - 366)
  | PyFloat f =>
      match fval f with
      | FFin q => Some (Qfloor (q - 366 + (1 # 172800000000)))
      | FNegZero => Some (-366)
      | FNan | FInf _ => None
      end
  end.

(** The day count denotes a date between 0001-01-01 and 9999-12-31. *)
Definition representable (v : pynum) : Prop :=
  exists d, whole_days v = Some d /\ 0 <= d <= 3652058.

(** ** Checks run over a finite range *)

Definition date_eqb (a b : date) : bool :=
  (year a =? year b) && (month a =? month b) && (day a =? day b).

(** For the [k] ordinals from [n] on, the date of the next ordinal is the
    day after; [today] is the date of [n]. *)
Fixpoint steps_agree (k : nat) (n : Z) (today : date) : bool :=
  match k with
  | O => true
  | S k' =>
      let tomorrow := ord2ymd (n + 1) in
      date_eqb tomorrow (next_day today) && steps_agree k' (n + 1) tomorrow
  end.

(** The same day, [k] Gregorian cycles of 400 years later. *)
Definition shift400 (k : Z) (d : date) : date := Date (year d + 400 * k) (month d) (day d).

Fixpoint all_from (k : nat) (n : Z) (P : Z -> bool) : bool :=
  match k with
  | O => true
  | S k' => P n && all_from k' (n + 1) P
  end.

(** ** Index ranges *)

(** [range(a, b)] as a list of integers. *)
Definition zseq (a b : Z) : list Z :=
  map (fun i => a + Z.of_nat i) (seq 0 (Z.to_nat (b - a))).

(** The quotient the orchestrator prints as the number of batches. *)
Definition ceil_div (n b : Z) : Z := (n + b - 1) / b.

(** The entries of [l] whose flag is set, in order. *)
Fixpoint select {A} (flags : list bool) (l : list A) : list A :=
  match flags, l with
  | true :: flags', x :: l' => x :: select flags' l'
  | false :: flags', _ :: l' => select flags' l'
  | _, _ => []
  end.

(** ** The profile transport *)

(** The URL a profile request goes to. *)
Definition effective_url (api_url : option string) : string :=
  match api_url with
  | Some u => if String.eqb u EmptyString then DEFAULT_API else u
  | None => DEFAULT_API
  end.

(** The trace at the moment of the POST. *)
Definition before_post (api_url : option string) (t : trace) : trace :=
  if endswith (effective_url api_url) "/predict"
  then t ++ [EvWarn "You are using the deprecated /predict endpoint. Use /v1/profile."]
  else t.

Definition content_type_ok (r : response) : bool :=
  match headers_get (headers r) "Content-Type" with
  | Some v => startswith v "application/x-netcdf"
  | None => false
  end.

Definition payload (lat lon date : json) : json :=
  JObj [("lat", lat); ("lon", lon); ("date", date)].

(** The request a batch is sent with. *)
Definition batch_request (api_url : option string) (b : batch) : http_request :=
  profile_request (effective_url api_url)
    (payload (JList (map JNum (b_lat b))) (JList (map JNum (b_lon b)))
             (JList (map JStr (map rstrip_nul (b_date b))))).

(** ** The merge step *)

(** The records with their coordinate replaced by their position. *)
Definition renumbered (records : list profile) : list profile :=
  map (fun pv => Profile (snd pv) (profile_data (fst pv)))
      (combine records (arange (List.length records))).

(** The name the merged file is written under. *)
Definition final_output (filename_prefix : string) : string :=
  if endswith filename_prefix ".nc" then filename_prefix else filename_prefix +++ ".nc".

(** ** Grid queries *)

(** The output directory is there or can be created. *)
Definition dir_ready (w : world) (t : trace) : Prop :=
  w_path_exists w t GRID_OUTPUT_DIR = true \/ w_makedirs w t GRID_OUTPUT_DIR = Ret tt.

(** The trace once [ensure_grid_output_dir] is through. *)
Definition after_dir (w : world) (t : trace) : trace :=
  if w_path_exists w t GRID_OUTPUT_DIR then t
  else (t ++ [EvMakedirs GRID_OUTPUT_DIR])
       ++ [EvPrint ("Created output directory: " +++ GRID_OUTPUT_DIR)].

(** The error messages of the input checks. *)
Definition E_date := "Invalid date. Use YYYY-MM-DD.".
Definition E_shape := "Invalid bbox. Use [lon_min, lat_min, lon_max, lat_max].".
Definition E_numeric :=
  "Invalid bbox values. Must be numeric [lon_min, lat_min, lon_max, lat_max].".
Definition E_range := "BBOX out of range. Lon in [-180,180], Lat in [-90,90].".
Definition E_order :=
  "BBOX order invalid. Require lon_min < lon_max and lat_min < lat_max.".
Definition E_res_numeric := "Resolution must be a positive number (degrees).".
Definition E_res_positive := "Resolution must be > 0 (degrees).".

Definition in_range (lo hi : Q) (x : fvalue) : bool := fle (FFin lo) x && fle x (FFin hi).

Definition bbox_in_range (lon_min lat_min lon_max lat_max : fvalue) : bool :=
  in_range (-180) 180 lon_min && in_range (-180) 180 lon_max
  && in_range (-90) 90 lat_min && in_range (-90) 90 lat_max.

Definition bbox_ordered (lon_min lat_min lon_max lat_max : fvalue) : bool :=
  flt lon_min lon_max && flt lat_min lat_max.

(** A bbox that passes every check, with the entry it adds to the
    request. *)
Definition bbox_accepted (bbox : option bbox_arg) (entry : list (string * json)) : Prop :=
  (bbox = None /\ entry = []) \/
  exists items lon_min lat_min lon_max lat_max,
    bbox = Some (BList items) /\
    floats_of items = Ret [lon_min; lat_min; lon_max; lat_max] /\
    bbox_in_range lon_min lat_min lon_max lat_max = true /\
    bbox_ordered lon_min lat_min lon_max lat_max = true /\
    entry = [("bbox", JList [JNum lon_min; JNum lat_min; JNum lon_max; JNum lat_max])].

(** A resolution that passes every check, with its entry. *)
Definition resolution_accepted (resolution : option pyval) (entry : list (string * json))
  : Prop :=
  (resolution = None /\ entry = []) \/
  exists r res, resolution = Some r /\ float_of_val r = Ret res /\
                flt (FFin 0) res = true /\ entry = [("resolution", JNum res)].

(** The bbox and resolution parts of the file name. *)
Definition bbox_part (vs : list fvalue) : string :=
  match vs with
  | [v0; v1; v2; v3] =>
      "_bbox_" +++ format_fixed 2 v0 +++ "_" +++ format_fixed 2 v1 +++ "_"
      +++ format_fixed 2 v2 +++ "_" +++ format_fixed 2 v3
  | _ => EmptyString
  end.

Definition resolution_part (res : option fvalue) : string :=
  match res with
  | Some v => "_res_" +++ format_fixed 3 v
  | None => EmptyString
  end.

(** ** Sample inputs and environments *)

Definition int_bbox (a b c d : Z) : option bbox_arg :=
  Some (BList [VNum (PyInt a); VNum (PyInt b); VNum (PyInt c); VNum (PyInt d)]).

Definition netcdf_response : response :=
  Response 200 [("Content-Type", "application/x-netcdf")] EmptyString "CDF" None.

(** Two records per file, tagged with the name of the file. *)
Definition sample_store (path : string) : dataset :=
  Dataset [Profile 0 (path +++ "#0"); Profile 1 (path +++ "#1")] [].

(** Every request is answered with a NetCDF body and every file
    operation succeeds. *)
Definition calm_world : world :=
  World (Platform true)
        (fun _ _ => Ret netcdf_response)
        (fun _ _ _ => Ret tt)
        (fun _ _ => true)
        (fun _ _ => Ret tt)
        true
        (fun _ path => Ret (sample_store path))
        (fun _ _ _ => Ret tt)
        false.

(** The same environment seen from a thread that runs an event loop, as
    a notebook cell does. *)
Definition notebook_world : world :=
  World (Platform true)
        (fun _ _ => Ret netcdf_response)
        (fun _ _ _ => Ret tt)
        (fun _ _ => true)
        (fun _ _ => Ret tt)
        true
        (fun _ path => Ret (sample_store path))
        (fun _ _ _ => Ret tt)
        true.

(** The float just below 366.0, with the text [str] gives for it. *)
Definition just_below_366 : pynum :=
  PyFloat (PyFloatObj (FFin (366 - (1 # 17592186044416))) "365.99999999999994").

End Spec.

(* ================================================================== *)
(** * What a run leaves behind, and further notions *)
(* ================================================================== *)

Module Observe.
Import Calendar IO Utils Profile Grid Spec.

(** ** Dates *)

(** A date of the calendar, from year 1 on. *)
Definition valid_date (d : date) : Prop :=
  1 <= year d /\ 1 <= month d <= 12 /\ 1 <= day d <= days_in_month (year d) (month d).

(** The calendar order of two dates. *)
Definition date_ltb (a b : date) : bool :=
  (year a <? year b)
  || ((year a =? year b)
      && ((month a <? month b) || ((month a =? month b) && (day a <? day b)))).

(** The four characters of [%04d] are digits that spell [y]. *)
Definition four_digits_ok (y : Z) : bool :=
  match format_0d 4 y with
  | String a (String b (String c (String d EmptyString))) =>
      match digit_of a, digit_of b, digit_of c, digit_of d with
      | Some a, Some b, Some c, Some d => a * 1000 + b * 100 + c * 10 + d =? y
      | _, _, _, _ => false
      end
  | _ => false
  end.

(** ** Effects of a run, read off its trace *)

(** The files opened for writing, with the bytes handed over. *)
Definition writes (t : trace) : list (string * string) :=
  flat_map (fun e => match e with EvWriteFile p data => [(p, data)] | _ => [] end) t.

(** The datasets handed to [to_netcdf], with their target. *)
Definition netcdf_writes (t : trace) : list (string * dataset) :=
  flat_map (fun e => match e with EvToNetcdf p ds => [(p, ds)] | _ => [] end) t.

(** The paths handed to [open_dataset]. *)
Definition opens (t : trace) : list string :=
  flat_map (fun e => match e with EvOpenDataset p => [p] | _ => [] end) t.

(** The datasets closed. *)
Definition closes (t : trace) : list dataset :=
  flat_map (fun e => match e with EvCloseDataset ds => [ds] | _ => [] end) t.

(** The warnings issued. *)
Definition warnings (t : trace) : list string :=
  flat_map (fun e => match e with EvWarn m => [m] | _ => [] end) t.

(** ** Calls and answers *)

(** A computation whose value is handed back by a call that returns. *)
Definition returning {A} (m : M A) : M (call A) :=
  bind m (fun r => ret (Returned r)).

(** Whether a request for the file [filename], sent when the history is
    [t], is served: answered with status 200 and a NetCDF content type,
    and the body written. *)
Definition served (w : world) (t : trace) (rq : http_request) (filename : string) : bool :=
  match w_post w t rq with
  | Ret resp =>
      (status_code resp =? 200) && content_type_ok resp
      && match w_write_file w (t ++ [EvPost rq]) filename (content resp) with
         | Ret _ => true
         | Raise _ => false
         end
  | Raise _ => false
  end.

(** What an answer has [fetch_predictions] open for writing under the
    name [filename]. *)
Definition saved (answer : result response) (filename : string) : list (string * string) :=
  match answer with
  | Ret resp =>
      if (status_code resp =? 200) && content_type_ok resp
      then [(filename, content resp)] else []
  | Raise _ => []
  end.

(** [ts] are the moments at which the requests [rqs] were sent, one
    after the other and with no other request in between, in a history
    that grows from [t] to [tl]: the history just before each of them. *)
Fixpoint moments (t : trace) (rqs : list http_request) (ts : list trace) (tl : trace)
  : Prop :=
  match rqs, ts with
  | [], [] => exists rest, tl = t ++ rest /\ posts rest = []
  | rq :: rqs', tk :: ts' =>
      (exists pre, tk = t ++ pre /\ posts pre = [])
      /\ moments (tk ++ [EvPost rq]) rqs' ts' tl
  | _, _ => False
  end.

(** Whether a batch is served when its request is sent at the moment
    that comes with it. *)
Definition served_at (w : world) (api_url : option string) (bt : batch * trace) : bool :=
  served w (snd bt) (batch_request api_url (fst bt)) (b_filename (fst bt)).

(** What the answer to the request of a batch, sent at the moment that
    comes with it, has the run open for writing. *)
Definition saved_at (w : world) (api_url : option string) (bt : batch * trace)
  : list (string * string) :=
  saved (w_post w (snd bt) (batch_request api_url (fst bt))) (b_filename (fst bt)).

(** The files of the batches that are served, each at its own moment,
    in the order of the batches. *)
Definition successful_files (w : world) (api_url : option string)
  (bs : list batch) (ts : list trace) : list string :=
  map (fun bt => b_filename (fst bt)) (filter (served_at w api_url) (combine bs ts)).

(** ** Grid queries *)


(** The items of the bbox, if there is one, are numbers proper rather
    than strings that read as numbers. *)
Definition is_number (x : pyval) : bool :=
  match x with
  | VNum _ => true
  | _ => false
  end.

Definition bbox_numbers (bbox : option bbox_arg) : bool :=
  match bbox with
  | Some (BList items) => forallb is_number items
  | _ => true
  end.

(** The first line of [query_multiple_dates] can be put together: the
    truth value of the bbox and the texts of bbox and resolution are to
    be had. *)
Definition header_renders (bbox : option bbox_arg) (resolution : option pyval) : Prop :=
  (exists s, bbox_info bbox = Ret s) /\ (exists s, res_info resolution = Ret s).

(** The error text a grid query reports for an exception. *)
Definition grid_error (exc : exn) : string :=
  match exn_kind_of exc with
  | RequestsTimeout => "Request timed out"
  | _ => exn_msg exc
  end.

(** A region of [get_common_bbox_regions] as a [bbox] argument; [repr]
    gives the text of each number. *)
Definition region_bbox (repr : Q -> string) (corners : list Q) : bbox_arg :=
  BList (map (fun q => VNum (PyFloat (PyFloatObj (FFin q) (repr q)))) corners).

(** The successes and the failures among the results of a run. *)
Definition count_success (rs : list grid_result) : Z := len (filter success rs).
Definition count_failure (rs : list grid_result) : Z :=
  len (filter (fun r => negb (success r)) rs).

(** ** Sample environments *)

(** Every POST gets the same answer and every write the same outcome;
    the output directory exists. *)
Definition steady_world (answer : result response) (written : result unit) : world :=
  World (Platform true)
        (fun _ _ => answer)
        (fun _ _ _ => written)
        (fun _ _ => true)
        (fun _ _ => Ret tt)
        true
        (fun _ path => Ret (sample_store path))
        (fun _ _ _ => Ret tt)
        false.

(** Every file opens but the one named [missing]. *)
Definition missing_file_world (missing : string) : world :=
  World (Platform true)
        (fun _ _ => Ret netcdf_response)
        (fun _ _ _ => Ret tt)
        (fun _ _ => true)
        (fun _ _ => Ret tt)
        true
        (fun _ path =>
           if String.eqb path missing
           then Raise (Exn OSError "No such file or directory")
           else Ret (sample_store path))
        (fun _ _ _ => Ret tt)
        false.

(** The output directory is missing and cannot be created. *)
Definition no_dir_world (e : exn) : world :=
  World (Platform true)
        (fun _ _ => Ret netcdf_response)
        (fun _ _ _ => Ret tt)
        (fun _ _ => false)
        (fun _ _ => Raise e)
        true
        (fun _ path => Ret (sample_store path))
        (fun _ _ _ => Ret tt)
        false.

(** Every request is answered with a NetCDF body, and every write goes
    through. *)
Definition all_served (w : world) : Prop :=
  (forall t rq, exists resp,
      w_post w t rq = Ret resp /\ status_code resp = 200 /\ content_type_ok resp = true)
  /\ (forall t p data, w_write_file w t p data = Ret tt).

(** No request is answered with a NetCDF body. *)
Definition none_served (w : world) : Prop :=
  forall t rq resp,
    w_post w t rq = Ret resp -> (status_code resp =? 200) && content_type_ok resp = false.

(** ** Dictionaries *)

(** [d.get(k)] *)
Fixpoint dict_get (d : list (string * string)) (k : string) : option string :=
  match d with
  | [] => None
  | (k', v) :: d' => if String.eqb k' k then Some v else dict_get d' k
  end.

End Observe.

Import Calendar IO Utils Profile Grid Spec Observe.

Ltac run_io :=
  cbv beta iota delta [bind ret raise try lift emit print ask fst snd].

(* ================================================================== *)
(** * Facts about the runtime fragment *)
(* ================================================================== *)

Module PyFacts.

Lemma Qfloor_eq (y : Q) (n : Z) :
  (inject_Z n <= y)%Q -> (y < inject_Z (n + 1))%Q -> Qfloor y = n.
Proof.
  intros H1 H2.
  pose proof (Qfloor_le y) as F1. pose proof (Qlt_floor y) as F2.
  assert (Qfloor y < n + 1) by (rewrite Zlt_Qlt; lra).
  assert (n < Qfloor y + 1) by (rewrite Zlt_Qlt; lra).
  lia.
Qed.

Lemma Qtrunc_nonneg (x : Q) : (0 <= x)%Q -> Qtrunc x = Qfloor x.
Proof.
  destruct x as [n d]. unfold Qtrunc, Qfloor, Qle. simpl. intros H.
  apply Z.quot_div_nonneg; lia.
Qed.

Lemma Qtrunc_neg (x : Q) : (x <= 0)%Q -> Qtrunc x = - Qfloor (- x).
Proof.
  destruct x as [n d]. unfold Qtrunc, Qfloor, Qle, Qopp. simpl. intros H.
  rewrite <- (Z.opp_involutive n) at 1. rewrite Z.quot_opp_l by lia.
  rewrite Z.quot_div_nonneg by lia. reflexivity.
Qed.

(** The fraction left by [modf] has the sign of its argument and
    magnitude below one. *)
Lemma Qtrunc_frac (x : Q) :
  let f := (x - inject_Z (Qtrunc x))%Q in
  (-1 < f)%Q /\ (f < 1)%Q /\ ((0 <= x)%Q -> (0 <= f)%Q) /\ ((x <= 0)%Q -> (f <= 0)%Q).
Proof.
  intros f. subst f.
  destruct (Qlt_le_dec x 0) as [Hn | Hp].
  - rewrite Qtrunc_neg by lra.
    pose proof (Qfloor_le (- x)) as F1. pose proof (Qlt_floor (- x)) as F2.
    rewrite inject_Z_plus in F2. change (inject_Z 1) with 1%Q in F2.
    rewrite inject_Z_opp.
    repeat split; intros; lra.
  - rewrite Qtrunc_nonneg by lra.
    pose proof (Qfloor_le x) as F1. pose proof (Qlt_floor x) as F2.
    rewrite inject_Z_plus in F2. change (inject_Z 1) with 1%Q in F2.
    assert (Hz : (0 <= inject_Z (Qfloor x))%Q).
    { change 0%Q with (inject_Z 0). rewrite <- Zle_Qle.
      assert (-1 < Qfloor x) by (rewrite Zlt_Qlt; change (inject_Z (-1)) with (-1)%Q; lra).
      lia. }
    repeat split; intros; lra.
Qed.

Lemma c_round_nonneg (y : Q) (n : Z) :
  (0 <= y)%Q -> (inject_Z n <= y + (1 # 2))%Q -> (y + (1 # 2) < inject_Z (n + 1))%Q ->
  c_round y = n.
Proof.
  intros H0 H1 H2. unfold c_round.
  destruct (Qle_bool 0 y) eqn:E.
  - apply Qfloor_eq; assumption.
  - rewrite <- not_true_iff_false, Qle_bool_iff in E. contradiction.
Qed.

Lemma c_round_neg (y : Q) (n : Z) :
  (y < 0)%Q -> (inject_Z n <= (1 # 2) - y)%Q -> ((1 # 2) - y < inject_Z (n + 1))%Q ->
  c_round y = - n.
Proof.
  intros H0 H1 H2. unfold c_round.
  destruct (Qle_bool 0 y) eqn:E.
  - rewrite Qle_bool_iff in E. lra.
  - f_equal. apply Qfloor_eq; assumption.
Qed.

Lemma Qabs_eqb_half_true (x : Q) :
  Qabs_eqb_half x = true <-> (x == 1 # 2)%Q \/ (x == - (1 # 2))%Q.
Proof.
  unfold Qabs_eqb_half. rewrite orb_true_iff, !Qeq_bool_iff. reflexivity.
Qed.

Lemma round_half_even_near (x : Q) :
  (inject_Z (round_half_even x) - x <= 1 # 2)%Q /\
  (- (1 # 2) <= inject_Z (round_half_even x) - x)%Q.
Proof.
  unfold round_half_even.
  pose proof (Qfloor_le x) as F1. pose proof (Qlt_floor x) as F2.
  rewrite inject_Z_plus in F2. change (inject_Z 1) with 1%Q in F2.
  destruct (Qcompare (x - inject_Z (Qfloor x)) (1 # 2)) eqn:C.
  - apply Qeq_alt in C. destruct (Z.even (Qfloor x)).
    + split; lra.
    + rewrite inject_Z_plus. change (inject_Z 1) with 1%Q. split; lra.
  - apply Qlt_alt in C. split; lra.
  - apply Qgt_alt in C. rewrite inject_Z_plus. change (inject_Z 1) with 1%Q. split; lra.
Qed.

Lemma append_assoc (a b c : string) : (a +++ b) +++ c = a +++ b +++ c.
Proof. induction a as [| x a IH]; [reflexivity | cbn; rewrite IH; reflexivity]. Qed.

(** ** Integers as floats and as text *)

Lemma round_to_53_bits_small a : a < 2 ^ 53 -> round_to_53_bits a = a.
Proof.
  intros H. unfold round_to_53_bits.
  destruct (Z.leb_spec (Z.log2 a - 52) 0) as [He | He]; [reflexivity | exfalso].
  destruct (Z.le_gt_cases a 0) as [Hn | Hp].
  - rewrite Z.log2_nonpos in He by assumption. lia.
  - pose proof (Z.log2_spec a Hp) as [L _].
    assert (2 ^ 53 <= 2 ^ Z.log2 a) by (apply Z.pow_le_mono_r; lia).
    lia.
Qed.

Lemma round_to_53_bits_lower a : 0 < a -> 2 ^ Z.log2 a <= round_to_53_bits a.
Proof.
  intros Ha. unfold round_to_53_bits.
  pose proof (Z.log2_spec a Ha) as [L _].
  destruct (Z.leb_spec (Z.log2 a - 52) 0) as [He | He]; [exact L |].
  set (e := Z.log2 a - 52) in *.
  assert (Hp : 0 < 2 ^ e) by (apply Z.pow_pos_nonneg; lia).
  assert (Hs : 2 ^ Z.log2 a = 2 ^ e * 2 ^ 52).
  { rewrite <- Z.pow_add_r by lia. f_equal. lia. }
  assert (Hq : 2 ^ 52 <= a / 2 ^ e).
  { apply Z.div_le_lower_bound; [exact Hp |]. rewrite <- Hs. exact L. }
  rewrite Hs. set (K := 2 ^ 52) in *. set (P := 2 ^ e) in *.
  destruct ((2 ^ (e - 1) <? a mod P) || (a mod P =? 2 ^ (e - 1)) && Z.odd (a / P)); nia.
Qed.

Lemma sgn_mul_abs z : Z.sgn z * Z.abs z = z.
Proof. destruct z; reflexivity. Qed.

(** Below [2^53] the conversion is exact. *)
Lemma float_of_int_small z :
  Z.abs z < 2 ^ 53 -> float_of_int z = Ret (FFin (inject_Z z)).
Proof.
  intros H. unfold float_of_int.
  rewrite round_to_53_bits_small by exact H. rewrite sgn_mul_abs.
  assert (2 ^ 53 < 2 ^ 1024) by (apply Z.pow_lt_mono_r; lia).
  set (K := 2 ^ 1024) in *. set (S := 2 ^ 53) in *.
  destruct (Z.leb_spec K (Z.abs z)); [lia | reflexivity].
Qed.

(** From [2^53] on the value may be rounded, but stays that large. *)
Lemma float_of_int_large z :
  2 ^ 53 <= Z.abs z ->
  (exists e, float_of_int z = Raise e) \/
  (exists r, float_of_int z = Ret (FFin (inject_Z r)) /\ 2 ^ 53 <= Z.abs r
             /\ (0 < z -> 0 < r) /\ (z < 0 -> r < 0)).
Proof.
  intros H. unfold float_of_int.
  set (r := Z.sgn z * round_to_53_bits (Z.abs z)).
  destruct (2 ^ 1024 <=? Z.abs r); [left; eexists; reflexivity | right].
  exists r. split; [reflexivity |].
  assert (Hpos : 0 < 2 ^ 53) by (apply Z.pow_pos_nonneg; lia).
  assert (Ha : 0 < Z.abs z) by lia.
  pose proof (round_to_53_bits_lower _ Ha) as Hl.
  assert (Hlog : 53 <= Z.log2 (Z.abs z)).
  { rewrite <- (Z.log2_pow2 53) by lia. apply Z.log2_le_mono. exact H. }
  assert (2 ^ 53 <= 2 ^ Z.log2 (Z.abs z)) by (apply Z.pow_le_mono_r; lia).
  set (S := 2 ^ 53) in *. set (R := round_to_53_bits (Z.abs z)) in *.
  subst r. destruct z; cbn [Z.sgn Z.abs] in *; lia.
Qed.

(** A conversion that succeeds was given less than [2^1024]. *)
Lemma float_of_int_ret z v : float_of_int z = Ret v -> Z.abs z < 2 ^ 1024.
Proof.
  unfold float_of_int. intros H.
  destruct (Z.lt_ge_cases (Z.abs z) (2 ^ 1024)) as [Hlt | Hge]; [exact Hlt | exfalso].
  assert (Hpos : 0 < 2 ^ 1024) by (apply Z.pow_pos_nonneg; lia).
  assert (Ha : 0 < Z.abs z) by lia.
  pose proof (round_to_53_bits_lower _ Ha) as Hl.
  assert (Hlog : 1024 <= Z.log2 (Z.abs z)).
  { rewrite <- (Z.log2_pow2 1024) by lia. apply Z.log2_le_mono. exact Hge. }
  assert (2 ^ 1024 <= 2 ^ Z.log2 (Z.abs z)) by (apply Z.pow_le_mono_r; lia).
  set (K := 2 ^ 1024) in *. set (R := round_to_53_bits (Z.abs z)) in *.
  assert (Hr : K <= Z.abs (Z.sgn z * R)) by (destruct z; cbn [Z.sgn Z.abs] in *; lia).
  apply Z.leb_le in Hr. rewrite Hr in H. discriminate.
Qed.

(** Text is made of every integer [float] converts. *)
Lemma str_int_ret z : Z.abs z < 2 ^ 1024 -> str_int z = Ret (str_of_Z z).
Proof.
  intros H. unfold str_int.
  assert (2 ^ 1024 <= 10 ^ INT_MAX_STR_DIGITS).
  { unfold INT_MAX_STR_DIGITS. transitivity (10 ^ 1024).
    - apply Z.pow_le_mono_l. lia.
    - apply Z.pow_le_mono_r; lia. }
  set (K := 2 ^ 1024) in *. set (M := 10 ^ INT_MAX_STR_DIGITS) in *.
  destruct (Z.leb_spec M (Z.abs z)); [lia | reflexivity].
Qed.

Lemma str_int_small z :
  Z.abs z < 10 ^ INT_MAX_STR_DIGITS -> str_int z = Ret (str_of_Z z).
Proof.
  intros H. unfold str_int.
  set (M := 10 ^ INT_MAX_STR_DIGITS) in *.
  destruct (Z.leb_spec M (Z.abs z)); [lia | reflexivity].
Qed.

Lemma float_of_num_str v x : float_of_num v = Ret x -> exists s, str_num v = Ret s.
Proof.
  destruct v as [z | f]; cbn [float_of_num str_num]; intros H.
  - rewrite (str_int_ret z (float_of_int_ret z x H)). eauto.
  - eauto.
Qed.

Lemma map_result_map {A B} (f : A -> B) (l : list A) :
  map_result (fun x => Ret (f x)) l = Ret (map f l).
Proof.
  induction l as [| x l IH]; [reflexivity |].
  cbn [map_result rbind map]. rewrite IH. reflexivity.
Qed.

Lemma map_result_ret {A B} (f : A -> result B) (l : list A) :
  (forall x, In x l -> exists y, f x = Ret y) -> exists l', map_result f l = Ret l'.
Proof.
  induction l as [| x l IH]; intros H; [eexists; reflexivity |].
  destruct (H x (or_introl eq_refl)) as (y & Hy).
  destruct IH as (l' & Hl); [intros x' Hx'; apply H; right; exact Hx' |].
  exists (y :: l'). cbn [map_result]. rewrite Hy, Hl. reflexivity.
Qed.

Lemma map_result_length {A B} (f : A -> result B) (l : list A) l' :
  map_result f l = Ret l' -> List.length l' = List.length l.
Proof.
  revert l'. induction l as [| x l IH]; intros l' H.
  - injection H as <-. reflexivity.
  - cbn [map_result] in H. destruct (f x) as [y | e]; [| discriminate].
    cbn [rbind] in H. destruct (map_result f l) as [ys | e]; [| discriminate].
    injection H as <-. cbn [List.length]. f_equal. apply IH. reflexivity.
Qed.

Lemma all_from_sound k P : forall n, all_from k n P = true ->
  forall j, n <= j < n + Z.of_nat k -> P j = true.
Proof.
  induction k as [| k IH]; intros n H j Hj; [lia |].
  cbn [all_from] in H. apply andb_true_iff in H. destruct H as [H1 H2].
  destruct (Z.eq_dec j n) as [-> | Hne]; [exact H1 | apply (IH (n + 1) H2); lia].
Qed.

Lemma seq_shift_map {A} (f : nat -> A) n :
  map f (seq 1 n) = map (fun i => f (S i)) (seq 0 n).
Proof. rewrite <- seq_shift, map_map. reflexivity. Qed.

Lemma range_up_spec step stop : 0 < step ->
  forall fuel cur, stop - cur <= Z.of_nat fuel ->
  range_up fuel cur stop step =
  map (fun i => cur + Z.of_nat i * step) (seq 0 (Z.to_nat (ceil_div (stop - cur) step))).
Proof.
  intros Hstep. unfold ceil_div. induction fuel as [| fuel IH]; intros cur Hfuel.
  - cbn [range_up]. replace (Z.to_nat _) with O; [reflexivity |].
    assert ((stop - cur + step - 1) / step < 1); [| lia].
    apply Z.div_lt_upper_bound; lia.
  - cbn [range_up]. destruct (Z.ltb_spec cur stop) as [Hlt | Hge].
    + rewrite IH by lia.
      replace (stop - cur + step - 1) with (stop - (cur + step) + step - 1 + 1 * step) by lia.
      rewrite Z.div_add by lia.
      assert (0 <= (stop - (cur + step) + step - 1) / step)
        by (apply Z.div_pos; lia).
      rewrite Z2Nat.inj_add by lia. rewrite Nat.add_comm.
      change (Z.to_nat 1) with 1%nat. cbn [Nat.add seq map].
      f_equal; [lia |].
      rewrite seq_shift_map. apply map_ext. intros i. lia.
    + replace (Z.to_nat _) with O; [reflexivity |].
      assert ((stop - cur + step - 1) / step < 1); [| lia].
      apply Z.div_lt_upper_bound; lia.
Qed.

Lemma range_positive_step stop step : 0 < step -> 0 <= stop ->
  range 0 stop step =
  Ret (map (fun i => Z.of_nat i * step) (seq 0 (Z.to_nat (ceil_div stop step)))).
Proof.
  intros Hstep Hstop. unfold range.
  destruct (Z.eqb_spec step 0); [lia |].
  destruct (Z.ltb_spec 0 step); [| lia].
  rewrite range_up_spec by lia. rewrite Z.sub_0_r. reflexivity.
Qed.

Lemma firstn_slice {A} (l : list A) (a b : Z) :
  0 <= a <= b -> firstn (Z.to_nat a) l ++ slice l a b = firstn (Z.to_nat b) l.
Proof.
  intros H. unfold slice.
  rewrite <- (firstn_skipn (Z.to_nat a) (firstn (Z.to_nat b) l)) at 2.
  rewrite firstn_firstn. rewrite Nat.min_l by lia. reflexivity.
Qed.

Lemma map_fst_combine {A B} (l : list A) : forall l' : list B,
  List.length l = List.length l' -> map fst (combine l l') = l.
Proof.
  induction l as [| a l IH]; intros [| b l'] H; try discriminate; [reflexivity |].
  cbn. f_equal. apply IH. injection H as H. exact H.
Qed.

Lemma map_snd_combine {A B} (l : list A) : forall l' : list B,
  List.length l = List.length l' -> map snd (combine l l') = l'.
Proof.
  induction l as [| a l IH]; intros [| b l'] H; try discriminate; [reflexivity |].
  cbn. f_equal. apply IH. injection H as H. exact H.
Qed.

Lemma length_flat_map_sum {A B} (g : A -> list B) (l : list A) :
  List.length (flat_map g l) = list_sum (map (fun x => List.length (g x)) l).
Proof.
  induction l as [| x l IH]; [reflexivity |].
  cbn [flat_map map list_sum]. rewrite length_app, IH. reflexivity.
Qed.

Lemma format_0d_two_digits :
  all_from (Z.to_nat 100) 0 (fun fp => Nat.eqb (String.length (format_0d 2 fp)) 2) = true.
Proof. vm_cast_no_check (eq_refl true). Qed.

Lemma format_0d_three_digits :
  all_from (Z.to_nat 1000) 0 (fun fp => Nat.eqb (String.length (format_0d 3 fp)) 3) = true.
Proof. vm_cast_no_check (eq_refl true). Qed.

(** [format(x, ".2f")] and [format(x, ".3f")] of a finite value: a sign,
    the integer part, a point and exactly that many digits; the number
    written is the value rounded to the nearest multiple of the last
    place. *)
Lemma format_fixed_places (n : nat) (q : Q) :
  n = 2%nat \/ n = 3%nat ->
  exists ip fp,
    format_fixed n (FFin q)
    = (if Qlt_le_dec q 0 then "-" else EmptyString) +++ str_of_Z ip +++ "." +++ format_0d n fp /\
    String.length (format_0d n fp) = n /\
    0 <= fp < 10 ^ Z.of_nat n /\
    (inject_Z (ip * 10 ^ Z.of_nat n + fp) - Qabs q * inject_Z (10 ^ Z.of_nat n) <= 1 # 2)%Q /\
    (- (1 # 2) <= inject_Z (ip * 10 ^ Z.of_nat n + fp) - Qabs q * inject_Z (10 ^ Z.of_nat n))%Q.
Proof.
  intros Hn.
  set (scaled := round_half_even (Qabs q * inject_Z (10 ^ Z.of_nat n))).
  exists (scaled / 10 ^ Z.of_nat n), (scaled mod 10 ^ Z.of_nat n).
  assert (Hpos : 0 < 10 ^ Z.of_nat n) by (apply Z.pow_pos_nonneg; lia).
  pose proof (Z.mod_pos_bound scaled _ Hpos) as Hfp.
  split; [| split; [| split; [exact Hfp |]]].
  - unfold format_fixed. fold scaled. destruct Hn as [-> | ->]; reflexivity.
  - destruct Hn as [-> | ->]; apply Nat.eqb_eq.
    + apply (all_from_sound _ _ _ format_0d_two_digits). change (10 ^ Z.of_nat 2) with 100 in *. lia.
    + apply (all_from_sound _ _ _ format_0d_three_digits). change (10 ^ Z.of_nat 3) with 1000 in *. lia.
  - replace (scaled / 10 ^ Z.of_nat n * 10 ^ Z.of_nat n + scaled mod 10 ^ Z.of_nat n)
      with scaled by (rewrite Z.mul_comm; apply Z.div_mod; lia).
    apply round_half_even_near.
Qed.

End PyFacts.

Import PyFacts.

(* ================================================================== *)
(** * Facts about dates and durations *)
(* ================================================================== *)

Module CalendarFacts.

Lemma whole_microseconds_spec (x : Z) (f : Q) :
  (-1 < f)%Q -> (f < 1)%Q ->
  let w := whole_microseconds x f in
  (inject_Z w - f <= 1 # 2)%Q /\ (- (1 # 2) <= inject_Z w - f)%Q /\
  (((inject_Z w - f == 1 # 2)%Q \/ (inject_Z w - f == - (1 # 2))%Q) -> Z.even (x + w) = true).
Proof.
  intros Hlo Hhi w. subst w. unfold whole_microseconds.
  destruct (Qlt_le_dec f 0) as [Hneg | Hpos].
  - (* negative leftover *)
    destruct (Qlt_le_dec (- (1 # 2)) f) as [Hs | Hs].
    + rewrite (c_round_neg f 0) by (unfold inject_Z; simpl; lra). simpl Z.opp.
      destruct (Qabs_eqb_half _) eqn:E.
      * apply Qabs_eqb_half_true in E. exfalso. unfold inject_Z in E. destruct E; lra.
      * unfold inject_Z. repeat split; try lra; intros [H | H]; lra.
    + rewrite (c_round_neg f 1) by (unfold inject_Z; simpl; lra).
      change (- (1)) with (-1).
      destruct (Qabs_eqb_half _) eqn:E.
      * apply Qabs_eqb_half_true in E.
        assert (Hf : (f == - (1 # 2))%Q) by (cbn in E; unfold inject_Z in E; destruct E; lra).
        destruct (Z.odd x) eqn:Ox.
        -- rewrite (c_round_nonneg _ 0) by (unfold inject_Z; simpl; lra).
           simpl. unfold inject_Z. repeat split; try lra.
           intros _; rewrite Z.even_add, <- Z.negb_odd, Ox; reflexivity.
        -- rewrite (c_round_neg _ 0) by (unfold inject_Z; simpl; lra).
           simpl. unfold inject_Z. repeat split; try lra;
           intros _; rewrite Z.add_0_r, <- Z.negb_odd, Ox; reflexivity.
      * rewrite <- not_true_iff_false, Qabs_eqb_half_true in E.
        unfold inject_Z in *. simpl in *. repeat split; try lra;
        intros [H | H]; exfalso; apply E; first [left; lra | right; lra].
  - destruct (Qlt_le_dec f (1 # 2)) as [Hs | Hs].
    + rewrite (c_round_nonneg f 0) by (unfold inject_Z; simpl; lra).
      destruct (Qabs_eqb_half _) eqn:E.
      * apply Qabs_eqb_half_true in E. exfalso. unfold inject_Z in E. destruct E; lra.
      * unfold inject_Z. repeat split; try lra; intros [H | H]; lra.
    + rewrite (c_round_nonneg f 1) by (unfold inject_Z; simpl; lra).
      destruct (Qabs_eqb_half _) eqn:E.
      * apply Qabs_eqb_half_true in E.
        assert (Hf : (f == 1 # 2)%Q) by (cbn in E; unfold inject_Z in E; destruct E; lra).
        destruct (Z.odd x) eqn:Ox.
        -- rewrite (c_round_nonneg _ 1) by (unfold inject_Z; simpl; lra).
           simpl. unfold inject_Z. repeat split; try lra;
           intros _; rewrite Z.even_add, <- Z.negb_odd, Ox; reflexivity.
        -- rewrite (c_round_nonneg _ 0) by (unfold inject_Z; simpl; lra).
           simpl. unfold inject_Z. repeat split; try lra;
           intros _; rewrite Z.add_0_r, <- Z.negb_odd, Ox; reflexivity.
      * rewrite <- not_true_iff_false, Qabs_eqb_half_true in E.
        unfold inject_Z in *. simpl in *. repeat split; try lra;
        intros [H | H]; exfalso; apply E; first [left; lra | right; lra].
Qed.

Lemma days_to_microseconds_spec (q : Q) :
  let t := days_to_microseconds q in
  let e := (inject_Z t - q * inject_Z US_PER_DAY)%Q in
  (e <= 1 # 2)%Q /\ (- (1 # 2) <= e)%Q /\
  ((e == 1 # 2)%Q \/ (e == - (1 # 2))%Q -> Z.even t = true).
Proof.
  unfold days_to_microseconds.
  set (i := Qtrunc q).
  set (frac := (q - inject_Z i)%Q).
  set (dnum := (inject_Z US_PER_DAY * frac)%Q).
  set (i2 := Qtrunc dnum).
  set (f2 := (dnum - inject_Z i2)%Q).
  assert (Hq : (q * inject_Z US_PER_DAY
                == inject_Z (i * US_PER_DAY + i2) + f2)%Q).
  { subst f2 dnum frac. rewrite inject_Z_plus, inject_Z_mult. ring. }
  destruct (Qeq_bool frac 0) eqn:E1.
  - apply Qeq_bool_iff in E1. cbv zeta.
    assert (Hq' : (q * inject_Z US_PER_DAY == inject_Z (i * US_PER_DAY))%Q).
    { rewrite inject_Z_mult. subst frac. 
      assert (q == inject_Z i)%Q by lra. rewrite H. reflexivity. }
    split; [lra | split; [lra | intros [H | H]; lra]].
  - destruct (Qeq_bool f2 0) eqn:E2.
    + apply Qeq_bool_iff in E2. cbv zeta.
      split; [lra | split; [lra | intros [H | H]; lra]].
    + cbv zeta.
      destruct (Qtrunc_frac dnum) as (L1 & L2 & _). fold i2 f2 in L1, L2.
      destruct (whole_microseconds_spec (i * US_PER_DAY + i2) f2 L1 L2) as (W1 & W2 & W3).
      rewrite inject_Z_plus.
      split; [lra | split; [lra | ]].
      intros H. apply W3. destruct H; [left | right]; lra.
Qed.

Lemma US_PER_DAY_even (n : Z) : Z.even (n * US_PER_DAY - 1) = false.
Proof.
  rewrite <- Z.negb_odd. replace (n * US_PER_DAY - 1) with (1 + 2 * (n * 43200000000 - 1))
    by (unfold US_PER_DAY; lia).
  rewrite Z.odd_add_mul_2. reflexivity.
Qed.

(** The day count of [timedelta(days=q)]. *)
Lemma days_to_microseconds_days (q : Q) :
  days_to_microseconds q / US_PER_DAY = Qfloor (q + (1 # 172800000000)).
Proof.
  pose proof (days_to_microseconds_spec q) as (S1 & S2 & S3). cbv zeta in *.
  set (t := days_to_microseconds q) in *.
  set (n := Qfloor (q + (1 # 172800000000))).
  pose proof (Qfloor_le (q + (1 # 172800000000))) as F1.
  pose proof (Qlt_floor (q + (1 # 172800000000))) as F2.
  fold n in F1, F2. rewrite inject_Z_plus in F2. change (inject_Z 1) with 1%Q in F2.
  unfold US_PER_DAY in *. change (inject_Z 86400000000) with (86400000000 # 1) in *.
  assert (Hlo : n * 86400000000 - 1 <= t).
  { rewrite Zle_Qle. unfold Z.sub. rewrite inject_Z_plus, inject_Z_mult.
    change (inject_Z 86400000000) with (86400000000 # 1).
    change (inject_Z (- (1))) with (-1)%Q. lra. }
  assert (Hhi : t < (n + 1) * 86400000000).
  { rewrite Zlt_Qlt. rewrite inject_Z_mult, inject_Z_plus.
    change (inject_Z 86400000000) with (86400000000 # 1).
    change (inject_Z 1) with 1%Q. lra. }
  assert (Hne : t <> n * 86400000000 - 1).
  { intros Heq.
    assert (Z.even t = true).
    { apply S3. right. rewrite Heq. unfold Z.sub. rewrite inject_Z_plus, inject_Z_mult.
      change (inject_Z 86400000000) with (86400000000 # 1).
      change (inject_Z (- (1))) with (-1)%Q.
      rewrite Heq in S2. unfold Z.sub in S2. rewrite inject_Z_plus, inject_Z_mult in S2.
      change (inject_Z 86400000000) with (86400000000 # 1) in S2.
      change (inject_Z (- (1))) with (-1)%Q in S2. lra. }
    rewrite Heq in H. pose proof (US_PER_DAY_even n) as Ev. unfold US_PER_DAY in Ev.
    congruence. }
  symmetry. apply (Z.div_unique _ _ n (t - n * 86400000000)); lia.
Qed.

Lemma date_eqb_eq a b : date_eqb a b = true -> a = b.
Proof.
  destruct a, b. unfold date_eqb. simpl.
  rewrite !andb_true_iff, !Z.eqb_eq. intros [[-> ->] ->]. reflexivity.
Qed.

Lemma steps_agree_sound k : forall n, steps_agree k n (ord2ymd n) = true ->
  forall j, n <= j < n + Z.of_nat k -> ord2ymd (j + 1) = next_day (ord2ymd j).
Proof.
  induction k as [| k IH]; intros n H j Hj.
  - lia.
  - cbn [steps_agree] in H. cbv zeta in H. apply andb_true_iff in H. destruct H as [H1 H2].
    destruct (Z.eq_dec j n) as [-> | Hne].
    + apply date_eqb_eq. exact H1.
    + apply (IH (n + 1) H2). lia.
Qed.

Lemma ord2ymd_shift400 n k : ord2ymd (n + DI400Y * k) = shift400 k (ord2ymd n).
Proof.
  unfold ord2ymd.
  replace (n + DI400Y * k - 1) with (n - 1 + k * DI400Y) by lia.
  rewrite Z.div_add, Z.mod_add by (unfold DI400Y; lia).
  cbv zeta.
  set (r := (n - 1) mod DI400Y). set (q := (n - 1) / DI400Y).
  set (n100 := r / DI100Y). set (r100 := r mod DI100Y).
  set (n4 := r100 / DI4Y). set (r4 := r100 mod DI4Y).
  set (n1 := r4 / 365). set (r1 := r4 mod 365).
  destruct ((n1 =? 4) || (n100 =? 4)).
  - unfold shift400. cbn [year month day]. f_equal. lia.
  - match goal with |- context [if ?c then _ else _] => destruct c end;
      unfold shift400; cbn [year month day]; f_equal; lia.
Qed.

Lemma is_leap_shift400 y k : is_leap (y + 400 * k) = is_leap y.
Proof.
  unfold is_leap.
  replace (y + 400 * k) with (y + (100 * k) * 4) at 1 by lia.
  replace (y + 400 * k) with (y + (4 * k) * 100) at 1 by lia.
  replace (y + 400 * k) with (y + k * 400) by lia.
  rewrite !Z.mod_add by lia. reflexivity.
Qed.

Lemma next_day_shift400 k d : next_day (shift400 k d) = shift400 k (next_day d).
Proof.
  destruct d as [y m d]. unfold next_day, shift400, days_in_month. cbn [year month day].
  rewrite is_leap_shift400.
  destruct (d <? _); [reflexivity |].
  destruct (m <? 12); cbn [year month day]; f_equal; lia.
Qed.

(** One full cycle of 400 years, day by day. *)
Lemma one_cycle : steps_agree (Z.to_nat DI400Y) 1 (ord2ymd 1) = true.
Proof. vm_cast_no_check (eq_refl true). Qed.

(** The date of the next ordinal is the next day of the calendar. *)
Lemma ord2ymd_succ n : ord2ymd (n + 1) = next_day (ord2ymd n).
Proof.
  set (k := (n - 1) / DI400Y). set (r := (n - 1) mod DI400Y + 1).
  assert (Hn : n = r + DI400Y * k).
  { subst r k. pose proof (Z.div_mod (n - 1) DI400Y). unfold DI400Y in *. lia. }
  assert (Hr : 1 <= r < 1 + Z.of_nat (Z.to_nat DI400Y)).
  { subst r. pose proof (Z.mod_pos_bound (n - 1) DI400Y). unfold DI400Y in *. lia. }
  rewrite Hn. replace (r + DI400Y * k + 1) with (r + 1 + DI400Y * k) by lia.
  rewrite !ord2ymd_shift400, next_day_shift400. f_equal.
  exact (steps_agree_sound _ _ one_cycle r Hr).
Qed.

(** Ordinal arithmetic agrees with counting days on the calendar from
    0001-01-01. *)
Lemma ord2ymd_plus_days d : 0 <= d -> ord2ymd (1 + d) = plus_days (Date 1 1 1) d.
Proof.
  intros Hd. unfold plus_days. rewrite (proj2 (Z.leb_le 0 d) Hd).
  rewrite <- (Z2Nat.id d Hd) at 1. generalize (Z.to_nat d) as k.
  induction k as [| k IH].
  - reflexivity.
  - rewrite Nat2Z.inj_succ, Nat.iter_succ, <- IH.
    replace (1 + Z.succ (Z.of_nat k)) with (1 + Z.of_nat k + 1) by lia.
    apply ord2ymd_succ.
Qed.

Lemma year_bounds n : 1 <= n <= MAXORDINAL -> 1 <= year (ord2ymd n) <= 9999.
Proof.
  unfold MAXORDINAL, ord2ymd, DI400Y, DI100Y, DI4Y. intros H. cbv zeta.
  set (q := (n - 1) / 146097). set (r := (n - 1) mod 146097).
  set (n100 := r / 36524). set (r100 := r mod 36524).
  set (n4 := r100 / 1461). set (r4 := r100 mod 1461).
  set (n1 := r4 / 365). set (r1 := r4 mod 365).
  destruct (Z.eqb_spec n1 4) as [E1 | E1]; destruct (Z.eqb_spec n100 4) as [E2 | E2];
    cbn [orb year];
    try (match goal with |- context [year (if ?c then _ else _)] => destruct c end;
         cbn [year]).
  all: subst n1 r1 n4 r4 n100 r100 q r; Z.div_mod_to_equations; lia.
Qed.

Lemma year_lower n : 364878 <= n -> 1000 <= year (ord2ymd n).
Proof.
  unfold ord2ymd, DI400Y, DI100Y, DI4Y. intros H. cbv zeta.
  set (q := (n - 1) / 146097). set (r := (n - 1) mod 146097).
  set (n100 := r / 36524). set (r100 := r mod 36524).
  set (n4 := r100 / 1461). set (r4 := r100 mod 1461).
  set (n1 := r4 / 365). set (r1 := r4 mod 365).
  destruct (Z.eqb_spec n1 4) as [E1 | E1]; destruct (Z.eqb_spec n100 4) as [E2 | E2];
    cbn [orb year];
    try (match goal with |- context [year (if ?c then _ else _)] => destruct c end;
         cbn [year]).
  all: subst n1 r1 n4 r4 n100 r100 q r; Z.div_mod_to_equations; lia.
Qed.

Lemma four_digit_years :
  all_from (Z.to_nat 9000) 1000 (fun y => String.eqb (format_0d 4 y) (str_of_Z y)) = true.
Proof. vm_cast_no_check (eq_refl true). Qed.

Lemma format_Y_iso p y :
  pads_year p = true \/ 1000 <= y <= 9999 -> format_Y p y = format_0d 4 y.
Proof.
  unfold format_Y. destruct (pads_year p); [reflexivity |].
  intros [H | H]; [discriminate |].
  symmetry. apply String.eqb_eq.
  apply (all_from_sound _ _ _ four_digit_years y). lia.
Qed.

Lemma timedelta_of_days_finite q :
  timedelta_of_days (FFin q) =
  if 999999999 <? Z.abs (day_offset q) then
    Raise (Exn OverflowError "days; must have magnitude <= 999999999")
  else Ret (Timedelta (day_offset q)
                      ((days_to_microseconds q / US_PER_SECOND) mod SECONDS_PER_DAY)
                      (days_to_microseconds q mod US_PER_SECOND)).
Proof.
  unfold timedelta_of_days, microseconds_to_delta, day_offset.
  rewrite <- days_to_microseconds_days.
  replace (days_to_microseconds q / US_PER_SECOND / SECONDS_PER_DAY)
    with (days_to_microseconds q / US_PER_DAY).
  2:{ unfold US_PER_SECOND, SECONDS_PER_DAY, US_PER_DAY.
      rewrite Z.div_div by lia. reflexivity. }
  reflexivity.
Qed.

Lemma datetime_add_base d s us :
  0 <= s < SECONDS_PER_DAY -> 0 <= us < US_PER_SECOND ->
  datetime_add (datetime_ymd 1 1 1) (Timedelta d s us) =
  if 999999999 <? Z.abs (1 + d) then
    Raise (Exn OverflowError "timedelta # of days is too large")
  else if (0 <? 1 + d) && (1 + d <=? MAXORDINAL) then
    Ret (Datetime (ord2ymd (1 + d)) (s / 3600) (s mod 3600 / 60) (s mod 3600 mod 60) us)
  else Raise (Exn OverflowError "date value out of range").
Proof.
  intros Hs Hus. unfold datetime_add, timedelta_of_ints.
  change (toordinal (dt_date (datetime_ymd 1 1 1))) with 1.
  cbn [td_days td_seconds td_microseconds datetime_ymd dt_hour dt_minute dt_second dt_microsecond].
  replace (0 * 3600 + 0 * 60 + 0 + s) with s by lia.
  replace (0 + us) with us by lia.
  unfold US_PER_SECOND, SECONDS_PER_DAY in *.
  rewrite (Z.div_small us), (Z.mod_small us) by lia.
  replace (s + 0) with s by lia.
  rewrite (Z.div_small s), (Z.mod_small s) by lia.
  replace (1 + d + 0) with (1 + d) by lia.
  destruct (999999999 <? Z.abs (1 + d)); reflexivity.
Qed.

(** What the guarded body of [_datenum_to_iso_string] computes for a
    finite float. *)
Lemma date_of_finite q :
  let d := day_offset q in
  (0 <= d <= 3652058 ->
   exists dt, rbind (timedelta_of_days (FFin q)) (datetime_add (datetime_ymd 1 1 1)) = Ret dt
              /\ dt_date dt = ord2ymd (1 + d)) /\
  (d < 0 \/ 3652058 < d ->
   exists e, rbind (timedelta_of_days (FFin q)) (datetime_add (datetime_ymd 1 1 1)) = Raise e).
Proof.
  intros d. rewrite timedelta_of_days_finite. fold d.
  assert (Hs : 0 <= (days_to_microseconds q / US_PER_SECOND) mod SECONDS_PER_DAY
               < SECONDS_PER_DAY)
    by (apply Z.mod_pos_bound; reflexivity).
  assert (Hus : 0 <= days_to_microseconds q mod US_PER_SECOND < US_PER_SECOND)
    by (apply Z.mod_pos_bound; reflexivity).
  split; intros Hd.
  - destruct (Z.ltb_spec 999999999 (Z.abs d)); [lia |].
    cbn [rbind]. rewrite datetime_add_base by assumption.
    destruct (Z.ltb_spec 999999999 (Z.abs (1 + d))); [lia |].
    destruct (Z.ltb_spec 0 (1 + d)); [| lia].
    destruct (Z.leb_spec (1 + d) MAXORDINAL); [| unfold MAXORDINAL in *; lia].
    cbn [andb]. eexists. split; reflexivity.
  - destruct (Z.ltb_spec 999999999 (Z.abs d)); [eexists; reflexivity |].
    cbn [rbind]. rewrite datetime_add_base by assumption.
    destruct (Z.ltb_spec 999999999 (Z.abs (1 + d))); [eexists; reflexivity |].
    destruct (Z.ltb_spec 0 (1 + d)); cbn [andb]; [| eexists; reflexivity].
    destruct (Z.leb_spec (1 + d) MAXORDINAL); [unfold MAXORDINAL in *; lia |].
    eexists; reflexivity.
Qed.

Example strptime_accepts :
  strptime_ymd "2024-03-01" = Ret (datetime_ymd 2024 3 1)
  /\ strptime_ymd "2024-3-1" = Ret (datetime_ymd 2024 3 1)
  /\ strptime_ymd "2024-02-29" = Ret (datetime_ymd 2024 2 29).
Proof. repeat split; reflexivity. Qed.

Example strptime_refuses :
  strptime_ymd "2023-02-29" = Raise (Exn ValueError "day is out of range for month")
  /\ strptime_ymd "2024-12-311" = Raise (Exn ValueError "unconverted data remains: 1")
  /\ strptime_ymd "01/03/2024"
     = Raise (Exn ValueError "time data does not match format '%Y-%m-%d'").
Proof. repeat split; reflexivity. Qed.

(** The year and the second digit of a two-digit day are matched by
    [\d], which takes any Unicode decimal digit; the month is matched by
    ASCII digits only. *)
Example strptime_unicode_digits :
  strptime_ymd "２０２４-03-1５" = Ret (datetime_ymd 2024 3 15)
  /\ strptime_ymd "٢٠٢٤-03-01" = Ret (datetime_ymd 2024 3 1)
  /\ strptime_ymd "2024-０3-01"
     = Raise (Exn ValueError "time data does not match format '%Y-%m-%d'")
  /\ strptime_ymd "2024-03-０1"
     = Raise (Exn ValueError "time data does not match format '%Y-%m-%d'").
Proof. repeat split; reflexivity. Qed.

End CalendarFacts.

Import CalendarFacts.

(* ================================================================== *)
(** * [utils.py]: day counts *)
(* ================================================================== *)

Module UtilsFacts.

Lemma day_offset_int z : day_offset (inject_Z z - 366) = z - 366.
Proof.
  unfold day_offset. apply Qfloor_eq.
  - unfold Z.sub. rewrite inject_Z_plus, inject_Z_opp.
    change (inject_Z 366) with 366%Q. lra.
  - unfold Z.sub. rewrite !inject_Z_plus, inject_Z_opp.
    change (inject_Z 366) with 366%Q. change (inject_Z 1) with 1%Q. lra.
Qed.

(** The argument of [timedelta] when the conversion to float succeeds
    with a finite value. *)
Lemma guarded_body_finite (v : pynum) (d : Z) :
  whole_days v = Some d ->
  (exists e, float_of_num v = Raise e /\ (d < 0 \/ 3652058 < d)) \/
  (exists q, rbind (float_of_num v) (fun x => Ret (fsub_const x 366)) = Ret (FFin q)
             /\ (0 <= d <= 3652058 -> day_offset q = d)
             /\ (d < 0 \/ 3652058 < d -> day_offset q < 0 \/ 3652058 < day_offset q)).
Proof.
  destruct v as [z | [x s]]; cbn [whole_days fval].
  - intros [= <-]. cbn [float_of_num].
    assert (H53 : 2 ^ 53 = 9007199254740992) by reflexivity.
    destruct (Z.lt_ge_cases (Z.abs z) (2 ^ 53)) as [Hs | Hl].
    + right. exists (inject_Z z - 366)%Q. rewrite (float_of_int_small z Hs).
      split; [reflexivity |]. rewrite day_offset_int. split; intros H; [reflexivity | exact H].
    + destruct (float_of_int_large z Hl) as [(e & E) | (r & E & Hr & Hp & Hn)].
      * left. exists e. split; [exact E | lia].
      * right. exists (inject_Z r - 366)%Q. rewrite E.
        split; [reflexivity |]. rewrite day_offset_int. split; intros H; lia.
  - destruct x as [| neg | | q]; intros [= <-]; right.
    + exists (0 - 366)%Q. split; [reflexivity |]. split; intros H; [reflexivity | exact H].
    + exists (q - 366)%Q. split; [reflexivity |]. split; intros H; [reflexivity | exact H].
Qed.

Lemma datenum_unfold p v :
  _datenum_to_iso_string p v =
  match rbind (rbind (float_of_num v) (fun x => Ret (fsub_const x 366)))
              (fun x => rbind (timedelta_of_days x) (datetime_add (datetime_ymd 1 1 1))) with
  | Ret dt => Ret (strftime_ymd p (dt_date dt))
  | Raise _ => str_num v
  end.
Proof.
  unfold _datenum_to_iso_string.
  destruct (float_of_num v) as [x | e]; cbn [rbind]; [| reflexivity].
  destruct (timedelta_of_days (fsub_const x 366)) as [td | e]; cbn [rbind]; [| reflexivity].
  destruct (datetime_add (datetime_ymd 1 1 1) td); reflexivity.
Qed.

Lemma int_representable (z : Z) : representable (PyInt z) <-> 366 <= z <= 3652424.
Proof.
  unfold representable. cbn [whole_days]. split.
  - intros (d & [= <-] & H). lia.
  - intros H. exists (z - 366). split; [reflexivity | lia].
Qed.

(** On arrays of kind [f] and [i] the conversion is [_datenum_to_iso_string],
    element by element. *)
Lemma convert_numeric_arrays (p : platform) :
  (forall l, convert_date_to_iso_strings p (DatesInt l)
             = map_result (fun z => _datenum_to_iso_string p (PyInt z)) l) /\
  (forall l, convert_date_to_iso_strings p (DatesFloat l)
             = map_result (fun x => _datenum_to_iso_string p (PyFloat x)) l).
Proof. split; reflexivity. Qed.

Example datenum_samples :
  map_result (_datenum_to_iso_string (Platform false))
      [PyInt 730000; PyInt 739000; PyInt 3652424;
       PyFloat (PyFloatObj (FFin (730000 + (3 # 4))) "730000.75")]
  = Ret ["1998-09-03"; "2023-04-25"; "9999-12-31"; "1998-09-03"].
Proof. vm_compute. reflexivity. Qed.

(** The handler: the text of a float is the one it carries, the text of
    an integer is refused beyond the limit. *)
Lemma str_num_cases (v : pynum) :
  (forall f, v = PyFloat f -> str_num v = Ret (frepr f)) /\
  (forall z, v = PyInt z -> Z.abs z < 10 ^ INT_MAX_STR_DIGITS ->
     str_num v = Ret (str_of_Z z)) /\
  (forall z, v = PyInt z -> 10 ^ INT_MAX_STR_DIGITS <= Z.abs z ->
     exists e, str_num v = Raise e /\ exn_kind_of e = ValueError).
Proof.
  split; [intros f ->; reflexivity |].
  split; intros z -> H; cbn [str_num].
  - apply str_int_small. exact H.
  - unfold str_int. apply Z.leb_le in H. rewrite H. eexists. split; reflexivity.
Qed.

(** C1, as amended.  For every numeric day count [v] whose offset from
    0001-01-01, [v - 366] in whole days, lies between 0 and 3652058 (the
    dates 0001-01-01 to 9999-12-31), the string produced is the
    [%Y-%m-%d] rendering of 0001-01-01 plus that many days; it is the ISO
    [YYYY-MM-DD] string whenever the platform pads [%Y] or the year has
    four digits (offsets from 364877 on). *)
Theorem datenum_decodes_in_range (p : platform) (v : pynum) (d : Z) :
  whole_days v = Some d -> 0 <= d <= 3652058 ->
  _datenum_to_iso_string p v = Ret (strftime_ymd p (plus_days (Date 1 1 1) d)) /\
  (pads_year p = true \/ 364877 <= d ->
   _datenum_to_iso_string p v = Ret (isoformat (plus_days (Date 1 1 1) d))).
Proof.
  intros Hv Hd.
  assert (E : _datenum_to_iso_string p v
              = Ret (strftime_ymd p (plus_days (Date 1 1 1) d))).
  { rewrite datenum_unfold.
    destruct (guarded_body_finite v d Hv) as [(e & _ & Hbig) | (q & -> & Hq & _)]; [lia |].
    specialize (Hq Hd). cbn [rbind].
    destruct (date_of_finite q) as [Hin _]. rewrite Hq in Hin.
    destruct (Hin Hd) as (dt & -> & Hdate).
    rewrite Hdate, ord2ymd_plus_days by lia. reflexivity. }
  split; [exact E |].
  intros Hp. rewrite E. f_equal. unfold strftime_ymd, isoformat.
  rewrite format_Y_iso; [reflexivity |].
  destruct Hp as [Hp | Hp]; [left; exact Hp | right].
  rewrite <- ord2ymd_plus_days by lia.
  pose proof (year_bounds (1 + d)). pose proof (year_lower (1 + d)).
  unfold MAXORDINAL in *. lia.
Qed.

Lemma datenum_decodes_in_range_witness :
  whole_days (PyInt 739000) = Some 738634 /\ 0 <= 738634 <= 3652058 /\
  _datenum_to_iso_string (Platform false) (PyInt 739000)
  = Ret (isoformat (plus_days (Date 1 1 1) 738634)).
Proof.
  split; [reflexivity |]. split; [lia |].
  apply (datenum_decodes_in_range (Platform false) (PyInt 739000) 738634);
    [reflexivity | lia | right; lia].
Defined.

(** C1 as stated fails before year 1: the day count 0 is rendered as the
    text of the number, not as the ISO string of 0001-01-01 minus 366
    days. *)
Lemma datenum_zero_is_not_a_date :
  _datenum_to_iso_string (Platform true) (PyInt 0)
  <> Ret (isoformat (plus_days (Date 1 1 1) (0 - 366))).
Proof. vm_compute. discriminate. Qed.

Lemma datenum_handler (p : platform) (v : pynum) :
  ~ representable v -> _datenum_to_iso_string p v = str_num v.
Proof.
  intros Hn. rewrite datenum_unfold.
  destruct (whole_days v) as [d |] eqn:Hv.
  - assert (Hd : d < 0 \/ 3652058 < d).
    { destruct (Z_lt_dec d 0); [left; assumption |].
      destruct (Z_lt_dec 3652058 d); [right; assumption |].
      exfalso. apply Hn. exists d. split; [assumption | lia]. }
    destruct (guarded_body_finite v d Hv) as [(e & -> & _) | (q & -> & _ & Hq)];
      [reflexivity |].
    specialize (Hq Hd). cbn [rbind].
    destruct (date_of_finite q) as [_ Hout].
    destruct (Hout Hq) as (e & ->). reflexivity.
  - destruct v as [z | [x s]]; [discriminate |].
    destruct x; try discriminate; reflexivity.
Qed.

(** C10, as amended.  For every numeric day count that does not denote a
    date between 0001-01-01 and 9999-12-31 once its offset is rounded to
    the microsecond (every integer below 366 or above 3652424, NaN, the
    infinities, every float more than half a microsecond before 366.0),
    the outcome is that of [str(v)]: the text of the float, or the
    decimal digits of an integer of up to 4300 digits, are returned, and
    nothing is raised; for an integer of more digits [str] raises
    [ValueError] inside the handler, and so does the function. *)
Theorem datenum_fallback (p : platform) (v : pynum) :
  ~ representable v ->
  _datenum_to_iso_string p v = str_num v /\
  (forall f, v = PyFloat f -> _datenum_to_iso_string p v = Ret (frepr f)) /\
  (forall z, v = PyInt z -> Z.abs z < 10 ^ INT_MAX_STR_DIGITS ->
     _datenum_to_iso_string p v = Ret (str_of_Z z)) /\
  (forall z, v = PyInt z -> 10 ^ INT_MAX_STR_DIGITS <= Z.abs z ->
     exists e, _datenum_to_iso_string p v = Raise e /\ exn_kind_of e = ValueError).
Proof.
  intros Hn. rewrite (datenum_handler p v Hn).
  split; [reflexivity | apply str_num_cases].
Qed.

Lemma datenum_fallback_witness :
  ~ representable (PyInt 365) /\
  _datenum_to_iso_string (Platform true) (PyInt 365) = Ret "365".
Proof.
  assert (H : ~ representable (PyInt 365)).
  { intros (d & E & Hd). injection E as <-. lia. }
  split; [exact H |].
  destruct (datenum_fallback (Platform true) (PyInt 365) H) as (_ & _ & Hz & _).
  apply (Hz 365 eq_refl).
  apply Z.lt_le_trans with (10 ^ 3); [reflexivity |].
  apply Z.pow_le_mono_r; [lia | unfold INT_MAX_STR_DIGITS; lia].
Defined.

(** C10 as stated fails just below 366: the float 365.99999999999994 is
    less than 366, yet its offset rounds to zero microseconds and the
    result is the date 0001-01-01, not the text of the number. *)
Lemma datenum_just_below_366_is_a_date :
  (366 - (1 # 17592186044416) < 366)%Q /\
  _datenum_to_iso_string (Platform true) just_below_366 = Ret "0001-01-01" /\
  _datenum_to_iso_string (Platform true) just_below_366 <> str_num just_below_366.
Proof.
  split; [reflexivity |].
  split; [vm_compute; reflexivity | vm_compute; discriminate].
Qed.

End UtilsFacts.

Import UtilsFacts.

(* ================================================================== *)
(** * [profile.py]: transport, batches, merge *)
(* ================================================================== *)

Module ProfileFacts.

(** ** Reading a trace *)

Lemma posts_app a b : posts (a ++ b) = posts a ++ posts b.
Proof. apply flat_map_app. Qed.

Lemma posts_snoc_print t s : posts (t ++ [EvPrint s]) = posts t.
Proof. rewrite posts_app. apply app_nil_r. Qed.

Lemma writes_app a b : writes (a ++ b) = writes a ++ writes b.
Proof. apply flat_map_app. Qed.

Lemma writes_snoc_print t s : writes (t ++ [EvPrint s]) = writes t.
Proof. rewrite writes_app. apply app_nil_r. Qed.

Lemma writes_snoc_post t rq : writes (t ++ [EvPost rq]) = writes t.
Proof. rewrite writes_app. apply app_nil_r. Qed.

Lemma writes_snoc_write t p data : writes (t ++ [EvWriteFile p data]) = writes t ++ [(p, data)].
Proof. rewrite writes_app. reflexivity. Qed.

Lemma posts_snoc_write t p data : posts (t ++ [EvWriteFile p data]) = posts t.
Proof. rewrite posts_app. apply app_nil_r. Qed.

Lemma opens_snoc_print t s : opens (t ++ [EvPrint s]) = opens t.
Proof. unfold opens. rewrite flat_map_app. apply app_nil_r. Qed.

Lemma opens_snoc_post t rq : opens (t ++ [EvPost rq]) = opens t.
Proof. unfold opens. rewrite flat_map_app. apply app_nil_r. Qed.

Lemma opens_snoc_write t p data : opens (t ++ [EvWriteFile p data]) = opens t.
Proof. unfold opens. rewrite flat_map_app. apply app_nil_r. Qed.

Lemma netcdf_snoc_print t s : netcdf_writes (t ++ [EvPrint s]) = netcdf_writes t.
Proof. unfold netcdf_writes. rewrite flat_map_app. apply app_nil_r. Qed.

Lemma netcdf_snoc_post t rq : netcdf_writes (t ++ [EvPost rq]) = netcdf_writes t.
Proof. unfold netcdf_writes. rewrite flat_map_app. apply app_nil_r. Qed.

Lemma netcdf_snoc_write t p data :
  netcdf_writes (t ++ [EvWriteFile p data]) = netcdf_writes t.
Proof. unfold netcdf_writes. rewrite flat_map_app. apply app_nil_r. Qed.

Lemma closes_snoc_print t s : closes (t ++ [EvPrint s]) = closes t.
Proof. unfold closes. rewrite flat_map_app. apply app_nil_r. Qed.

Create Rewrite HintDb shows.

#[export] Hint Rewrite posts_snoc_print posts_snoc_write
  writes_snoc_print writes_snoc_post writes_snoc_write
  opens_snoc_print opens_snoc_post opens_snoc_write
  netcdf_snoc_print netcdf_snoc_post netcdf_snoc_write closes_snoc_print : shows.

(** Bring what a trace shows into the form [seen before ++ seen now]. *)
Ltac observe :=
  unfold writes, netcdf_writes, opens, closes, warnings, posts;
  rewrite ?flat_map_app; cbn [flat_map app]; rewrite ?app_nil_r.

(** ** One request *)

Lemma before_post_posts api_url t : posts (before_post api_url t) = posts t.
Proof.
  unfold before_post. destruct (endswith _ _); [| reflexivity].
  rewrite posts_app. apply app_nil_r.
Qed.

Lemma effective_url_eq api_url :
  (if truthy api_url then match api_url with Some u => u | None => DEFAULT_API end
   else DEFAULT_API) = effective_url api_url.
Proof.
  destruct api_url as [u |]; cbn [truthy effective_url]; [| reflexivity].
  destruct (String.eqb u EmptyString); reflexivity.
Qed.

Lemma content_type_ok_eq r :
  startswith (match headers_get (headers r) "Content-Type" with
              | Some v => v
              | None => EmptyString
              end) "application/x-netcdf" = content_type_ok r.
Proof. unfold content_type_ok. destruct (headers_get _ _); reflexivity. Qed.

Lemma fetch_predictions_eq (w : world) (lat lon date : json)
  (filename : string) (api_url : option string) (t : trace) :
  let rq := profile_request (effective_url api_url) (payload lat lon date) in
  let t1 := before_post api_url t in
  fetch_predictions w lat lon date filename api_url t =
  match w_post w t1 rq with
  | Raise exc =>
      (Ret None, (t1 ++ [EvPost rq]) ++ [EvPrint ("HTTP error: " +++ exn_msg exc)])
  | Ret resp =>
      if negb (status_code resp =? 200) then
        (Ret None,
         (t1 ++ [EvPost rq])
         ++ [EvPrint ("Request failed: " +++ str_of_Z (status_code resp) +++ " – "
                      +++ str_take 200 (text resp))])
      else if negb (content_type_ok resp) then
        (Ret None,
         (t1 ++ [EvPost rq])
         ++ [EvPrint ("Unexpected content type: "
                      +++ match headers_get (headers resp) "Content-Type" with
                          | Some v => v
                          | None => "None"
                          end)])
      else
        match w_write_file w (t1 ++ [EvPost rq]) filename (content resp) with
        | Ret _ =>
            (Ret (Some filename),
             (t1 ++ [EvPost rq]) ++ [EvWriteFile filename (content resp)])
        | Raise exc =>
            (Ret None,
             ((t1 ++ [EvPost rq]) ++ [EvWriteFile filename (content resp)])
             ++ [EvPrint ("Failed to write " +++ filename +++ ": " +++ exn_msg exc)])
        end
  end.
Proof.
  intros rq t1. unfold fetch_predictions.
  rewrite effective_url_eq. fold (payload lat lon date). fold rq.
  assert (Hpre : forall (k : unit -> M (option string)),
             bind (if endswith (effective_url api_url) "/predict"
                   then emit (EvWarn "You are using the deprecated /predict endpoint. Use /v1/profile.")
                   else ret tt) k t = k tt t1).
  { intros k. subst t1. unfold before_post.
    destruct (endswith (effective_url api_url) "/predict"); reflexivity. }
  rewrite Hpre. clear Hpre. run_io.
  destruct (w_post w t1 rq) as [resp | exc]; [| reflexivity].
  rewrite content_type_ok_eq.
  destruct (negb (status_code resp =? 200)); [reflexivity |].
  destruct (negb (content_type_ok resp)); [reflexivity |].
  destruct (w_write_file w (t1 ++ [EvPost rq]) filename (content resp)); reflexivity.
Qed.


Lemma fetch_predictions_posts w lat lon date filename api_url t :
  exists r t', fetch_predictions w lat lon date filename api_url t = (Ret r, t') /\
    (r = None \/ r = Some filename) /\
    posts t' = posts t ++ [profile_request (effective_url api_url) (payload lat lon date)].
Proof.
  rewrite fetch_predictions_eq.
  set (rq := profile_request _ _). set (t1 := before_post api_url t).
  assert (P1 : posts (t1 ++ [EvPost rq]) = posts t ++ [rq]).
  { rewrite posts_app. subst t1. rewrite before_post_posts. reflexivity. }
  destruct (w_post w t1 rq) as [resp | exc].
  2:{ do 2 eexists. split; [reflexivity |]. split; [left; reflexivity |].
      rewrite posts_snoc_print. exact P1. }
  destruct (negb (status_code resp =? 200)).
  { do 2 eexists. split; [reflexivity |]. split; [left; reflexivity |].
    rewrite posts_snoc_print. exact P1. }
  destruct (negb (content_type_ok resp)).
  { do 2 eexists. split; [reflexivity |]. split; [left; reflexivity |].
    rewrite posts_snoc_print. exact P1. }
  destruct (w_write_file w _ filename (content resp)).
  - do 2 eexists. split; [reflexivity |]. split; [right; reflexivity |].
    rewrite posts_app, P1. apply app_nil_r.
  - do 2 eexists. split; [reflexivity |]. split; [left; reflexivity |].
    rewrite posts_snoc_print, posts_app, P1. apply app_nil_r.
Qed.

Lemma before_post_shows api_url t :
  writes (before_post api_url t) = writes t /\
  netcdf_writes (before_post api_url t) = netcdf_writes t /\
  opens (before_post api_url t) = opens t /\
  warnings (before_post api_url t)
  = warnings t
    ++ (if endswith (effective_url api_url) "/predict"
        then ["You are using the deprecated /predict endpoint. Use /v1/profile."]
        else []).
Proof.
  unfold before_post. destruct (endswith (effective_url api_url) "/predict").
  - repeat split; observe; reflexivity.
  - repeat split; try reflexivity. symmetry. apply app_nil_r.
Qed.

(** The outcome of a request in terms of [served] and [saved]. *)
Lemma fetch_predictions_served (w : world) (lat lon date : json)
  (filename : string) (api_url : option string) (t : trace) :
  let rq := profile_request (effective_url api_url) (payload lat lon date) in
  let t1 := before_post api_url t in
  exists t',
    fetch_predictions w lat lon date filename api_url t
    = (Ret (if served w t1 rq filename then Some filename else None), t') /\
    posts t' = posts t ++ [rq] /\
    writes t' = writes t ++ saved (w_post w t1 rq) filename /\
    opens t' = opens t /\ netcdf_writes t' = netcdf_writes t.
Proof.
  intros rq t1. rewrite fetch_predictions_eq. fold rq t1. unfold served, saved.
  destruct (before_post_shows api_url t) as (Bw & Bn & Bo & _). fold t1 in Bw, Bn, Bo.
  assert (Bp : posts t1 = posts t) by apply before_post_posts.
  destruct (w_post w t1 rq) as [resp | exc].
  2:{ eexists. split; [reflexivity |]. autorewrite with shows.
      rewrite posts_app, Bp, Bw, Bo, Bn, app_nil_r. repeat split; reflexivity. }
  destruct (status_code resp =? 200); cbn [negb andb].
  2:{ eexists. split; [reflexivity |]. autorewrite with shows.
      rewrite posts_app, Bp, Bw, Bo, Bn, app_nil_r. repeat split; reflexivity. }
  destruct (content_type_ok resp); cbn [negb andb].
  2:{ eexists. split; [reflexivity |]. autorewrite with shows.
      rewrite posts_app, Bp, Bw, Bo, Bn, app_nil_r. repeat split; reflexivity. }
  destruct (w_write_file w (t1 ++ [EvPost rq]) filename (content resp)).
  - eexists. split; [reflexivity |]. autorewrite with shows.
    rewrite posts_app, Bp, Bw, Bo, Bn. repeat split; reflexivity.
  - eexists. split; [reflexivity |]. autorewrite with shows.
    rewrite posts_app, Bp, Bw, Bo, Bn. repeat split; reflexivity.
Qed.

(** ** One call *)

Lemma convert_array_of_texts p l :
  convert_date_to_iso_strings p (array_of_texts l) = Ret (map rstrip_nul l).
Proof. destruct l; reflexivity. Qed.

(** A batch goes through the conversion as it is, but for the NUL
    characters at the end of a date. *)
Lemma preprocess_batch p b :
  preprocess_inputs p (CoordFloat (b_lat b)) (CoordFloat (b_lon b))
                    (array_of_texts (b_date b))
  = Ret (FList (b_lat b), FList (b_lon b), map rstrip_nul (b_date b)).
Proof.
  unfold preprocess_inputs. cbn [_to_float_list rbind].
  rewrite convert_array_of_texts. reflexivity.
Qed.

(** [get_predictions] once its inputs are converted and the latitudes are
    a list. *)
Lemma get_predictions_eq w lat0 lon0 date0 filename api_url t lat lon date :
  preprocess_inputs (w_platform w) lat0 lon0 date0 = Ret (FList lat, lon, date) ->
  let t1 := t ++ [EvPrint ("Fetching predictions for " +++ str_of_Z (len lat)
                           +++ " points...")] in
  get_predictions w lat0 lon0 date0 filename api_url t =
  if w_running_loop w then (Ret Blocked, t1)
  else returning (fetch_predictions w (JList (map JNum lat)) (json_of_floats lon)
                                    (JList (map JStr date)) filename api_url) t1.
Proof.
  intros H t1. unfold get_predictions. unfold bind at 1, lift at 1. rewrite H.
  cbn [len_floats]. unfold bind at 1, lift at 1. unfold bind at 1. unfold print at 1, emit at 1.
  fold t1. destruct (w_running_loop w); reflexivity.
Qed.

(** What [get_predictions] does with inputs that do not convert, or with
    a bare latitude. *)
Lemma get_predictions_raises w lat0 lon0 date0 filename api_url t :
  (forall e, preprocess_inputs (w_platform w) lat0 lon0 date0 = Raise e ->
     get_predictions w lat0 lon0 date0 filename api_url t = (Raise e, t)) /\
  (forall x lon date,
     preprocess_inputs (w_platform w) lat0 lon0 date0 = Ret (FScalar x, lon, date) ->
     get_predictions w lat0 lon0 date0 filename api_url t
     = (Raise (Exn TypeError "object of type 'float' has no len()"), t)).
Proof.
  split.
  - intros e H. unfold get_predictions. unfold bind at 1, lift at 1. rewrite H. reflexivity.
  - intros x lon date H. unfold get_predictions. unfold bind at 1, lift at 1. rewrite H.
    reflexivity.
Qed.

(** ** The merge step *)

Lemma renumbered_data records :
  map profile_data (renumbered records) = map profile_data records.
Proof.
  unfold renumbered, arange. rewrite map_map. cbn [profile_data].
  rewrite <- (map_map fst profile_data). rewrite map_fst_combine; [reflexivity |].
  unfold arange. rewrite length_map, length_seq. reflexivity.
Qed.

Lemma renumbered_numbers records :
  map profile_number (renumbered records) = arange (List.length records).
Proof.
  unfold renumbered. rewrite map_map. cbn [profile_number].
  rewrite <- (map_map snd (fun x => x)), map_id. rewrite map_snd_combine; [reflexivity |].
  unfold arange. rewrite length_map, length_seq. reflexivity.
Qed.

Lemma open_all_returns w n files : forall i datasets t,
  exists dss r t', open_all w n i files datasets t = (Ret (dss, r), t') /\ posts t' = posts t.
Proof.
  induction files as [| f rest IH]; intros i datasets t.
  - do 3 eexists. split; reflexivity.
  - cbn [open_all]. run_io.
    destruct (w_open_dataset w _ f) as [ds | e].
    + destruct (IH (i + 1) (datasets ++ [ds])
                   ((t ++ [EvPrint ("  Loading file " +++ str_of_Z (i + 1) +++ "/"
                                    +++ str_of_Z n +++ ": " +++ f)])
                    ++ [EvOpenDataset f])) as (dss & r & t' & E & P).
      rewrite E. do 3 eexists. split; [reflexivity |].
      rewrite P. unfold posts. rewrite !flat_map_app. cbn. rewrite !app_nil_r. reflexivity.
    + do 3 eexists. split; [reflexivity |].
      unfold posts. rewrite !flat_map_app. cbn. rewrite !app_nil_r. reflexivity.
Qed.

Lemma open_all_succeeds w store n files :
  (forall t' f, In f files -> w_open_dataset w t' f = Ret (store f)) ->
  forall i datasets t,
  exists t', open_all w n i files datasets t = (Ret (datasets ++ map store files, Ret tt), t').
Proof.
  induction files as [| f rest IH]; intros Hopen i datasets t.
  - eexists. cbn [open_all map]. rewrite app_nil_r. reflexivity.
  - cbn [open_all]. run_io. rewrite (Hopen _ f) by (left; reflexivity).
    destruct (IH (fun t' g Hg => Hopen t' g (or_intror Hg)) (i + 1) (datasets ++ [store f])
                 ((t ++ [EvPrint ("  Loading file " +++ str_of_Z (i + 1) +++ "/"
                                  +++ str_of_Z n +++ ": " +++ f)])
                  ++ [EvOpenDataset f])) as (t' & E).
    rewrite E. eexists. cbn [map]. rewrite <- app_assoc. reflexivity.
Qed.

Lemma close_all_eq datasets t :
  close_all datasets t = (Ret tt, t ++ map EvCloseDataset datasets).
Proof.
  revert t. induction datasets as [| ds rest IH]; intros t.
  - cbn. rewrite app_nil_r. reflexivity.
  - cbn [close_all]. run_io. rewrite IH. cbn [map]. rewrite <- app_assoc. reflexivity.
Qed.

Lemma posts_closes t datasets : posts (t ++ map EvCloseDataset datasets) = posts t.
Proof.
  rewrite posts_app. replace (posts (map EvCloseDataset datasets)) with (@nil http_request).
  - apply app_nil_r.
  - induction datasets; [reflexivity | assumption].
Qed.

(** The merge step returns; it never raises and issues no request. *)
Lemma merge_returns w files out t :
  exists r t', merge_netcdf_files w files out t = (Ret r, t')
               /\ (r = None \/ r = Some out) /\ posts t' = posts t.
Proof.
  unfold merge_netcdf_files.
  destruct (w_xarray_installed w); cbn [negb].
  2:{ run_io. do 2 eexists. split; [reflexivity |]. split; [left; reflexivity |].
      rewrite posts_app. apply app_nil_r. }
  destruct files as [| f rest].
  { run_io. do 2 eexists. split; [reflexivity |]. split; [left; reflexivity |].
    rewrite posts_app. apply app_nil_r. }
  unfold bind at 1. unfold print at 1, emit at 1.
  unfold bind at 1.
  destruct (open_all_returns w (len (f :: rest)) (f :: rest) 0 []
              (t ++ [EvPrint ("Merging " +++ str_of_Z (len (f :: rest))
                              +++ " NetCDF files into " +++ out)]))
    as (dss & r & t' & E & P).
  rewrite E.
  assert (Pt : posts t' = posts t).
  { rewrite P, posts_app. apply app_nil_r. }
  clear E P.
  destruct r as [[] | e].
  - run_io. destruct (xr_concat dss) as [merged | e].
    + destruct (w_to_netcdf w _ out _) as [[] | e].
      * rewrite close_all_eq. do 2 eexists. split; [reflexivity |].
        split; [right; reflexivity |].
        rewrite posts_closes, !posts_app, Pt. cbn. rewrite !app_nil_r. reflexivity.
      * rewrite close_all_eq. do 2 eexists. split; [reflexivity |].
        split; [left; reflexivity |].
        rewrite posts_closes, !posts_app, Pt. cbn. rewrite !app_nil_r. reflexivity.
    + rewrite close_all_eq. do 2 eexists. split; [reflexivity |].
      split; [left; reflexivity |].
      rewrite posts_closes, !posts_app, Pt. cbn. rewrite !app_nil_r. reflexivity.
  - run_io. rewrite close_all_eq. do 2 eexists. split; [reflexivity |].
    split; [left; reflexivity |].
    rewrite posts_closes, !posts_app, Pt. cbn. rewrite !app_nil_r. reflexivity.
Qed.

(** C8.  When xarray is installed, the list of files is not empty, every
    file opens and the result can be written, the merge step writes one
    dataset whose records are the records of the inputs in the order of
    the list, renumbered 0, 1, ..., total - 1; the total is the sum of the
    record counts; every opened dataset is closed. *)
Theorem merge_concatenates (w : world) (store : string -> dataset)
  (files : list string) (out : string) (t : trace) :
  w_xarray_installed w = true ->
  files <> [] ->
  (forall t' f, In f files -> w_open_dataset w t' f = Ret (store f)) ->
  (forall t' ds, w_to_netcdf w t' out ds = Ret tt) ->
  let records := flat_map (fun f => ds_profiles (store f)) files in
  exists merged t',
    merge_netcdf_files w files out t = (Ret (Some out), t') /\
    In (EvToNetcdf out merged) t' /\
    map profile_data (ds_profiles merged) = map profile_data records /\
    map profile_number (ds_profiles merged) = arange (List.length records) /\
    List.length (ds_profiles merged)
    = list_sum (map (fun f => List.length (ds_profiles (store f))) files) /\
    (forall f, In f files -> In (EvCloseDataset (store f)) t').
Proof.
  intros Hx Hne Hopen Hwrite records.
  unfold merge_netcdf_files. rewrite Hx. cbn [negb].
  destruct files as [| f rest]; [contradiction |].
  unfold bind at 1. unfold print at 1, emit at 1.
  unfold bind at 1.
  destruct (open_all_succeeds w store (len (f :: rest)) (f :: rest) Hopen 0 []
              (t ++ [EvPrint ("Merging " +++ str_of_Z (len (f :: rest))
                              +++ " NetCDF files into " +++ out)]))
    as (t1 & E).
  rewrite E. cbn [app map]. run_io. cbn [xr_concat]. rewrite Hwrite.
  rewrite close_all_eq.
  set (merged := apply_netcdf_global_attributes _ None).
  exists merged. eexists. split; [reflexivity |].
  assert (Hrec : ds_profiles merged = renumbered records).
  { subst merged records. unfold apply_netcdf_global_attributes, assign_coords.
    cbn [ds_profiles]. unfold renumbered.
    change (store f :: map store rest) with (map store (f :: rest)).
    rewrite !flat_map_concat_map, !map_map. reflexivity. }
  split.
  { apply in_or_app. left. apply in_or_app. left. apply in_or_app. right. left. reflexivity. }
  split; [rewrite Hrec; apply renumbered_data |].
  split; [rewrite Hrec; apply renumbered_numbers |].
  split.
  { rewrite <- (length_map profile_data), Hrec, renumbered_data, length_map.
    subst records.
    exact (length_flat_map_sum (fun g => ds_profiles (store g)) (f :: rest)). }
  intros g Hg. apply in_or_app. right.
  change (store f :: map store rest) with (map store (f :: rest)).
  rewrite map_map. apply in_map_iff. exists g. split; [reflexivity | exact Hg].
Qed.

Lemma merge_concatenates_witness :
  w_xarray_installed calm_world = true /\
  ["a.nc"; "b.nc"] <> [] /\
  exists merged t',
    merge_netcdf_files calm_world ["a.nc"; "b.nc"] "out.nc" [] = (Ret (Some "out.nc"), t') /\
    map profile_data (ds_profiles merged) = ["a.nc#0"; "a.nc#1"; "b.nc#0"; "b.nc#1"] /\
    map profile_number (ds_profiles merged) = [0; 1; 2; 3].
Proof.
  split; [reflexivity |]. split; [discriminate |].
  destruct (merge_concatenates calm_world sample_store ["a.nc"; "b.nc"] "out.nc" [])
    as (merged & t' & E & _ & D & N & _);
    [reflexivity | discriminate | intros; reflexivity | intros; reflexivity |].
  exists merged, t'. split; [exact E |]. split; [exact D | exact N].
Defined.

Lemma final_output_truthy prefix : truthy (Some (final_output prefix)) = true.
Proof.
  unfold final_output, truthy.
  destruct prefix as [| c s]; [reflexivity |].
  destruct (endswith (String c s) ".nc"); reflexivity.
Qed.

Lemma finish_cases (w : world) (merge_output : bool) (prefix : string)
  (files : list string) (t : trace) :
  (merge_output = true -> (2 <= List.length files)%nat ->
   let t1 := t ++ [EvPrint ("Auto-merging " +++ str_of_Z (len files)
                            +++ " batch files into " +++ final_output prefix)] in
   exists r t2,
     merge_netcdf_files w files (final_output prefix) t1 = (Ret r, t2) /\
     (r = Some (final_output prefix) ->
      fst (finish w merge_output prefix files t) = Ret (OutFile (final_output prefix))) /\
     (r = None ->
      fst (finish w merge_output prefix files t) = Ret (OutFiles files))) /\
  (forall f, files = [f] -> finish w merge_output prefix files t = (Ret (OutFile f), t)) /\
  (files = [] -> finish w merge_output prefix files t = (Ret (OutFiles []), t)) /\
  (merge_output = false -> (2 <= List.length files)%nat ->
   finish w merge_output prefix files t = (Ret (OutFiles files), t)).
Proof.
  split; [| split; [| split]].
  - intros -> Hlen t1. unfold finish. fold (final_output prefix).
    destruct (Z.ltb_spec 1 (len files)) as [_ | Hc]; [| unfold len in Hc; lia].
    cbn [andb]. run_io. fold t1.
    destruct (merge_returns w files (final_output prefix) t1) as (r & t2 & E & Hr & _).
    rewrite E. exists r, t2. split; [reflexivity |].
    split; intros ->.
    + rewrite final_output_truthy. reflexivity.
    + reflexivity.
  - intros f ->. unfold finish. cbn. rewrite andb_false_r. reflexivity.
  - intros ->. unfold finish. cbn. rewrite andb_false_r. reflexivity.
  - intros -> Hlen. unfold finish. cbn [andb].
    destruct (Z.eqb_spec (len files) 1) as [Hc | _]; [unfold len in Hc; lia |].
    reflexivity.
Qed.

(** ** One batch *)

Lemma process_batch_sync w api_url total files b t :
  w_running_loop w = false -> truthy (Some (b_filename b)) = true ->
  exists t0 t',
    process_batch w api_url total files b t
    = (Ret (Returned (if served w t0 (batch_request api_url b) (b_filename b)
                      then files ++ [b_filename b] else files)), t') /\
    posts t' = posts t ++ [batch_request api_url b] /\
    writes t' = writes t ++ saved (w_post w t0 (batch_request api_url b)) (b_filename b) /\
    opens t' = opens t /\ netcdf_writes t' = netcdf_writes t.
Proof.
  intros Hsync Hname. unfold process_batch.
  unfold bind at 1. unfold print at 1, emit at 1. unfold bind at 1, try at 1.
  rewrite (get_predictions_eq w _ _ _ _ _ _ _ _ _ (preprocess_batch (w_platform w) b)).
  rewrite Hsync. unfold returning. unfold bind at 1. cbn [json_of_floats].
  match goal with
  | |- context [fetch_predictions w ?la ?lo ?da ?f ?u ?t1] =>
      destruct (fetch_predictions_served w la lo da f u t1) as (t' & E & P & W & O & N);
      exists (before_post u t1)
  end.
  rewrite E. fold (batch_request api_url b) in *.
  autorewrite with shows in P, W, O, N.
  destruct (served w _ (batch_request api_url b) (b_filename b)).
  - unfold ret at 1. rewrite Hname. run_io. eexists. split; [reflexivity |].
    autorewrite with shows. repeat split; assumption.
  - unfold ret at 1. cbn [truthy]. run_io. eexists. split; [reflexivity |].
    autorewrite with shows. repeat split; assumption.
Qed.

(** In a thread that runs an event loop the first call waits for ever:
    the batch is announced and nothing more happens. *)
Lemma process_batch_blocked w api_url total files b t :
  w_running_loop w = true ->
  process_batch w api_url total files b t
  = (Ret Blocked,
     (t ++ [EvPrint ("Processing batch " +++ str_of_Z (b_number b) +++ " ("
                     +++ str_of_Z (b_start b + 1) +++ "-" +++ str_of_Z (b_end b) +++ " of "
                     +++ str_of_Z total +++ ")")])
     ++ [EvPrint ("Fetching predictions for " +++ str_of_Z (len (b_lat b)) +++ " points...")]).
Proof.
  intros Hloop. unfold process_batch.
  unfold bind at 1. unfold print at 1, emit at 1. unfold bind at 1, try at 1.
  rewrite (get_predictions_eq w _ _ _ _ _ _ _ _ _ (preprocess_batch (w_platform w) b)).
  rewrite Hloop. reflexivity.
Qed.

Lemma for_each_blocked w api_url total b bs files t :
  w_running_loop w = true ->
  exists t',
    for_each (process_batch w api_url total) (b :: bs) files t = (Ret Blocked, t') /\
    posts t' = posts t /\ writes t' = writes t.
Proof.
  intros Hloop. cbn [for_each]. unfold bind at 1.
  rewrite (process_batch_blocked w api_url total files b t Hloop).
  eexists. split; [reflexivity |]. autorewrite with shows. split; reflexivity.
Qed.

(** The loop when what is served does not depend on the moment. *)
Lemma for_each_served_by w api_url total (good : batch -> bool) bs :
  w_running_loop w = false ->
  Forall (fun b => truthy (Some (b_filename b)) = true) bs ->
  (forall b t, In b bs ->
     served w t (batch_request api_url b) (b_filename b) = good b) ->
  forall files t,
  exists t',
    for_each (process_batch w api_url total) bs files t
    = (Ret (Returned (files ++ map b_filename (filter good bs))), t') /\
    posts t' = posts t ++ map (batch_request api_url) bs /\
    opens t' = opens t /\ netcdf_writes t' = netcdf_writes t.
Proof.
  intros Hsync. induction bs as [| b bs IH]; intros Hnames Hgood files t.
  - exists t. cbn. rewrite !app_nil_r. repeat split; reflexivity.
  - cbn [for_each]. unfold bind at 1.
    destruct (process_batch_sync w api_url total files b t Hsync (Forall_inv Hnames))
      as (t0 & t1 & E & P & _ & O & N).
    rewrite E, (Hgood b t0 (or_introl eq_refl)).
    destruct (IH (Forall_inv_tail Hnames) (fun b' t' Hb => Hgood b' t' (or_intror Hb))
                 (if good b then files ++ [b_filename b] else files) t1)
      as (t2 & E2 & P2 & O2 & N2).
    rewrite E2. exists t2. split; [| split; [| split]].
    + cbn [filter]. destruct (good b); cbn [map]; [rewrite <- app_assoc |]; reflexivity.
    + rewrite P2, P. cbn [map]. rewrite <- app_assoc. reflexivity.
    + rewrite O2. exact O.
    + rewrite N2. exact N.
Qed.

(** *** The moments of the requests *)

Lemma moments_earlier rqs : forall t pre ts tl,
  posts pre = [] -> moments (t ++ pre) rqs ts tl -> moments t rqs ts tl.
Proof.
  destruct rqs as [| rq rqs]; intros t pre [| tk ts] tl Hpre H; cbn [moments] in *;
    try contradiction.
  - destruct H as (rest & -> & Hrest). exists (pre ++ rest).
    split; [symmetry; apply app_assoc |].
    rewrite posts_app, Hpre, Hrest. reflexivity.
  - destruct H as [(pre' & -> & Hpre') H]. split; [| exact H].
    exists (pre ++ pre'). split; [symmetry; apply app_assoc |].
    rewrite posts_app, Hpre, Hpre'. reflexivity.
Qed.

Lemma moments_later rqs : forall t ts tl post,
  posts post = [] -> moments t rqs ts tl -> moments t rqs ts (tl ++ post).
Proof.
  induction rqs as [| rq rqs IH]; intros t [| tk ts] tl post Hpost H; cbn [moments] in *;
    try contradiction.
  - destruct H as (rest & -> & Hrest). exists (rest ++ post).
    split; [symmetry; apply app_assoc |].
    rewrite posts_app, Hpost, Hrest. reflexivity.
  - destruct H as [Hk H]. split; [exact Hk |]. apply IH; assumption.
Qed.

(** The requests of a history are those sent at its moments. *)
Lemma moments_posts rqs : forall t ts tl,
  moments t rqs ts tl ->
  posts tl = posts t ++ rqs /\ List.length ts = List.length rqs.
Proof.
  induction rqs as [| rq rqs IH]; intros t [| tk ts] tl H; cbn [moments] in H;
    try contradiction.
  - destruct H as (rest & -> & Hrest). rewrite posts_app, Hrest. split; reflexivity.
  - destruct H as [(pre & -> & Hpre) H]. destruct (IH _ _ _ H) as [P L].
    split; [| cbn [List.length]; rewrite L; reflexivity].
    rewrite P, !posts_app, Hpre, app_nil_r. cbn [posts flat_map app].
    rewrite <- app_assoc. reflexivity.
Qed.

Lemma before_post_extends api_url t :
  exists pre, before_post api_url t = t ++ pre /\ posts pre = [].
Proof.
  unfold before_post. destruct (endswith _ _).
  - eexists. split; reflexivity.
  - exists []. split; [symmetry; apply app_nil_r | reflexivity].
Qed.

Lemma fetch_predictions_moment (w : world) (lat lon date : json)
  (filename : string) (api_url : option string) (t : trace) :
  exists rest,
    snd (fetch_predictions w lat lon date filename api_url t)
    = before_post api_url t
      ++ EvPost (profile_request (effective_url api_url) (payload lat lon date)) :: rest
    /\ posts rest = [].
Proof.
  rewrite fetch_predictions_eq. cbv zeta.
  destruct (w_post w _ _) as [resp | exc].
  2:{ eexists. cbn [snd]. rewrite <- !app_assoc. split; reflexivity. }
  destruct (negb (status_code resp =? 200)).
  { eexists. cbn [snd]. rewrite <- !app_assoc. split; reflexivity. }
  destruct (negb (content_type_ok resp)).
  { eexists. cbn [snd]. rewrite <- !app_assoc. split; reflexivity. }
  destruct (w_write_file w _ _ _); eexists; cbn [snd]; rewrite <- !app_assoc;
    split; reflexivity.
Qed.

(** One batch, with the moment of its request. *)
Lemma process_batch_moment w api_url total files b t :
  w_running_loop w = false -> truthy (Some (b_filename b)) = true ->
  exists t0 t',
    process_batch w api_url total files b t
    = (Ret (Returned (if served w t0 (batch_request api_url b) (b_filename b)
                      then files ++ [b_filename b] else files)), t') /\
    (exists pre, t0 = t ++ pre /\ posts pre = []) /\
    (exists rest, t' = (t0 ++ [EvPost (batch_request api_url b)]) ++ rest
                  /\ posts rest = []) /\
    writes t' = writes t ++ saved (w_post w t0 (batch_request api_url b)) (b_filename b).
Proof.
  intros Hsync Hname. unfold process_batch.
  unfold bind at 1. unfold print at 1, emit at 1. unfold bind at 1, try at 1.
  rewrite (get_predictions_eq w _ _ _ _ _ _ _ _ _ (preprocess_batch (w_platform w) b)).
  rewrite Hsync. unfold returning. unfold bind at 1. cbn [json_of_floats].
  match goal with
  | |- context [fetch_predictions w ?la ?lo ?da ?f ?u ?t1] =>
      destruct (fetch_predictions_served w la lo da f u t1) as (t' & E & _ & W & _);
      destruct (fetch_predictions_moment w la lo da f u t1) as (rest & Em & Hrest);
      destruct (before_post_extends u t1) as (pre & Ep & Hpre);
      exists (before_post u t1)
  end.
  rewrite E in Em. cbn [snd] in Em. rewrite E. fold (batch_request api_url b) in *.
  autorewrite with shows in W.
  assert (H0 : exists pre0, before_post api_url
                 ((t ++ [EvPrint ("Processing batch " +++ str_of_Z (b_number b) +++ " ("
                                  +++ str_of_Z (b_start b + 1) +++ "-"
                                  +++ str_of_Z (b_end b) +++ " of "
                                  +++ str_of_Z total +++ ")")])
                  ++ [EvPrint ("Fetching predictions for "
                               +++ str_of_Z (len (b_lat b)) +++ " points...")])
               = t ++ pre0 /\ posts pre0 = []).
  { rewrite Ep. eexists. rewrite <- !app_assoc. split; [reflexivity |].
    rewrite !posts_app, Hpre. reflexivity. }
  destruct (served w _ (batch_request api_url b) (b_filename b)).
  - unfold ret at 1. rewrite Hname. run_io. eexists. split; [reflexivity |].
    split; [exact H0 |]. split; [| autorewrite with shows; exact W].
    rewrite Em. eexists. rewrite <- !app_assoc. split; [reflexivity |].
    rewrite posts_app, Hrest. reflexivity.
  - unfold ret at 1. cbn [truthy]. run_io. eexists. split; [reflexivity |].
    split; [exact H0 |]. split; [| autorewrite with shows; exact W].
    rewrite Em. eexists. rewrite <- !app_assoc. split; [reflexivity |].
    rewrite posts_app, Hrest. reflexivity.
Qed.

(** The loop in a thread without an event loop: the files it gathers are
    those of the batches served, each at the moment of its request. *)
Lemma for_each_moments w api_url total bs :
  w_running_loop w = false ->
  Forall (fun b => truthy (Some (b_filename b)) = true) bs ->
  forall files t,
  exists ts tl,
    for_each (process_batch w api_url total) bs files t
    = (Ret (Returned (files ++ successful_files w api_url bs ts)), tl) /\
    moments t (map (batch_request api_url) bs) ts tl /\
    writes tl = writes t ++ flat_map (saved_at w api_url) (combine bs ts).
Proof.
  intros Hsync. induction bs as [| b bs IH]; intros Hnames files t.
  - exists [], t. cbn. rewrite !app_nil_r. split; [reflexivity |].
    split; [| reflexivity].
    exists []. split; [symmetry; apply app_nil_r | reflexivity].
  - cbn [for_each]. unfold bind at 1.
    destruct (process_batch_moment w api_url total files b t Hsync (Forall_inv Hnames))
      as (t0 & t1 & E & Hpre & (rest & -> & Hrest) & W).
    rewrite E.
    destruct (IH (Forall_inv_tail Hnames)
                 (if served w t0 (batch_request api_url b) (b_filename b)
                  then files ++ [b_filename b] else files)
                 ((t0 ++ [EvPost (batch_request api_url b)]) ++ rest))
      as (ts & tl & E2 & M2 & W2).
    rewrite E2. exists (t0 :: ts), tl. split; [| split].
    + unfold successful_files. cbn [combine filter].
      change (served_at w api_url (b, t0))
        with (served w t0 (batch_request api_url b) (b_filename b)).
      destruct (served w t0 (batch_request api_url b) (b_filename b)); cbn [map fst];
        [rewrite <- app_assoc |]; reflexivity.
    + cbn [map moments]. split; [exact Hpre |].
      apply (moments_earlier _ _ rest); assumption.
    + rewrite W2, W. cbn [combine flat_map]. rewrite <- app_assoc. reflexivity.
Qed.


(** ** How the points are cut *)

(** The slices taken at consecutive multiples of the batch size, put
    back together, give the prefix that has been covered. *)
Lemma concat_slices {A} (l : list A) (B : Z) : 0 < B ->
  forall m : nat,
  List.concat (map (fun i => slice l (Z.of_nat i * B) (Z.min (Z.of_nat i * B + B) (len l)))
              (seq 0 m))
  = firstn (Z.to_nat (Z.min (Z.of_nat m * B) (len l))) l.
Proof.
  intros HB. induction m as [| m IH].
  - cbn [seq map List.concat]. replace (Z.to_nat _) with O by (unfold len; lia). reflexivity.
  - rewrite seq_S, map_app, concat_app, IH. cbn [map List.concat Nat.add]. rewrite app_nil_r.
    destruct (Z.le_gt_cases (Z.of_nat m * B) (len l)) as [Hle | Hgt].
    + rewrite (Z.min_l (Z.of_nat m * B)) by lia.
      rewrite firstn_slice by lia. f_equal. f_equal. lia.
    + rewrite (Z.min_r (Z.of_nat m * B)) by lia.
      rewrite (Z.min_r (Z.of_nat (S m) * B)) by lia.
      unfold slice. rewrite skipn_all2; [apply app_nil_r |].
      rewrite length_firstn. unfold len in *. lia.
Qed.

Lemma ceil_div_covers n b : 0 < b -> 0 <= n -> n <= ceil_div n b * b /\ 0 <= ceil_div n b.
Proof.
  intros Hb Hn. unfold ceil_div.
  pose proof (Z.div_mod (n + b - 1) b ltac:(lia)).
  pose proof (Z.mod_pos_bound (n + b - 1) b Hb).
  split; [lia | apply Z.div_pos; lia].
Qed.

Lemma ceil_div_spec n b : 0 < b -> 0 <= n ->
  (ceil_div n b - 1) * b < n <= ceil_div n b * b.
Proof.
  intros Hb Hn. unfold ceil_div.
  pose proof (Z.div_mod (n + b - 1) b ltac:(lia)).
  pose proof (Z.mod_pos_bound (n + b - 1) b Hb). lia.
Qed.

Lemma zseq_split a b c : a <= b <= c -> zseq a b ++ zseq b c = zseq a c.
Proof.
  intros H. unfold zseq.
  replace (Z.to_nat (c - a)) with (Z.to_nat (b - a) + Z.to_nat (c - b))%nat by lia.
  rewrite seq_app, map_app. f_equal. cbn [Nat.add].
  rewrite <- (map_id (seq 0 (Z.to_nat (c - b)))) at 1.
  replace (seq (Z.to_nat (b - a)) (Z.to_nat (c - b)))
    with (map (fun i => (Z.to_nat (b - a) + i)%nat) (seq 0 (Z.to_nat (c - b)))).
  - rewrite !map_map. apply map_ext. intros i. lia.
  - generalize (Z.to_nat (c - b)) as n. generalize (Z.to_nat (b - a)) as s.
    intros s n. revert s. induction n as [| n IH]; intros s; [reflexivity |].
    rewrite seq_S, map_app, IH, seq_S. cbn [map Nat.add]. reflexivity.
Qed.

Lemma concat_ranges (B N : Z) : 0 < B -> 0 <= N ->
  forall m : nat,
  flat_map (fun i => zseq (Z.of_nat i * B) (Z.min (Z.of_nat i * B + B) N)) (seq 0 m)
  = zseq 0 (Z.min (Z.of_nat m * B) N).
Proof.
  intros HB HN. induction m as [| m IH].
  - cbn [seq flat_map]. unfold zseq. replace (Z.to_nat _) with O by lia. reflexivity.
  - rewrite seq_S, flat_map_app, IH. cbn [flat_map Nat.add]. rewrite app_nil_r.
    destruct (Z.le_gt_cases (Z.of_nat m * B) N) as [Hle | Hgt].
    + rewrite (Z.min_l (Z.of_nat m * B)) by lia.
      rewrite zseq_split by lia. f_equal. lia.
    + rewrite (Z.min_r (Z.of_nat m * B)) by lia.
      rewrite (Z.min_r (Z.of_nat (S m) * B)) by lia.
      rewrite (Z.min_r (Z.of_nat m * B + B)) by lia.
      unfold zseq at 2. replace (Z.to_nat (N - Z.of_nat m * B)) with O by lia.
      apply app_nil_r.
Qed.

Lemma batches_eq (lat lon : list fvalue) (date : list string) (B : Z) (prefix : string) :
  0 < B ->
  batches lat lon date B prefix =
  Ret (map (fun i => make_batch lat lon date (len lat) B prefix (Z.of_nat i * B))
           (seq 0 (Z.to_nat (ceil_div (len lat) B)))).
Proof.
  intros HB. unfold batches.
  rewrite range_positive_step by (unfold len; lia).
  cbn [rbind]. rewrite map_map. reflexivity.
Qed.

Lemma batches_cover (lat lon : list fvalue) (date : list string) (B : Z) (prefix : string) :
  0 < B ->
  exists bs,
    batches lat lon date B prefix = Ret bs /\
    len bs = ceil_div (len lat) B /\
    (len bs - 1) * B < len lat <= len bs * B /\
    (forall k : nat, (k < List.length bs)%nat ->
       exists b, nth_error bs k = Some b /\
         b_start b = Z.of_nat k * B /\
         b_end b = Z.min ((Z.of_nat k + 1) * B) (len lat) /\
         b_lat b = slice lat (b_start b) (b_end b) /\
         b_lon b = slice lon (b_start b) (b_end b) /\
         b_date b = slice date (b_start b) (b_end b) /\
         b_number b = Z.of_nat k + 1 /\
         b_filename b = prefix +++ "_batch_" +++ format_0d 3 (Z.of_nat k + 1) +++ ".nc") /\
    flat_map (fun b => zseq (b_start b) (b_end b)) bs = zseq 0 (len lat) /\
    List.concat (map b_lat bs) = lat.
Proof.
  intros HB. eexists. split; [apply batches_eq; exact HB |].
  assert (HN : 0 <= len lat) by (unfold len; lia).
  destruct (ceil_div_covers (len lat) B HB HN) as [Hcov Hc0].
  assert (Hlen : len (map (fun i => make_batch lat lon date (len lat) B prefix (Z.of_nat i * B))
                          (seq 0 (Z.to_nat (ceil_div (len lat) B))))
                 = ceil_div (len lat) B).
  { unfold len at 1. rewrite length_map, length_seq. lia. }
  split; [exact Hlen |].
  split; [rewrite Hlen; apply ceil_div_spec; assumption |].
  split; [| split].
  - intros k Hk. rewrite length_map, length_seq in Hk.
    eexists. split.
    + rewrite nth_error_map, nth_error_seq.
      destruct (Nat.ltb_spec k (Z.to_nat (ceil_div (len lat) B))); [| lia].
      cbn [option_map Nat.add]. reflexivity.
    + unfold make_batch. cbn [b_start b_end b_lat b_lon b_date b_number b_filename].
      rewrite Z.div_mul by lia.
      replace (Z.of_nat k * B + B) with ((Z.of_nat k + 1) * B) by lia.
      repeat split; reflexivity.
  - rewrite flat_map_concat_map, map_map, <- flat_map_concat_map.
    unfold make_batch. cbn [b_start b_end].
    rewrite concat_ranges by assumption.
    rewrite Z2Nat.id by assumption. rewrite Z.min_r by lia. reflexivity.
  - rewrite map_map. unfold make_batch. cbn [b_lat].
    rewrite concat_slices by assumption.
    rewrite Z2Nat.id by assumption. rewrite Z.min_r by lia.
    unfold len. rewrite Nat2Z.id. apply firstn_all.
Qed.

Lemma batches_returns lat lon date B prefix :
  B <> 0 -> exists bs, batches lat lon date B prefix = Ret bs.
Proof.
  intros HB. unfold batches, range.
  destruct (Z.eqb_spec B 0); [contradiction |].
  destruct (0 <? B); eexists; reflexivity.
Qed.


Lemma append_nonempty s c r : (s +++ String c r) <> EmptyString.
Proof. destruct s; discriminate. Qed.

Lemma batch_filename_truthy lat lon date total B prefix start :
  truthy (Some (b_filename (make_batch lat lon date total B prefix start))) = true.
Proof.
  unfold make_batch. cbn [b_filename truthy].
  destruct (String.eqb_spec (prefix +++ "_batch_" +++ format_0d 3 (start / B + 1) +++ ".nc")
                            EmptyString) as [E | _]; [| reflexivity].
  exfalso. exact (append_nonempty prefix _ _ E).
Qed.

Lemma batches_made lat lon date B prefix bs :
  batches lat lon date B prefix = Ret bs ->
  Forall (fun b => truthy (Some (b_filename b)) = true) bs.
Proof.
  unfold batches. destruct (range 0 (len lat) B) as [starts | e]; [| discriminate].
  cbn [rbind]. intros [= <-]. apply Forall_forall. intros b Hb.
  apply in_map_iff in Hb. destruct Hb as (start & <- & _). apply batch_filename_truthy.
Qed.

(** ** The orchestrator *)

(** The orchestrator, for inputs that convert to lists and a batch size
    [str] renders, is the loop over the batches followed by the code
    after the loop. *)
Lemma get_predictions_batch_eq w lat0 lon0 date0 B prefix api_url merge_output t
      lat lon date bs :
  preprocess_inputs (w_platform w) lat0 lon0 date0 = Ret (FList lat, FList lon, date) ->
  Z.abs B < 10 ^ INT_MAX_STR_DIGITS ->
  batches lat lon date B prefix = Ret bs ->
  get_predictions_batch w lat0 lon0 date0 B prefix api_url merge_output t =
  match for_each (process_batch w api_url (len lat)) bs []
                 (t ++ [EvPrint ("Processing " +++ str_of_Z (len lat)
                                 +++ " points in batches of " +++ str_of_Z B)]) with
  | (Ret (Returned files), tl) =>
      returning (finish w merge_output prefix files)
                (tl ++ [EvPrint ("Completed " +++ str_of_Z (len files) +++ " out of "
                                 +++ str_of_Z ((len lat + B - 1) / B) +++ " batches")])
  | (Ret Blocked, tl) => (Ret Blocked, tl)
  | (Raise e, tl) => (Raise e, tl)
  end.
Proof.
  intros Hpre HB Hbs. unfold get_predictions_batch.
  unfold bind at 1, lift at 1. rewrite Hpre.
  unfold bind at 1, lift at 1. rewrite (str_int_small B HB).
  unfold bind at 1. unfold print at 1, emit at 1.
  unfold bind at 1, lift at 1. cbn [batches_of]. rewrite Hbs.
  unfold bind at 1.
  destruct (for_each _ bs [] _) as [[[files |] | e] tl]; reflexivity.
Qed.


(** C2.  A run from a thread that runs an event loop, as a notebook cell
    does.  Three points and a batch size of two make two batches, yet the
    run submits none: it announces the first batch, [get_predictions]
    hands the request to the loop of its own thread and waits for the
    result, and the call does not return. *)
Theorem batch_run_in_running_loop :
  batches [FFin 10; FFin 20; FFin 30] [FFin 1; FFin 2; FFin 3]
          ["2023-04-25"; "2023-04-26"; "2023-04-27"] 2 "output"
  = Ret [make_batch [FFin 10; FFin 20; FFin 30] [FFin 1; FFin 2; FFin 3]
                    ["2023-04-25"; "2023-04-26"; "2023-04-27"] 3 2 "output" 0;
         make_batch [FFin 10; FFin 20; FFin 30] [FFin 1; FFin 2; FFin 3]
                    ["2023-04-25"; "2023-04-26"; "2023-04-27"] 3 2 "output" 2]
  /\ get_predictions_batch notebook_world
       (CoordFloat [FFin 10; FFin 20; FFin 30]) (CoordFloat [FFin 1; FFin 2; FFin 3])
       (DatesInt [739000; 739001; 739002]) 2 "output" None true []
     = (Ret Blocked,
        [EvPrint "Processing 3 points in batches of 2";
         EvPrint "Processing batch 1 (1-2 of 3)";
         EvPrint "Fetching predictions for 2 points..."])
  /\ posts (snd (get_predictions_batch notebook_world
                   (CoordFloat [FFin 10; FFin 20; FFin 30])
                   (CoordFloat [FFin 1; FFin 2; FFin 3])
                   (DatesInt [739000; 739001; 739002]) 2 "output" None true []))
     = [].
Proof. repeat split; vm_compute; reflexivity. Qed.

(** C3, as amended.  Take a run from a thread without an event loop,
    with inputs that convert to lists and a batch size other than zero
    that [str] renders.  The run sends every batch, one request each and
    in order, and the batches that succeed are those served (answered
    with 200 and a NetCDF content type, and written) at the moment of
    their request.  The run then returns what the code after the loop
    makes of the names of these batches, in order: with merging requested
    and at least two of them the merge step is run on them, its output
    path is returned when it succeeds and the list of batch files when it
    fails; a single served batch gives its file name as it is, whatever
    the merge setting; no served batch gives the empty list; without
    merging, two or more files are returned as a list. *)
Theorem batch_orchestrator_result (w : world) (lat0 lon0 : coord_array)
  (date0 : date_array) (B : Z) (prefix : string) (api_url : option string)
  (merge_output : bool) (t : trace) (lat lon : list fvalue) (date : list string) :
  w_running_loop w = false ->
  preprocess_inputs (w_platform w) lat0 lon0 date0 = Ret (FList lat, FList lon, date) ->
  B <> 0 -> Z.abs B < 10 ^ INT_MAX_STR_DIGITS ->
  exists bs ts tl,
    batches lat lon date B prefix = Ret bs /\
    moments t (map (batch_request api_url) bs) ts tl /\
    posts tl = posts t ++ map (batch_request api_url) bs /\
    let files := successful_files w api_url bs ts in
    let out := get_predictions_batch w lat0 lon0 date0 B prefix api_url merge_output t in
    out = returning (finish w merge_output prefix files) tl /\
    (merge_output = true -> (2 <= List.length files)%nat ->
     exists r t2,
       merge_netcdf_files w files (final_output prefix)
         (tl ++ [EvPrint ("Auto-merging " +++ str_of_Z (len files)
                          +++ " batch files into " +++ final_output prefix)])
       = (Ret r, t2) /\
       (r = Some (final_output prefix) ->
        fst out = Ret (Returned (OutFile (final_output prefix)))) /\
       (r = None -> fst out = Ret (Returned (OutFiles files)))) /\
    (forall f, files = [f] -> fst out = Ret (Returned (OutFile f))) /\
    (files = [] -> fst out = Ret (Returned (OutFiles []))) /\
    (merge_output = false -> (2 <= List.length files)%nat ->
     fst out = Ret (Returned (OutFiles files))).
Proof.
  intros Hsync Hpre HB0 HB.
  destruct (batches_returns lat lon date B prefix HB0) as (bs & Hbs).
  rewrite (get_predictions_batch_eq w lat0 lon0 date0 B prefix api_url merge_output t
             lat lon date bs Hpre HB Hbs).
  destruct (for_each_moments w api_url (len lat) bs Hsync
              (batches_made _ _ _ _ _ _ Hbs) []
              (t ++ [EvPrint ("Processing " +++ str_of_Z (len lat)
                              +++ " points in batches of " +++ str_of_Z B)]))
    as (ts & tl & E & Hm & _).
  rewrite E. cbn [app].
  apply (moments_earlier _ t) in Hm; [| reflexivity].
  apply (moments_later _ _ _ _
           [EvPrint ("Completed " +++ str_of_Z (len (successful_files w api_url bs ts))
                     +++ " out of " +++ str_of_Z ((len lat + B - 1) / B) +++ " batches")])
    in Hm; [| reflexivity].
  exists bs, ts. eexists. split; [exact Hbs |]. split; [exact Hm |].
  split; [exact (proj1 (moments_posts _ _ _ _ Hm)) |].
  cbv zeta. split; [reflexivity |].
  unfold returning, bind.
  match goal with |- context [finish w merge_output prefix ?fs ?t0] =>
    destruct (finish_cases w merge_output prefix fs t0) as (C1 & C2 & C3 & C4)
  end.
  split; [| split; [| split]].
  - intros Hm' Hl. destruct (C1 Hm' Hl) as (r & t2 & Em & Hs & Hn).
    exists r, t2. split; [exact Em |].
    split; intros Hr.
    + specialize (Hs Hr). destruct (finish _ _ _ _ _) as [[x | e] t3]; cbn [fst] in *;
        [injection Hs as ->; reflexivity | discriminate].
    + specialize (Hn Hr). destruct (finish _ _ _ _ _) as [[x | e] t3]; cbn [fst] in *;
        [injection Hn as ->; reflexivity | discriminate].
  - intros f Hf. rewrite (C2 f Hf). reflexivity.
  - intros Hf. rewrite (C3 Hf). reflexivity.
  - intros Hm' Hl. rewrite (C4 Hm' Hl). reflexivity.
Qed.

Lemma batch_orchestrator_result_witness :
  w_running_loop calm_world = false /\
  2 <> 0 /\
  (exists bs ts tl,
     batches [FFin 10; FFin 20; FFin 30] [FFin 1; FFin 2; FFin 3]
             ["2023-04-25"; "2023-04-26"; "2023-04-27"] 2 "output" = Ret bs /\
     moments [] (map (batch_request None) bs) ts tl /\
     get_predictions_batch calm_world (CoordInt [10; 20; 30]) (CoordInt [1; 2; 3])
       (DatesInt [739000; 739001; 739002]) 2 "output" None false []
     = returning (finish calm_world false "output" (successful_files calm_world None bs ts))
                 tl) /\
  fst (get_predictions_batch calm_world (CoordInt [10; 20; 30]) (CoordInt [1; 2; 3])
         (DatesInt [739000; 739001; 739002]) 2 "output" None false [])
  = Ret (Returned (OutFiles ["output_batch_001.nc"; "output_batch_002.nc"])).
Proof.
  split; [reflexivity |]. split; [discriminate |].
  split; [| vm_compute; reflexivity].
  destruct (batch_orchestrator_result calm_world (CoordInt [10; 20; 30]) (CoordInt [1; 2; 3])
              (DatesInt [739000; 739001; 739002]) 2 "output" None false []
              [FFin 10; FFin 20; FFin 30] [FFin 1; FFin 2; FFin 3]
              ["2023-04-25"; "2023-04-26"; "2023-04-27"])
    as (bs & ts & tl & Hbs & Hm & _ & Hout & _);
    [reflexivity | vm_compute; reflexivity | discriminate | vm_compute; reflexivity |].
  exists bs, ts, tl. repeat split; assumption.
Defined.

(** C3 as stated fails for a batch size of zero: no batch is sent, let
    alone served, and the run raises instead of returning the empty
    list. *)
Lemma batch_run_of_size_zero_raises :
  posts (snd (get_predictions_batch calm_world (CoordInt [10; 20; 30]) (CoordInt [1; 2; 3])
                (DatesInt [739000; 739001; 739002]) 0 "output" None true []))
  = [] /\
  fst (get_predictions_batch calm_world (CoordInt [10; 20; 30]) (CoordInt [1; 2; 3])
         (DatesInt [739000; 739001; 739002]) 0 "output" None true [])
  = Raise (Exn ValueError "range() arg 3 must not be zero") /\
  fst (get_predictions_batch calm_world (CoordInt [10; 20; 30]) (CoordInt [1; 2; 3])
         (DatesInt [739000; 739001; 739002]) 0 "output" None true [])
  <> Ret (Returned (OutFiles [])).
Proof.
  split; [vm_compute; reflexivity |].
  split; [vm_compute; reflexivity | vm_compute; discriminate].
Qed.

Example batch_run_merges :
  fst (get_predictions_batch calm_world (CoordInt [10; 20; 30]) (CoordInt [1; 2; 3])
         (DatesInt [739000; 739001; 739002]) 2 "output" None true [])
  = Ret (Returned (OutFile "output.nc"))
  /\ fst (get_predictions_batch calm_world (CoordInt [10; 20; 30]) (CoordInt [1; 2; 3])
            (DatesInt [739000; 739001; 739002]) 2 "output" None false [])
     = Ret (Returned (OutFiles ["output_batch_001.nc"; "output_batch_002.nc"])).
Proof. split; vm_compute; reflexivity. Qed.

End ProfileFacts.

Import ProfileFacts.

(* ================================================================== *)
(** * [grid.py]: validation, naming, transport *)
(* ================================================================== *)

Module GridFacts.

Lemma ensure_dir_eq w t : dir_ready w t ->
  ensure_grid_output_dir w t = (Ret tt, after_dir w t).
Proof.
  unfold dir_ready, ensure_grid_output_dir, after_dir.
  destruct (w_path_exists w t GRID_OUTPUT_DIR); [reflexivity |].
  intros [H | H]; [discriminate |]. run_io. rewrite H. reflexivity.
Qed.

Lemma after_dir_posts w t : posts (after_dir w t) = posts t.
Proof.
  unfold after_dir. destruct (w_path_exists w t GRID_OUTPUT_DIR); [reflexivity |].
  rewrite !posts_app. cbn. rewrite !app_nil_r. reflexivity.
Qed.

Lemma floats_of_length items vs : floats_of items = Ret vs -> List.length vs = List.length items.
Proof.
  revert vs. induction items as [| x items IH]; intros vs H.
  - injection H as <-. reflexivity.
  - cbn [floats_of] in H. destruct (float_of_val x); [| discriminate]. cbn [rbind] in H.
    destruct (floats_of items) as [vs' |]; [| discriminate]. cbn [rbind] in H.
    injection H as <-. cbn. f_equal. apply IH. reflexivity.
Qed.

Lemma floats_of_raise items :
  (exists e, floats_of items = Raise e) <->
  (exists x, In x items /\ exists e, float_of_val x = Raise e).
Proof.
  induction items as [| x items IH].
  - split; [intros [e H]; discriminate | intros (x & [] & _)].
  - cbn [floats_of]. destruct (float_of_val x) as [v | e] eqn:Hx; cbn [rbind].
    + destruct (floats_of items) as [vs | e] eqn:Hvs; cbn [rbind].
      * split; [intros [e H]; discriminate |].
        intros (y & [<- | Hy] & e & He); [congruence |].
        destruct (proj2 IH (ex_intro _ y (conj Hy (ex_intro _ e He)))) as [e' H']. discriminate.
      * split; [| intros _; eexists; reflexivity].
        intros _. destruct (proj1 IH (ex_intro _ e eq_refl)) as (y & Hy & He).
        exists y. split; [right; exact Hy | exact He].
    + split; [| intros _; eexists; reflexivity].
      intros _. exists x. split; [left; reflexivity | eexists; exact Hx].
Qed.

Lemma check_bbox_range_eq lon_min lat_min lon_max lat_max :
  (fle (FFin (-180)) lon_min && fle lon_min (FFin 180)
   && fle (FFin (-180)) lon_max && fle lon_max (FFin 180)
   && fle (FFin (-90)) lat_min && fle lat_min (FFin 90)
   && fle (FFin (-90)) lat_max && fle lat_max (FFin 90))
  = bbox_in_range lon_min lat_min lon_max lat_max.
Proof. unfold bbox_in_range, in_range. rewrite !andb_assoc. reflexivity. Qed.

(** What [check_bbox] answers, rule by rule. *)
Lemma check_bbox_cases bbox rd :
  (forall b, bbox = Some b -> (forall x0 x1 x2 x3, b <> BList [x0; x1; x2; x3]) ->
     check_bbox bbox rd = Rejected E_shape) /\
  (forall items, bbox = Some (BList items) -> List.length items = 4%nat ->
     (exists x, In x items /\ exists e, float_of_val x = Raise e) ->
     check_bbox bbox rd = Rejected E_numeric) /\
  (forall items lon_min lat_min lon_max lat_max, bbox = Some (BList items) ->
     floats_of items = Ret [lon_min; lat_min; lon_max; lat_max] ->
     (bbox_in_range lon_min lat_min lon_max lat_max = false ->
      check_bbox bbox rd = Rejected E_range) /\
     (bbox_in_range lon_min lat_min lon_max lat_max = true ->
      bbox_ordered lon_min lat_min lon_max lat_max = false ->
      check_bbox bbox rd = Rejected E_order) /\
     (bbox_in_range lon_min lat_min lon_max lat_max = true ->
      bbox_ordered lon_min lat_min lon_max lat_max = true ->
      check_bbox bbox rd =
      Accepted (rd ++ [("bbox", JList [JNum lon_min; JNum lat_min;
                                       JNum lon_max; JNum lat_max])]))).
Proof.
  split; [| split].
  - intros b -> Hb. destruct b as [items | txt truth]; [| reflexivity].
    cbn [check_bbox].
    destruct (Z.eqb_spec (len items) 4) as [Hl | Hl]; [| reflexivity].
    exfalso. unfold len in Hl.
    destruct items as [| x0 [| x1 [| x2 [| x3 [| x4 rest]]]]]; cbn in Hl; try lia.
    apply (Hb x0 x1 x2 x3). reflexivity.
  - intros items -> Hl Hx. cbn [check_bbox].
    destruct (Z.eqb_spec (len items) 4) as [_ | Hl']; [| unfold len in Hl'; lia].
    cbn [negb]. apply floats_of_raise in Hx. destruct Hx as [e ->]. reflexivity.
  - intros items lon_min lat_min lon_max lat_max -> Hf.
    pose proof (floats_of_length _ _ Hf) as Hl. cbn in Hl.
    cbn [check_bbox].
    destruct (Z.eqb_spec (len items) 4) as [_ | Hl']; [| unfold len in Hl'; lia].
    cbn [negb]. rewrite Hf, check_bbox_range_eq.
    fold (bbox_ordered lon_min lat_min lon_max lat_max).
    split; [| split].
    + intros ->. reflexivity.
    + intros -> ->. reflexivity.
    + intros -> ->. reflexivity.
Qed.

Lemma check_resolution_cases resolution rd :
  (resolution = None -> check_resolution resolution rd = Accepted rd) /\
  (forall r, resolution = Some r -> (exists e, float_of_val r = Raise e) ->
     check_resolution resolution rd = Rejected E_res_numeric) /\
  (forall r res, resolution = Some r -> float_of_val r = Ret res ->
     (flt (FFin 0) res = false -> check_resolution resolution rd = Rejected E_res_positive) /\
     (flt (FFin 0) res = true ->
      check_resolution resolution rd = Accepted (rd ++ [("resolution", JNum res)]))).
Proof.
  split; [intros ->; reflexivity |]. split.
  - intros r -> [e He]. cbn [check_resolution]. rewrite He. reflexivity.
  - intros r res -> Hr. cbn [check_resolution]. rewrite Hr.
    split; intros ->; reflexivity.
Qed.

(** A value [float] converts formats as that float when it is a number,
    and not at all when it is a string. *)
Lemma format_val_cases n x v :
  float_of_val x = Ret v ->
  (is_number x = true /\ format_val n x = Ret (format_fixed n v)) \/
  (is_number x = false /\
   format_val n x = Raise (Exn ValueError "Unknown format code 'f' for object of type 'str'")).
Proof.
  destruct x as [num | s r parsed | s r]; cbn [float_of_val format_val is_number].
  - intros H. left. split; [reflexivity |]. unfold format_f. rewrite H. reflexivity.
  - intros _. right. split; reflexivity.
  - discriminate.
Qed.

(** A value [float] converts has its texts. *)
Lemma float_of_val_texts x v :
  float_of_val x = Ret v ->
  (exists s, repr_val x = Ret s) /\ (exists s, str_val x = Ret s).
Proof.
  destruct x as [num | s r parsed | s r]; cbn [float_of_val repr_val str_val].
  - intros H. destruct (float_of_num_str num v H) as (s & Hs). rewrite Hs. eauto.
  - intros _. eauto.
  - discriminate.
Qed.

Lemma floats_of_items items vs :
  floats_of items = Ret vs -> forall x, In x items -> exists v, float_of_val x = Ret v.
Proof.
  revert vs. induction items as [| y items IH]; intros vs H x Hx; [destruct Hx |].
  cbn [floats_of] in H. destruct (float_of_val y) as [v |] eqn:Hy; [| discriminate].
  cbn [rbind] in H. destruct (floats_of items) as [vs' |]; [| discriminate].
  destruct Hx as [<- | Hx]; [eauto | exact (IH vs' eq_refl x Hx)].
Qed.

Lemma str_bbox_accepted bbox be :
  bbox_accepted bbox be ->
  match bbox with
  | Some b => exists s, str_bbox b = Ret s
  | None => True
  end.
Proof.
  intros [[-> _] | (items & a & b & c & d & -> & Hf & _)]; [exact I |].
  cbn [str_bbox].
  destruct (map_result_ret repr_val items) as (texts & ->);
    [| eexists; reflexivity].
  intros x Hx. destruct (floats_of_items _ _ Hf x Hx) as (v & Hv).
  exact (proj1 (float_of_val_texts x v Hv)).
Qed.

(** A query that passes the checks can be announced. *)
Lemma query_line_accepted date_str bbox resolution be re :
  bbox_accepted bbox be -> resolution_accepted resolution re ->
  exists line, query_line date_str bbox resolution = Ret line.
Proof.
  intros Hb Hr. pose proof (str_bbox_accepted bbox be Hb) as Sb.
  assert (Sr : match resolution with
               | Some r => exists s, str_val r = Ret s
               | None => True
               end).
  { destruct Hr as [[-> _] | (r & x & -> & Hx & _)]; [exact I |].
    exact (proj2 (float_of_val_texts r x Hx)). }
  unfold query_line.
  destruct bbox as [b |], resolution as [r |].
  - destruct Sb as (sb & ->), Sr as (sr & ->). eexists. reflexivity.
  - destruct Sb as (sb & ->). eexists. reflexivity.
  - destruct Sr as (sr & ->). eexists. reflexivity.
  - eexists. reflexivity.
Qed.

Lemma floats_of_four x0 x1 x2 x3 vs :
  floats_of [x0; x1; x2; x3] = Ret vs ->
  exists v0 v1 v2 v3, vs = [v0; v1; v2; v3] /\ float_of_val x0 = Ret v0 /\
    float_of_val x1 = Ret v1 /\ float_of_val x2 = Ret v2 /\ float_of_val x3 = Ret v3.
Proof.
  cbn [floats_of].
  destruct (float_of_val x0) as [v0 |]; [| discriminate].
  destruct (float_of_val x1) as [v1 |]; [| discriminate].
  destruct (float_of_val x2) as [v2 |]; [| discriminate].
  destruct (float_of_val x3) as [v3 |]; [| discriminate].
  cbn [rbind]. intros [= <-]. exists v0, v1, v2, v3. repeat split; reflexivity.
Qed.

(** The name of the output file for a bbox and a resolution that pass
    the checks: the name of the claim when the bounds are numbers; no
    name at all when a bound is a string, for which [.2f] raises. *)
Lemma output_name_accepted date_str bbox resolution be re :
  bbox_accepted bbox be -> resolution_accepted resolution re ->
  exists vs res,
    (match bbox with
     | None => vs = []
     | Some b => exists items, b = BList items /\ floats_of items = Ret vs
     end) /\
    (match resolution with
     | None => res = None
     | Some r => exists v, float_of_val r = Ret v /\ res = Some v
     end) /\
    if bbox_numbers bbox then
      output_name date_str bbox resolution =
      Ret ("nespreso_grid_" +++ date_str +++ bbox_part vs +++ resolution_part res +++ ".nc")
    else
      output_name date_str bbox resolution =
      Raise (Exn ValueError "Unknown format code 'f' for object of type 'str'").
Proof.
  intros Hb Hr. unfold output_name.
  assert (Hres : exists res,
             (match resolution with
              | None => res = None
              | Some r => exists v, float_of_val r = Ret v /\ res = Some v
              end) /\
             forall parts,
               match resolution with
               | Some r => rbind (float_of_val r)
                                 (fun x => Ret (parts ++ ["_res_" +++ format_fixed 3 x]))
               | None => Ret parts
               end = Ret (parts ++ match res with
                                   | Some v => ["_res_" +++ format_fixed 3 v]
                                   | None => []
                                   end)).
  { destruct Hr as [[-> _] | (r & v & -> & Hv & _)].
    - exists None. split; [reflexivity |]. intros parts. rewrite app_nil_r. reflexivity.
    - exists (Some v). split; [exists v; split; [exact Hv | reflexivity] |].
      intros parts. rewrite Hv. reflexivity. }
  destruct Hres as (res & Hres1 & Hres2).
  destruct Hb as [[-> _] | (items & v0 & v1 & v2 & v3 & -> & Hf & _)].
  - exists [], res. split; [reflexivity |]. split; [exact Hres1 |].
    cbn [rbind bbox_numbers]. rewrite Hres2. cbn [rbind bbox_part].
    destruct res; cbn [join app resolution_part];
      repeat (progress (rewrite ?append_assoc; cbn [String.append])); reflexivity.
  - exists [v0; v1; v2; v3], res.
    split; [exists items; split; [reflexivity | exact Hf] |]. split; [exact Hres1 |].
    pose proof (floats_of_length _ _ Hf) as Hl.
    destruct items as [| x0 [| x1 [| x2 [| x3 [| x4 rest]]]]]; try discriminate.
    destruct (floats_of_four _ _ _ _ _ Hf)
      as (u0 & u1 & u2 & u3 & [= <- <- <- <-] & F0 & F1 & F2 & F3).
    cbn [nth_val nth bbox_numbers forallb].
    destruct (format_val_cases 2 _ _ F0) as [[-> ->] | [-> ->]]; [| reflexivity].
    destruct (format_val_cases 2 _ _ F1) as [[-> ->] | [-> ->]]; [| reflexivity].
    destruct (format_val_cases 2 _ _ F2) as [[-> ->] | [-> ->]]; [| reflexivity].
    destruct (format_val_cases 2 _ _ F3) as [[-> ->] | [-> ->]]; [| reflexivity].
    cbn [rbind andb]. rewrite Hres2. cbn [rbind bbox_part].
    destruct res; cbn [join app resolution_part];
      repeat (progress (rewrite ?append_assoc; cbn [String.append])); reflexivity.
Qed.

Lemma ensure_dir_effects w t :
  exists r t1, ensure_grid_output_dir w t = (r, t1)
               /\ writes t1 = writes t /\ posts t1 = posts t.
Proof.
  unfold ensure_grid_output_dir.
  destruct (w_path_exists w t GRID_OUTPUT_DIR).
  - do 2 eexists. split; [reflexivity |]. split; reflexivity.
  - run_io. destruct (w_makedirs w t GRID_OUTPUT_DIR).
    + do 2 eexists. split; [reflexivity |].
      rewrite writes_snoc_print, posts_snoc_print, writes_app, posts_app.
      split; apply app_nil_r.
    + do 2 eexists. split; [reflexivity |]. rewrite writes_app, posts_app.
      split; apply app_nil_r.
Qed.

Lemma writes_after_dir w t : writes (after_dir w t) = writes t.
Proof.
  unfold after_dir. destruct (w_path_exists w t GRID_OUTPUT_DIR); [reflexivity |].
  rewrite writes_snoc_print, writes_app. apply app_nil_r.
Qed.

Lemma check_bbox_accepted bbox be rd :
  bbox_accepted bbox be -> check_bbox bbox rd = Accepted (rd ++ be).
Proof.
  intros [[-> ->] | (items & a & b & c & d & -> & Hf & Hr & Ho & ->)].
  - cbn [check_bbox]. rewrite app_nil_r. reflexivity.
  - destruct (check_bbox_cases (Some (BList items)) rd) as (_ & _ & H).
    destruct (H items a b c d eq_refl Hf) as (_ & _ & Hacc). exact (Hacc Hr Ho).
Qed.

Lemma check_resolution_accepted resolution re rd :
  resolution_accepted resolution re -> check_resolution resolution rd = Accepted (rd ++ re).
Proof.
  intros [[-> ->] | (r & x & -> & Hx & Hp & ->)].
  - cbn [check_resolution]. rewrite app_nil_r. reflexivity.
  - destruct (check_resolution_cases (Some r) rd) as (_ & _ & H).
    destruct (H r x eq_refl Hx) as (_ & Hacc). exact (Hacc Hp).
Qed.

(** What the checks let through is what [bbox_accepted] and
    [resolution_accepted] describe. *)
Lemma check_bbox_accepts bbox rd rd1 :
  check_bbox bbox rd = Accepted rd1 -> exists be, bbox_accepted bbox be /\ rd1 = rd ++ be.
Proof.
  intros Hb.
  destruct bbox as [[items | txt truth] |]; cbn [check_bbox] in Hb; [| discriminate |].
  - destruct (negb (len items =? 4)); [discriminate |].
    destruct (floats_of items) as [[| a [| b [| c [| d' [| ? ?]]]]] | e] eqn:Hf;
      try discriminate.
    rewrite check_bbox_range_eq in Hb. fold (bbox_ordered a b c d') in Hb.
    destruct (bbox_in_range a b c d') eqn:Hrange; [| discriminate].
    destruct (bbox_ordered a b c d') eqn:Hord; [| discriminate].
    cbn [negb] in Hb. injection Hb as <-.
    eexists. split; [| reflexivity]. right. exists items, a, b, c, d'.
    repeat split; eauto.
  - injection Hb as <-. exists []. split; [left; split; reflexivity |].
    symmetry. apply app_nil_r.
Qed.

Lemma check_resolution_accepts resolution rd rd1 :
  check_resolution resolution rd = Accepted rd1 ->
  exists re, resolution_accepted resolution re /\ rd1 = rd ++ re.
Proof.
  intros Hr. destruct resolution as [r |]; cbn [check_resolution] in Hr.
  - destruct (float_of_val r) as [x | e] eqn:Hx; [| discriminate].
    destruct (flt (FFin 0) x) eqn:Hp; [| discriminate].
    cbn [negb] in Hr. injection Hr as <-.
    eexists. split; [| reflexivity]. right. exists r, x. repeat split; eauto.
  - injection Hr as <-. exists []. split; [left; split; reflexivity |].
    symmetry. apply app_nil_r.
Qed.

(** ** The response of a grid query *)

Lemma handle_response_effects w date_str bbox resolution resp t :
  exists r t', handle_response w date_str bbox resolution resp t = (r, t') /\
    posts t' = posts t /\
    if status_code resp =? 200 then
      match output_name date_str bbox resolution with
      | Raise e => r = Raise e /\ writes t' = writes t
      | Ret name =>
          let path := GRID_OUTPUT_DIR +++ "/" +++ name in
          writes t' = writes t ++ [(path, content resp)] /\
          r = match w_write_file w t path (content resp) with
              | Ret _ => Ret (GridSuccess path (Z.of_nat (String.length (content resp)))
                                          (status_code resp))
              | Raise e => Raise e
              end
      end
    else r = Ret (GridFailure (Some (status_code resp)) (text resp))
         /\ writes t' = writes t.
Proof.
  unfold handle_response.
  destruct (status_code resp =? 200).
  - run_io. destruct (output_name date_str bbox resolution) as [name | e].
    + destruct (w_write_file w t _ (content resp)) as [[] | e].
      * do 2 eexists. split; [reflexivity |].
        rewrite !posts_snoc_print, !writes_snoc_print, posts_snoc_write, writes_snoc_write.
        repeat split; reflexivity.
      * do 2 eexists. split; [reflexivity |].
        rewrite posts_snoc_write, writes_snoc_write. repeat split; reflexivity.
    + do 2 eexists. split; [reflexivity |]. repeat split; reflexivity.
  - run_io. destruct (json_repr resp); do 2 eexists;
      (split; [reflexivity |]);
      rewrite !posts_snoc_print, !writes_snoc_print; repeat split; reflexivity.
Qed.

(** A query from its first line to its last: the directory, the checks,
    the announcement, the POST, and what is made of the answer. *)
Lemma query_grid_run w date_str bbox resolution api_url t :
  match ensure_grid_output_dir w t with
  | (Raise e, t1) => query_grid w date_str bbox resolution api_url t = (Raise e, t1)
  | (Ret _, t1) =>
      match strptime_ymd date_str with
      | Raise _ =>
          query_grid w date_str bbox resolution api_url t
          = (Ret (GridFailure None E_date), t1 ++ [EvPrint E_date])
      | Ret _ =>
          match check_bbox bbox [("date", JStr date_str)] with
          | Rejected error =>
              query_grid w date_str bbox resolution api_url t
              = (Ret (GridFailure None error), t1)
          | Accepted rd1 =>
              match check_resolution resolution rd1 with
              | Rejected error =>
                  query_grid w date_str bbox resolution api_url t
                  = (Ret (GridFailure None error), t1)
              | Accepted rd2 =>
                  exists line,
                    query_line date_str bbox resolution = Ret line /\
                    let rq := grid_request api_url rd2 in
                    let tp := (t1 ++ [EvPrint line])
                              ++ [EvPrint ("API endpoint: " +++ api_url)] in
                    exists r t',
                      query_grid w date_str bbox resolution api_url t = (Ret r, t') /\
                      posts t' = posts t1 ++ [rq] /\
                      match w_post w tp rq with
                      | Raise exc =>
                          r = GridFailure None (grid_error exc) /\ writes t' = writes t1
                      | Ret resp =>
                          if status_code resp =? 200 then
                            match output_name date_str bbox resolution with
                            | Raise e =>
                                r = GridFailure None (grid_error e)
                                /\ writes t' = writes t1
                            | Ret name =>
                                let path := GRID_OUTPUT_DIR +++ "/" +++ name in
                                writes t' = writes t1 ++ [(path, content resp)] /\
                                r = match w_write_file w (tp ++ [EvPost rq]) path
                                                       (content resp) with
                                    | Ret _ =>
                                        GridSuccess path
                                          (Z.of_nat (String.length (content resp)))
                                          (status_code resp)
                                    | Raise e => GridFailure None (grid_error e)
                                    end
                            end
                          else r = GridFailure (Some (status_code resp)) (text resp)
                               /\ writes t' = writes t1
                      end
              end
          end
      end
  end.
Proof.
  destruct (ensure_grid_output_dir w t) as [[[] | e] t1] eqn:He.
  2:{ unfold query_grid. unfold bind at 1. rewrite He. reflexivity. }
  destruct (strptime_ymd date_str) as [d | e] eqn:Hd.
  2:{ unfold query_grid. unfold bind at 1. rewrite He, Hd. reflexivity. }
  destruct (check_bbox bbox [("date", JStr date_str)]) as [error | rd1] eqn:Hb.
  { unfold query_grid. unfold bind at 1. rewrite He, Hd, Hb. reflexivity. }
  destruct (check_resolution resolution rd1) as [error | rd2] eqn:Hr.
  { unfold query_grid. unfold bind at 1. rewrite He, Hd, Hb, Hr. reflexivity. }
  destruct (check_bbox_accepts _ _ _ Hb) as (be & Hbe & _).
  destruct (check_resolution_accepts _ _ _ Hr) as (re & Hre & _).
  destruct (query_line_accepted date_str bbox resolution be re Hbe Hre) as (line & Hline).
  exists line. split; [exact Hline |].
  cbv zeta. unfold query_grid. unfold bind at 1. rewrite He, Hd, Hb, Hr.
  unfold bind at 1, lift at 1. rewrite Hline.
  unfold bind at 1. unfold print at 1, emit at 1.
  unfold bind at 1. unfold print at 1, emit at 1.
  unfold bind at 1. unfold try at 1. unfold bind at 1. unfold ask at 1.
  set (tp := (t1 ++ _) ++ _). set (rq := grid_request api_url rd2).
  assert (P2 : posts (tp ++ [EvPost rq]) = posts t1 ++ [rq]).
  { subst tp. rewrite posts_app, !posts_snoc_print. reflexivity. }
  assert (W2 : writes (tp ++ [EvPost rq]) = writes t1).
  { subst tp. rewrite writes_snoc_post, !writes_snoc_print. reflexivity. }
  destruct (w_post w tp rq) as [resp | exc].
  - destruct (handle_response_effects w date_str bbox resolution resp (tp ++ [EvPost rq]))
      as (r & t' & E & P & H).
    rewrite E. rewrite W2 in H.
    destruct (status_code resp =? 200).
    + destruct (output_name date_str bbox resolution) as [name | e].
      * cbv zeta in H. destruct H as [Hw ->].
        destruct (w_write_file w (tp ++ [EvPost rq]) _ (content resp)) as [[] | e].
        -- do 2 eexists. split; [reflexivity |]. split; [rewrite P; exact P2 |].
           split; [exact Hw | reflexivity].
        -- unfold grid_error.
           destruct (exn_kind_of e); run_io; do 2 eexists;
             (split; [reflexivity |]); rewrite posts_snoc_print, writes_snoc_print, P;
             (split; [exact P2 |]); (split; [exact Hw | reflexivity]).
      * destruct H as [-> Hw]. unfold grid_error.
        destruct (exn_kind_of e); run_io; do 2 eexists;
          (split; [reflexivity |]); rewrite posts_snoc_print, writes_snoc_print, P;
          (split; [exact P2 |]); (split; [reflexivity | exact Hw]).
    + destruct H as [-> Hw]. do 2 eexists. split; [reflexivity |].
      split; [rewrite P; exact P2 |]. split; [reflexivity | exact Hw].
  - unfold grid_error.
    destruct (exn_kind_of exc); run_io; do 2 eexists;
      (split; [reflexivity |]); rewrite posts_snoc_print, writes_snoc_print;
      (split; [exact P2 |]); (split; [reflexivity | exact W2]).
Qed.

Lemma query_grid_rejects w date_str bbox resolution api_url t d error :
  dir_ready w t -> strptime_ymd date_str = Ret d ->
  (check_bbox bbox [("date", JStr date_str)] = Rejected error \/
   exists rd, check_bbox bbox [("date", JStr date_str)] = Accepted rd /\
              check_resolution resolution rd = Rejected error) ->
  query_grid w date_str bbox resolution api_url t
  = (Ret (GridFailure None error), after_dir w t).
Proof.
  intros Hdir Hd H.
  pose proof (query_grid_run w date_str bbox resolution api_url t) as R.
  rewrite (ensure_dir_eq w t Hdir), Hd in R.
  destruct H as [H | (rd & H1 & H2)].
  - rewrite H in R. exact R.
  - rewrite H1, H2 in R. exact R.
Qed.

Lemma in_range_finite (lo hi q : Q) :
  in_range lo hi (FFin q) = true <-> (lo <= q)%Q /\ (q <= hi)%Q.
Proof.
  unfold in_range. cbn [fle]. rewrite andb_true_iff, !Qle_bool_iff. reflexivity.
Qed.

Example bbox_samples :
  (exists rd, check_bbox (int_bbox (-100) 10 (-90) 20) [] = Accepted rd)
  /\ check_bbox (int_bbox (-200) 10 (-90) 20) [] = Rejected E_range
  /\ check_bbox (int_bbox (-90) 10 (-100) 20) [] = Rejected E_order.
Proof. split; [eexists; vm_compute; reflexivity | split; vm_compute; reflexivity]. Qed.

(** C5, as amended.  Once the output directory exists or has been
    created, [query_grid] returns a
    failure and posts nothing when the date does not parse; when a bbox is
    given that is no list of four items, has an item that is no number,
    has a bound out of range, or has its bounds out of order; and when a
    resolution is given that is no number or is not above zero.  Each rule
    has its own message, and the seven messages differ from one another. *)
Theorem query_grid_validation (w : world) (date_str : string) (bbox : option bbox_arg)
  (resolution : option pyval) (api_url : string) (t : trace) :
  dir_ready w t ->
  let out := query_grid w date_str bbox resolution api_url t in
  let rejected (msg : string) :=
    fst out = Ret (GridFailure None msg) /\ posts (snd out) = posts t in
  ((exists e, strptime_ymd date_str = Raise e) -> rejected E_date) /\
  ((exists d, strptime_ymd date_str = Ret d) ->
   (forall b, bbox = Some b -> (forall x0 x1 x2 x3, b <> BList [x0; x1; x2; x3]) ->
      rejected E_shape) /\
   (forall items, bbox = Some (BList items) -> List.length items = 4%nat ->
      (exists x, In x items /\ exists e, float_of_val x = Raise e) ->
      rejected E_numeric) /\
   (forall items lon_min lat_min lon_max lat_max, bbox = Some (BList items) ->
      floats_of items = Ret [lon_min; lat_min; lon_max; lat_max] ->
      (bbox_in_range lon_min lat_min lon_max lat_max = false -> rejected E_range) /\
      (bbox_in_range lon_min lat_min lon_max lat_max = true ->
       bbox_ordered lon_min lat_min lon_max lat_max = false -> rejected E_order)) /\
   (forall be r, bbox_accepted bbox be -> resolution = Some r ->
      ((exists e, float_of_val r = Raise e) -> rejected E_res_numeric) /\
      (forall x, float_of_val r = Ret x -> flt (FFin 0) x = false ->
         rejected E_res_positive))) /\
  NoDup [E_date; E_shape; E_numeric; E_range; E_order; E_res_numeric; E_res_positive].
Proof.
  intros Hdir out rejected.
  assert (Hrej : forall d error, strptime_ymd date_str = Ret d ->
            (check_bbox bbox [("date", JStr date_str)] = Rejected error \/
             exists rd, check_bbox bbox [("date", JStr date_str)] = Accepted rd /\
                        check_resolution resolution rd = Rejected error) ->
            rejected error).
  { intros d error Hd H. subst rejected out. cbv beta.
    rewrite (query_grid_rejects w date_str bbox resolution api_url t d error Hdir Hd H).
    split; [reflexivity | apply after_dir_posts]. }
  split; [| split].
  - intros [e He]. subst rejected out. cbv beta.
    pose proof (query_grid_run w date_str bbox resolution api_url t) as R.
    rewrite (ensure_dir_eq w t Hdir), He in R. rewrite R. cbn [fst snd].
    split; [reflexivity |]. rewrite posts_snoc_print. apply after_dir_posts.
  - intros [d Hd].
    destruct (check_bbox_cases bbox [("date", JStr date_str)]) as (B1 & B2 & B3).
    split; [| split; [| split]].
    + intros b Hb Hshape. apply (Hrej d). exact Hd. left. exact (B1 b Hb Hshape).
    + intros items Hb Hl Hx. apply (Hrej d). exact Hd. left. exact (B2 items Hb Hl Hx).
    + intros items a b c e Hb Hf.
      destruct (B3 items a b c e Hb Hf) as (R1 & R2 & _).
      split.
      * intros Hr. apply (Hrej d). exact Hd. left. exact (R1 Hr).
      * intros Hr Ho. apply (Hrej d). exact Hd. left. exact (R2 Hr Ho).
    + intros be r Hacc Hres.
      pose proof (check_bbox_accepted bbox be [("date", JStr date_str)] Hacc) as Hb.
      destruct (check_resolution_cases resolution ([("date", JStr date_str)] ++ be))
        as (_ & C2 & C3).
      split.
      * intros He. apply (Hrej d). exact Hd. right. eexists. split; [exact Hb |].
        exact (C2 r Hres He).
      * intros x Hx Hp. apply (Hrej d). exact Hd. right. eexists. split; [exact Hb |].
        destruct (C3 r x Hres Hx) as [C _]. exact (C Hp).
  - repeat constructor; cbn; intuition discriminate.
Qed.

Lemma query_grid_validation_witness :
  dir_ready calm_world [] /\
  fst (query_grid calm_world "2024-02-30" None None DEFAULT_API_URL [])
  = Ret (GridFailure None E_date) /\
  posts (snd (query_grid calm_world "2024-02-30" None None DEFAULT_API_URL [])) = [].
Proof.
  assert (H : dir_ready calm_world []) by (left; reflexivity).
  split; [exact H |].
  destruct (query_grid_validation calm_world "2024-02-30" None None DEFAULT_API_URL [] H)
    as (Hdate & _).
  apply Hdate. eexists. reflexivity.
Defined.

(** C5 as stated fails when the output directory is missing and cannot
    be created: the query raises before it looks at its arguments, so an
    invalid date gets no failure result. *)
Lemma query_grid_raises_before_validation :
  strptime_ymd "2024-02-30" = Raise (Exn ValueError "day is out of range for month") /\
  fst (query_grid (no_dir_world (Exn OSError "Permission denied")) "2024-02-30" None None
                  DEFAULT_API_URL [])
  = Raise (Exn OSError "Permission denied") /\
  ~ (exists msg,
       fst (query_grid (no_dir_world (Exn OSError "Permission denied")) "2024-02-30" None
                       None DEFAULT_API_URL [])
       = Ret (GridFailure None msg)).
Proof.
  split; [reflexivity |]. split; [reflexivity |].
  intros (msg & H). vm_compute in H. discriminate H.
Qed.

(** C6.  Whenever a grid query reports success, the file it names lies
    in the output directory and is called [nespreso_grid_{date}],
    followed by [_bbox_] and the four bounds with two decimals when a
    bbox is given, by [_res_] and the resolution with three decimals
    when a resolution is given, and by [.nc]; this is the one file the
    query opened for writing, and its size and the status 200 are what
    the result reports. *)
Theorem grid_output_name (w : world) (date_str : string) (bbox : option bbox_arg)
  (resolution : option pyval) (api_url : string) (t t' : trace)
  (filename : string) (size_bytes status : Z) :
  query_grid w date_str bbox resolution api_url t
  = (Ret (GridSuccess filename size_bytes status), t') ->
  exists vs res data,
    (match bbox with
     | None => vs = []
     | Some b => exists items, b = BList items /\ List.length items = 4%nat
                               /\ floats_of items = Ret vs
     end) /\
    (match resolution with
     | None => res = None
     | Some r => exists v, float_of_val r = Ret v /\ res = Some v
     end) /\
    filename = GRID_OUTPUT_DIR +++ "/" +++ "nespreso_grid_" +++ date_str
               +++ bbox_part vs +++ resolution_part res +++ ".nc" /\
    writes t' = writes t ++ [(filename, data)] /\
    size_bytes = Z.of_nat (String.length data) /\ status = 200.
Proof.
  intros Hs.
  pose proof (query_grid_run w date_str bbox resolution api_url t) as R.
  destruct (ensure_dir_effects w t) as (r0 & t1 & He & W1 & _). rewrite He in R.
  destruct r0 as [[] | e]; [| rewrite R in Hs; discriminate].
  destruct (strptime_ymd date_str) as [d | e]; [| rewrite R in Hs; discriminate].
  destruct (check_bbox bbox [("date", JStr date_str)]) as [error | rd1] eqn:Hb;
    [rewrite R in Hs; discriminate |].
  destruct (check_resolution resolution rd1) as [error | rd2] eqn:Hr;
    [rewrite R in Hs; discriminate |].
  destruct R as (line & _ & R). cbv zeta in R. destruct R as (r1 & t2 & E2 & _ & H).
  rewrite E2 in Hs. injection Hs as -> ->.
  destruct (check_bbox_accepts _ _ _ Hb) as (be & Hbe & _).
  destruct (check_resolution_accepts _ _ _ Hr) as (re & Hre & _).
  destruct (output_name_accepted date_str bbox resolution be re Hbe Hre)
    as (vs & res & Hvs & Hres & Hname).
  destruct (w_post w _ _) as [resp | exc]; [| destruct H as [H _]; discriminate].
  destruct (Z.eqb_spec (status_code resp) 200) as [Hst | Hst];
    [| destruct H as [H _]; discriminate].
  destruct (bbox_numbers bbox); rewrite Hname in H;
    [| destruct H as [H _]; discriminate].
  cbv zeta in H. destruct H as [Hw Hres'].
  destruct (w_write_file w _ _ (content resp)); [| discriminate].
  injection Hres' as -> -> ->.
  exists vs, res, (content resp).
  split; [| split; [exact Hres | split; [| split; [| split]]]].
  - destruct bbox as [b |]; [| exact Hvs].
    destruct Hvs as (items & -> & Hf). exists items. split; [reflexivity |].
    split; [| exact Hf].
    destruct Hbe as [[? _] | (items' & c0 & c1 & c2 & c3 & [= <-] & Hf' & _)];
      [discriminate |].
    rewrite <- (floats_of_length _ _ Hf'). reflexivity.
  - reflexivity.
  - rewrite Hw, W1. reflexivity.
  - reflexivity.
  - exact Hst.
Qed.

Lemma grid_output_name_witness :
  exists data,
    writes (snd (query_grid calm_world "2024-03-01" (int_bbox (-97) 18 (-82) 31)
                            (Some (VNum (PyFloat (PyFloatObj (FFin (1 # 4)) "0.25"))))
                            DEFAULT_API_URL []))
    = [("uses/grid/nespreso_grid_2024-03-01_bbox_-97.00_18.00_-82.00_31.00_res_0.250.nc",
        data)].
Proof.
  assert (H : exists t',
             query_grid calm_world "2024-03-01" (int_bbox (-97) 18 (-82) 31)
                        (Some (VNum (PyFloat (PyFloatObj (FFin (1 # 4)) "0.25"))))
                        DEFAULT_API_URL []
             = (Ret (GridSuccess
                       "uses/grid/nespreso_grid_2024-03-01_bbox_-97.00_18.00_-82.00_31.00_res_0.250.nc"
                       3 200), t'))
    by (eexists; vm_compute; reflexivity).
  destruct H as (t' & H).
  destruct (grid_output_name _ _ _ _ _ _ _ _ _ _ H) as (vs & res & data & _ & _ & _ & Hw & _).
  exists data. rewrite H. exact Hw.
Defined.

(** Bounds given as strings pass the checks and are sent as floats;
    the answer is then lost, since no name can be made for the file. *)
Example text_bbox :
  query_grid calm_world "2024-03-01"
    (Some (BList [VStr "-97" "'-97'" (Some (FFin (-97))); VNum (PyInt 18);
                  VNum (PyInt (-82)); VNum (PyInt 31)]))
    None DEFAULT_API_URL []
  = (Ret (GridFailure None "Unknown format code 'f' for object of type 'str'"),
     [EvPrint "Querying grid for date: 2024-03-01 with BBOX: ['-97', 18, -82, 31]";
      EvPrint "API endpoint: https://ozavala.coaps.fsu.edu/nespreso_grid";
      EvPost (grid_request DEFAULT_API_URL
                [("date", JStr "2024-03-01");
                 ("bbox", JList [JNum (FFin (-97)); JNum (FFin 18); JNum (FFin (-82));
                                 JNum (FFin 31)])]);
      EvPrint "❌ Unexpected error: Unknown format code 'f' for object of type 'str'"]).
Proof. vm_compute. reflexivity. Qed.

Example grid_names :
  output_name "2024-03-01" None None = Ret "nespreso_grid_2024-03-01.nc"
  /\ output_name "2024-03-01" (int_bbox (-97) 18 (-82) 31) None
     = Ret "nespreso_grid_2024-03-01_bbox_-97.00_18.00_-82.00_31.00.nc"
  /\ output_name "2024-03-01" None
       (Some (VNum (PyFloat (PyFloatObj (FFin (1 # 4)) "0.25"))))
     = Ret "nespreso_grid_2024-03-01_res_0.250.nc".
Proof. repeat split; vm_compute; reflexivity. Qed.

Lemma query_grid_sends w date_str bbox resolution api_url t d be re :
  dir_ready w t -> strptime_ymd date_str = Ret d ->
  bbox_accepted bbox be -> resolution_accepted resolution re ->
  exists r t',
    query_grid w date_str bbox resolution api_url t = (Ret r, t') /\
    posts t' = posts t ++ [grid_request api_url ([("date", JStr date_str)] ++ be ++ re)].
Proof.
  intros Hdir Hd Hb Hr.
  pose proof (query_grid_run w date_str bbox resolution api_url t) as R.
  rewrite (ensure_dir_eq w t Hdir), Hd in R.
  rewrite (check_bbox_accepted bbox be _ Hb) in R.
  rewrite (check_resolution_accepted resolution re _ Hr) in R.
  destruct R as (line & _ & R). cbv zeta in R.
  destruct R as (r & t' & E & P & _). exists r, t'. split; [exact E |].
  rewrite P, after_dir_posts, <- app_assoc. reflexivity.
Qed.

(** C7, as amended.  A grid query that passes validation issues exactly
    one POST, carrying the date and whichever of bbox and resolution were
    given.  It is sent through [requests] with the single timeout of 600
    seconds for the connection and for the reads alike, and with
    redirects followed; the profile transport, by contrast, allows 10
    seconds to connect, 1800 seconds otherwise, and does not follow
    redirects. *)
Theorem grid_transport_policy (w : world) (date_str : string) (bbox : option bbox_arg)
  (resolution : option pyval) (api_url : string) (t : trace)
  (d : datetime) (be re : list (string * json)) :
  dir_ready w t -> strptime_ymd date_str = Ret d ->
  bbox_accepted bbox be -> resolution_accepted resolution re ->
  let rq := grid_request api_url ([("date", JStr date_str)] ++ be ++ re) in
  posts (snd (query_grid w date_str bbox resolution api_url t)) = posts t ++ [rq] /\
  rq_client rq = Requests /\
  rq_connect_timeout rq = 600%Q /\ rq_read_timeout rq = 600%Q /\
  rq_follow_redirects rq = true /\
  (forall u data,
     rq_client (profile_request u data) = Httpx /\
     rq_connect_timeout (profile_request u data) = 10%Q /\
     rq_read_timeout (profile_request u data) = 1800%Q /\
     rq_follow_redirects (profile_request u data) = false).
Proof.
  intros Hdir Hd Hb Hr rq.
  destruct (query_grid_sends w date_str bbox resolution api_url t d be re Hdir Hd Hb Hr)
    as (r & t' & E & P).
  rewrite E. cbn [snd]. split; [exact P |].
  repeat split; reflexivity.
Qed.

Lemma grid_transport_policy_witness :
  dir_ready calm_world [] /\
  strptime_ymd "2024-03-01" = Ret (datetime_ymd 2024 3 1) /\
  bbox_accepted None [] /\ resolution_accepted None [] /\
  posts (snd (query_grid calm_world "2024-03-01" None None DEFAULT_API_URL []))
  = [grid_request DEFAULT_API_URL [("date", JStr "2024-03-01")]].
Proof.
  assert (H1 : dir_ready calm_world []) by (left; reflexivity).
  assert (H2 : strptime_ymd "2024-03-01" = Ret (datetime_ymd 2024 3 1)) by reflexivity.
  assert (H3 : bbox_accepted None []) by (left; split; reflexivity).
  assert (H4 : resolution_accepted None []) by (left; split; reflexivity).
  split; [exact H1 |]. split; [exact H2 |]. split; [exact H3 |]. split; [exact H4 |].
  destruct (grid_transport_policy calm_world "2024-03-01" None None DEFAULT_API_URL []
              (datetime_ymd 2024 3 1) [] [] H1 H2 H3 H4) as (P & _).
  exact P.
Defined.

(** C7 as stated fails: the POST of a valid grid query has one and the same
    budget for connecting and for reading, and follows redirects. *)
Lemma grid_post_is_not_the_profile_policy :
  ~ (forall rq,
       In rq (posts (snd (query_grid calm_world "2024-03-01" None None DEFAULT_API_URL []))) ->
       (rq_connect_timeout rq < rq_read_timeout rq)%Q /\ rq_follow_redirects rq = false).
Proof.
  intros H.
  destruct (H (grid_request DEFAULT_API_URL [("date", JStr "2024-03-01")])) as [_ Hr].
  - vm_compute. left. reflexivity.
  - discriminate Hr.
Qed.

Lemma query_grid_returns w date_str bbox resolution api_url t :
  dir_ready w t ->
  exists r t', query_grid w date_str bbox resolution api_url t = (Ret r, t').
Proof.
  intros Hdir.
  pose proof (query_grid_run w date_str bbox resolution api_url t) as R.
  rewrite (ensure_dir_eq w t Hdir) in R.
  destruct (strptime_ymd date_str); [| eauto].
  destruct (check_bbox bbox _); [eauto |].
  destruct (check_resolution resolution _); [eauto |].
  destruct R as (line & _ & R). cbv zeta in R.
  destruct R as (r & t' & E & _). eauto.
Qed.


(** The first line of a run over several dates is put together before
    anything else happens: what raises there ends the run. *)
Lemma query_multiple_dates_header w date_list bbox resolution api_url t :
  (forall e, bbox_info bbox = Raise e ->
     query_multiple_dates w date_list bbox resolution api_url t = (Raise e, t)) /\
  (forall b e, bbox_info bbox = Ret b -> res_info resolution = Raise e ->
     query_multiple_dates w date_list bbox resolution api_url t = (Raise e, t)).
Proof.
  split.
  - intros e H. unfold query_multiple_dates. unfold bind at 1, lift at 1. rewrite H.
    reflexivity.
  - intros b e Hb Hr. unfold query_multiple_dates. unfold bind at 1, lift at 1. rewrite Hb.
    unfold bind at 1, lift at 1. rewrite Hr. reflexivity.
Qed.



Example date_range_sample :
  generate_date_range (Platform true) "2024-02-27" "2024-03-01"
  = Ret ["2024-02-27"; "2024-02-28"; "2024-02-29"; "2024-03-01"].
Proof. vm_compute. reflexivity. Qed.

End GridFacts.

Import GridFacts.

(* ================================================================== *)
(** * The public operations as a whole *)
(* ================================================================== *)

Module LibraryFacts.

Section Returns.

(** The environment the operations run in. *)
Variable w : world.




End Returns.


End LibraryFacts.
(* ================================================================== *)
(** * Dates: ordinals, parsing, ranges *)
(* ================================================================== *)

Module DateRangeFacts.

Ltac month_cases m :=
  let H := fresh "Hm" in
  assert (H : m = 1 \/ m = 2 \/ m = 3 \/ m = 4 \/ m = 5 \/ m = 6 \/ m = 7 \/ m = 8
              \/ m = 9 \/ m = 10 \/ m = 11 \/ m = 12) by lia;
  repeat (destruct H as [H | H]); subst m.

Lemma days_before_year_succ y :
  days_before_year (y + 1) = days_before_year y + 365 + (if is_leap y then 1 else 0).
Proof.
  unfold days_before_year, is_leap. cbv zeta.
  replace (y + 1 - 1) with y by lia.
  destruct (Z.eqb_spec (y mod 4) 0); destruct (Z.eqb_spec (y mod 100) 0);
    destruct (Z.eqb_spec (y mod 400) 0); cbn [andb orb negb];
    Z.div_mod_to_equations; lia.
Qed.

Lemma next_day_valid d : valid_date d -> valid_date (next_day d).
Proof.
  destruct d as [y m d]. unfold valid_date, next_day. cbn [year month day].
  intros (Hy & Hm & Hd).
  destruct (Z.ltb_spec d (days_in_month y m)).
  - cbn [year month day]. lia.
  - destruct (Z.ltb_spec m 12); cbn [year month day].
    + repeat split; try lia. unfold days_in_month.
      month_cases m; try lia; destruct (is_leap y); cbn; lia.
    + repeat split; try lia. unfold days_in_month. cbn. lia.
Qed.

Lemma toordinal_next_day d : valid_date d -> toordinal (next_day d) = toordinal d + 1.
Proof.
  destruct d as [y m d]. unfold valid_date, next_day, toordinal, ymd2ord. cbn [year month day].
  intros (Hy & Hm & Hd).
  destruct (Z.ltb_spec d (days_in_month y m)); cbn [year month day]; [lia |].
  destruct (Z.ltb_spec m 12); cbn [year month day].
  - unfold days_before_month, days_in_month in *.
    month_cases m; try lia; destruct (is_leap y); cbn in *; lia.
  - assert (m = 12) by lia. subst m.
    rewrite days_before_year_succ.
    unfold days_before_month, days_in_month in *. destruct (is_leap y); cbn in *; lia.
Qed.

Lemma ord2ymd_roundtrip n :
  1 <= n -> valid_date (ord2ymd n) /\ toordinal (ord2ymd n) = n.
Proof.
  intros Hn. replace n with (1 + Z.of_nat (Z.to_nat (n - 1))) by lia.
  generalize (Z.to_nat (n - 1)) as k. induction k as [| k [IHv IHo]].
  - split; [unfold valid_date; cbn; lia | reflexivity].
  - replace (1 + Z.of_nat (S k)) with (1 + Z.of_nat k + 1) by lia.
    rewrite ord2ymd_succ. split; [apply next_day_valid; exact IHv |].
    rewrite toordinal_next_day by exact IHv. lia.
Qed.

Lemma days_before_year_mono a b : a <= b -> days_before_year a <= days_before_year b.
Proof.
  intros H. unfold days_before_year. cbv zeta. Z.div_mod_to_equations. lia.
Qed.

(** Where the ordinal of a date lies within its year. *)
Lemma ymd2ord_bounds d :
  valid_date d ->
  days_before_year (year d) < toordinal d <= days_before_year (year d + 1).
Proof.
  destruct d as [y m d]. unfold valid_date, toordinal, ymd2ord. cbn [year month day].
  intros (Hy & Hm & Hd). rewrite days_before_year_succ.
  unfold days_before_month, days_in_month in *.
  month_cases m; destruct (is_leap y); cbn in *; lia.
Qed.

Lemma toordinal_lt a b :
  valid_date a -> valid_date b -> date_ltb a b = true -> toordinal a < toordinal b.
Proof.
  intros Ha Hb. unfold date_ltb.
  destruct (Z.ltb_spec (year a) (year b)) as [Hy | Hy]; cbn [orb].
  - intros _. pose proof (ymd2ord_bounds a Ha). pose proof (ymd2ord_bounds b Hb).
    pose proof (days_before_year_mono (year a + 1) (year b)). lia.
  - destruct (Z.eqb_spec (year a) (year b)) as [Ey | Ey]; cbn [andb]; [| discriminate].
    destruct a as [y m d], b as [y' m' d']. cbn [year month day] in *. subst y'.
    unfold valid_date in *. cbn [year month day] in *.
    destruct Ha as (_ & Hm & Hd). destruct Hb as (_ & Hm' & Hd').
    unfold toordinal, ymd2ord. cbn [year month day].
    destruct (Z.ltb_spec m m') as [Hlt | Hge]; cbn [orb].
    + intros _. unfold days_before_month, days_in_month in *.
      month_cases m; month_cases m'; try lia; destruct (is_leap y); cbn in *; lia.
    + destruct (Z.eqb_spec m m') as [-> | ?]; cbn [andb]; [| discriminate].
      intros Hd2. apply Z.ltb_lt in Hd2. lia.
Qed.

Lemma date_ltb_total a b : date_ltb a b = false -> date_ltb b a = false -> a = b.
Proof.
  destruct a as [y m d], b as [y' m' d']. unfold date_ltb. cbn [year month day].
  destruct (Z.ltb_spec y y'); cbn [orb]; [discriminate |].
  destruct (Z.ltb_spec y' y); cbn [orb]; [intros _; discriminate |].
  assert (y = y') by lia. subst y'. rewrite Z.eqb_refl. cbn [andb].
  destruct (Z.ltb_spec m m'); cbn [orb]; [discriminate |].
  destruct (Z.ltb_spec m' m); cbn [orb]; [intros _; discriminate |].
  assert (m = m') by lia. subst m'. rewrite Z.eqb_refl. cbn [andb].
  destruct (Z.ltb_spec d d'); [discriminate |].
  destruct (Z.ltb_spec d' d); [intros _; discriminate |].
  intros _ _. f_equal. lia.
Qed.

(** The ordinal determines the date. *)
Lemma toordinal_inj a b :
  valid_date a -> valid_date b -> toordinal a = toordinal b -> a = b.
Proof.
  intros Ha Hb E.
  destruct (date_ltb a b) eqn:L1.
  { pose proof (toordinal_lt a b Ha Hb L1). lia. }
  destruct (date_ltb b a) eqn:L2.
  { pose proof (toordinal_lt b a Hb Ha L2). lia. }
  apply date_ltb_total; assumption.
Qed.

Lemma ord2ymd_toordinal d : valid_date d -> ord2ymd (toordinal d) = d.
Proof.
  intros Hd.
  assert (H1 : 1 <= toordinal d).
  { pose proof (ymd2ord_bounds d Hd). pose proof (days_before_year_mono 1 (year d)).
    destruct Hd as (Hy & _). change (days_before_year 1) with 0 in *. lia. }
  destruct (ord2ymd_roundtrip _ H1) as [Hv Ho].
  apply toordinal_inj; assumption.
Qed.

(** Timestamps at midnight compare like their ordinals. *)
Lemma datetime_le_midnight a b :
  valid_date a -> valid_date b ->
  datetime_le (Datetime a 0 0 0 0) (Datetime b 0 0 0 0) = (toordinal a <=? toordinal b).
Proof.
  intros Ha Hb.
  assert (E : datetime_le (Datetime a 0 0 0 0) (Datetime b 0 0 0 0) = negb (date_ltb b a)).
  { unfold datetime_le, datetime_key, date_ltb. cbn [lex_le dt_date dt_hour dt_minute dt_second dt_microsecond].
    destruct a as [y m d], b as [y' m' d']. cbn [year month day].
    lia. }
  rewrite E. destruct (date_ltb b a) eqn:L; cbn [negb]; symmetry.
  - apply Z.leb_gt. apply toordinal_lt; assumption.
  - apply Z.leb_le. destruct (date_ltb a b) eqn:L'.
    + pose proof (toordinal_lt a b Ha Hb L'). lia.
    + rewrite (date_ltb_total a b L' L). lia.
Qed.

(** ** Parsing what was formatted *)

Lemma four_digits_all : all_from (Z.to_nat 9999) 1 four_digits_ok = true.
Proof. vm_cast_no_check (eq_refl true). Qed.

(** An ASCII digit is a decimal digit, with the same value. *)
Lemma parse_digit_ascii c rest v :
  digit_of c = Some v -> parse_digit (String c rest) = Some (v, rest).
Proof.
  intros H. unfold parse_digit, next_char, byte. unfold digit_of in H. cbv zeta in *.
  set (n := Z.of_nat (nat_of_ascii c)) in *.
  destruct (Z.leb_spec 48 n) as [H1 | ?]; [| discriminate].
  destruct (Z.leb_spec n 57) as [H2 | ?]; [| discriminate].
  cbn [andb] in H. injection H as <-.
  destruct (Z.ltb_spec n 128); [| lia].
  unfold decimal_value, DECIMAL_ZEROS. cbn [find].
  destruct (Z.leb_spec 48 n); [| lia].
  destruct (Z.ltb_spec n (48 + 10)); [| lia].
  reflexivity.
Qed.

Lemma decimal_value_bounds cp v : decimal_value cp = Some v -> 0 <= v <= 9.
Proof.
  unfold decimal_value.
  destruct (find _ DECIMAL_ZEROS) as [zero |] eqn:F; [| discriminate].
  apply find_some in F. destruct F as [_ F]. intros [= <-]. lia.
Qed.

Lemma parse_digit_bounds s v rest : parse_digit s = Some (v, rest) -> 0 <= v <= 9.
Proof.
  unfold parse_digit. destruct (next_char s) as [[cp r] |]; [| discriminate].
  destruct (decimal_value cp) as [u |] eqn:D; [| discriminate].
  intros [= <- _]. exact (decimal_value_bounds cp u D).
Qed.

Lemma parse_Y_format y rest :
  1 <= y <= 9999 -> parse_Y (format_0d 4 y +++ rest) = Some (y, rest).
Proof.
  intros Hy.
  assert (H : four_digits_ok y = true)
    by (apply (all_from_sound _ _ _ four_digits_all); lia).
  unfold four_digits_ok in H.
  destruct (format_0d 4 y) as [| a [| b [| c [| d [| ? ?]]]]]; try discriminate.
  cbn [String.append]. unfold parse_Y.
  destruct (digit_of a) as [va |] eqn:Ha; [| discriminate].
  destruct (digit_of b) as [vb |] eqn:Hb; [| discriminate].
  destruct (digit_of c) as [vc |] eqn:Hc; [| discriminate].
  destruct (digit_of d) as [vd |] eqn:Hd; [| discriminate].
  rewrite (parse_digit_ascii a _ va Ha), (parse_digit_ascii b _ vb Hb),
          (parse_digit_ascii c _ vc Hc), (parse_digit_ascii d _ vd Hd).
  apply Z.eqb_eq in H. rewrite H. reflexivity.
Qed.

Lemma parse_m_format m rest :
  1 <= m <= 12 -> parse_m_then "-" (format_0d 2 m +++ String "-" rest) = Some (m, rest).
Proof. intros Hm. month_cases m; reflexivity. Qed.

Lemma parse_d_format d :
  1 <= d <= 31 -> parse_d (format_0d 2 d) = Some (d, EmptyString).
Proof.
  intros Hd.
  assert (H : all_from (Z.to_nat 31) 1
                (fun d => match parse_d (format_0d 2 d) with
                          | Some (v, EmptyString) => v =? d
                          | _ => false
                          end) = true) by (vm_compute; reflexivity).
  pose proof (all_from_sound _ _ _ H d ltac:(lia)) as Hc. cbv beta in Hc.
  destruct (parse_d (format_0d 2 d)) as [[v [| ? ?]] |]; try discriminate.
  apply Z.eqb_eq in Hc. subst v. reflexivity.
Qed.

Lemma days_in_month_le_31 y m : days_in_month y m <= 31.
Proof.
  unfold days_in_month. destruct ((m =? 2) && is_leap y); [lia |].
  unfold DAYS_IN_MONTH.
  repeat match goal with
         | |- context [match ?p with _ => _ end] => destruct p
         end; lia.
Qed.

(** Parsing the ISO rendering of a date gives the date back. *)
Lemma strptime_isoformat d :
  valid_date d -> year d <= 9999 ->
  strptime_ymd (isoformat d) = Ret (Datetime d 0 0 0 0).
Proof.
  destruct d as [y m d]. unfold valid_date, isoformat. cbn [year month day].
  intros (Hy & Hm & Hd) Hy9. unfold strptime_ymd.
  rewrite parse_Y_format by lia. cbn [parse_literal String.append Ascii.eqb].
  cbn. rewrite parse_m_format by lia.
  pose proof (days_in_month_le_31 y m).
  rewrite parse_d_format by lia.
  unfold MINYEAR, MAXYEAR.
  destruct (Z.ltb_spec y 1); [lia |]. destruct (Z.ltb_spec 9999 y); [lia |]. cbn [orb].
  destruct (Z.ltb_spec (days_in_month y m) d); [lia |]. reflexivity.
Qed.

(** ** What the parser returns *)

Lemma digit_in_bounds lo hi c v : digit_in lo hi c = Some v -> lo <= v <= hi.
Proof.
  unfold digit_in. destruct (digit_of c) as [u |]; [| discriminate].
  destruct (Z.leb_spec lo u), (Z.leb_spec u hi); cbn [andb]; try discriminate.
  intros [= <-]. lia.
Qed.

Lemma parse_two_bounds alo ahi blo bhi s v rest :
  parse_two alo ahi blo bhi s = Some (v, rest) ->
  10 * alo + blo <= v <= 10 * ahi + bhi.
Proof.
  unfold parse_two. destruct s as [| a [| b s]]; try discriminate.
  destruct (digit_in alo ahi a) as [x |] eqn:Ha; [| discriminate].
  destruct (digit_in blo bhi b) as [y |] eqn:Hb; [| discriminate].
  intros [= <- _]. apply digit_in_bounds in Ha, Hb. lia.
Qed.

Lemma parse_one_bounds lo hi s v rest :
  parse_one lo hi s = Some (v, rest) -> lo <= v <= hi.
Proof.
  unfold parse_one. destruct s as [| a s]; [discriminate |].
  destruct (digit_in lo hi a) as [x |] eqn:Ha; [| discriminate].
  intros [= <- _]. apply digit_in_bounds in Ha. lia.
Qed.

Lemma parse_then_digit_bounds alo ahi s v rest :
  parse_then_digit alo ahi s = Some (v, rest) -> 10 * alo <= v <= 10 * ahi + 9.
Proof.
  unfold parse_then_digit. destruct s as [| a s]; [discriminate |].
  destruct (digit_in alo ahi a) as [x |] eqn:Ha; [| discriminate].
  destruct (parse_digit s) as [[y r] |] eqn:Hb; [| discriminate].
  intros [= <- _]. apply digit_in_bounds in Ha. apply parse_digit_bounds in Hb. lia.
Qed.

Lemma parse_m_then_bounds c s v rest :
  parse_m_then c s = Some (v, rest) -> 1 <= v <= 12.
Proof.
  unfold parse_m_then, orelse.
  destruct (parse_two 1 1 0 2 s) as [[v1 r1] |] eqn:E1.
  - destruct (parse_literal c r1).
    + intros [= <- _]. apply parse_two_bounds in E1. lia.
    + destruct (parse_two 0 0 1 9 s) as [[v2 r2] |] eqn:E2.
      * destruct (parse_literal c r2).
        -- intros [= <- _]. apply parse_two_bounds in E2. lia.
        -- destruct (parse_one 1 9 s) as [[v3 r3] |] eqn:E3; [| discriminate].
           destruct (parse_literal c r3); [| discriminate].
           intros [= <- _]. apply parse_one_bounds in E3. lia.
      * destruct (parse_one 1 9 s) as [[v3 r3] |] eqn:E3; [| discriminate].
        destruct (parse_literal c r3); [| discriminate].
        intros [= <- _]. apply parse_one_bounds in E3. lia.
  - destruct (parse_two 0 0 1 9 s) as [[v2 r2] |] eqn:E2.
    + destruct (parse_literal c r2).
      * intros [= <- _]. apply parse_two_bounds in E2. lia.
      * destruct (parse_one 1 9 s) as [[v3 r3] |] eqn:E3; [| discriminate].
        destruct (parse_literal c r3); [| discriminate].
        intros [= <- _]. apply parse_one_bounds in E3. lia.
    + destruct (parse_one 1 9 s) as [[v3 r3] |] eqn:E3; [| discriminate].
      destruct (parse_literal c r3); [| discriminate].
      intros [= <- _]. apply parse_one_bounds in E3. lia.
Qed.

Lemma parse_d_bounds s v rest : parse_d s = Some (v, rest) -> 1 <= v.
Proof.
  unfold parse_d, orelse.
  destruct (parse_two 3 3 0 1 s) as [[v1 r1] |] eqn:E1.
  { intros [= <- _]. apply parse_two_bounds in E1. lia. }
  destruct (parse_then_digit 1 2 s) as [[v2 r2] |] eqn:E2.
  { intros [= <- _]. apply parse_then_digit_bounds in E2. lia. }
  destruct (parse_two 0 0 1 9 s) as [[v3 r3] |] eqn:E3.
  { intros [= <- _]. apply parse_two_bounds in E3. lia. }
  destruct (parse_one 1 9 s) as [[v4 r4] |] eqn:E4.
  { intros [= <- _]. apply parse_one_bounds in E4. lia. }
  destruct (parse_literal " " s) as [r |]; [| discriminate].
  intros H. apply parse_one_bounds in H. lia.
Qed.

(** A string the parser accepts denotes a date of the calendar, at
    midnight, in the years 1 to 9999. *)
Lemma strptime_valid s dt :
  strptime_ymd s = Ret dt ->
  valid_date (dt_date dt) /\ year (dt_date dt) <= 9999 /\ dt = Datetime (dt_date dt) 0 0 0 0.
Proof.
  unfold strptime_ymd.
  destruct (parse_Y s) as [[y s1] |]; [| discriminate].
  destruct (parse_literal "-" s1) as [s2 |]; [| discriminate].
  destruct (parse_m_then "-" s2) as [[m s3] |] eqn:Em; [| discriminate].
  destruct (parse_d s3) as [[d [| ? ?]] |] eqn:Ed; try discriminate.
  unfold MINYEAR, MAXYEAR.
  destruct (Z.ltb_spec y 1); [discriminate |].
  destruct (Z.ltb_spec 9999 y); [discriminate |]. cbn [orb].
  destruct (Z.ltb_spec (days_in_month y m) d); [discriminate |].
  intros [= <-]. unfold valid_date, datetime_ymd. cbn [dt_date year month day].
  apply parse_m_then_bounds in Em. apply parse_d_bounds in Ed.
  repeat split; lia.
Qed.

(** ** The date range *)

Lemma toordinal_range d : valid_date d -> year d <= 9999 -> 1 <= toordinal d <= MAXORDINAL.
Proof.
  intros Hv Hy. pose proof (ymd2ord_bounds d Hv) as [Hlo Hhi].
  pose proof (days_before_year_mono 1 (year d) ltac:(destruct Hv; lia)) as H1.
  pose proof (days_before_year_mono (year d + 1) 10000 ltac:(lia)) as H2.
  change (days_before_year 1) with 0 in H1.
  change (days_before_year 10000) with 3652059 in H2.
  unfold MAXORDINAL. lia.
Qed.

Lemma datetime_add_one_day n :
  1 <= n <= MAXORDINAL ->
  datetime_add (Datetime (ord2ymd n) 0 0 0 0) (Timedelta 1 0 0)
  = if n <? MAXORDINAL then Ret (Datetime (ord2ymd (n + 1)) 0 0 0 0)
    else Raise (Exn OverflowError "date value out of range").
Proof.
  intros Hn. unfold datetime_add. cbn [dt_date dt_hour dt_minute dt_second dt_microsecond
    td_days td_seconds td_microseconds].
  rewrite (proj2 (ord2ymd_roundtrip n ltac:(lia))).
  unfold timedelta_of_ints. cbv beta zeta.
  change (0 * 3600 + 0 * 60 + 0 + 0 + (0 + 0) / US_PER_SECOND) with 0.
  change (0 / SECONDS_PER_DAY) with 0. change (0 mod SECONDS_PER_DAY) with 0.
  change ((0 + 0) mod US_PER_SECOND) with 0.
  unfold MAXORDINAL in *.
  destruct (Z.ltb_spec 999999999 (Z.abs (n + 1 + 0))); [lia |].
  cbn [rbind td_days td_seconds td_microseconds].
  change (0 / 3600) with 0. change (0 mod 3600) with 0.
  change (0 / 60) with 0. change (0 mod 60) with 0.
  replace (n + 1 + 0) with (n + 1) by lia.
  destruct (Z.ltb_spec n 3652059), (Z.ltb_spec 0 (n + 1)), (Z.leb_spec (n + 1) 3652059);
    cbn [andb]; try lia; reflexivity.
Qed.

Lemma zseq_nil a b : b <= a -> zseq a b = [].
Proof. intros H. unfold zseq. replace (Z.to_nat (b - a)) with O by lia. reflexivity. Qed.

Lemma zseq_cons a b : a < b -> zseq a b = a :: zseq (a + 1) b.
Proof.
  intros H. unfold zseq.
  replace (Z.to_nat (b - a)) with (S (Z.to_nat (b - (a + 1)))) by lia.
  cbn [seq map]. f_equal; [lia |].
  rewrite <- seq_shift, map_map. apply map_ext. intros i. lia.
Qed.

Lemma zseq_length a b : Z.of_nat (List.length (zseq a b)) = Z.max 0 (b - a).
Proof. unfold zseq. rewrite length_map, length_seq. lia. Qed.

Lemma date_range_loop_spec p e :
  valid_date e -> toordinal e < MAXORDINAL ->
  forall fuel n acc,
    1 <= n -> (Z.to_nat (toordinal e - n + 1) < fuel)%nat ->
    date_range_loop fuel p (Datetime (ord2ymd n) 0 0 0 0) (Datetime e 0 0 0 0) acc
    = Ret (acc ++ map (fun k => strftime_ymd p (ord2ymd k)) (zseq n (toordinal e + 1))).
Proof.
  intros He Hmax. induction fuel as [| fuel IH]; intros n acc Hn Hf; [lia |].
  cbn [date_range_loop].
  destruct (ord2ymd_roundtrip n Hn) as [Hv Ho].
  rewrite (datetime_le_midnight _ _ Hv He), Ho.
  destruct (Z.leb_spec n (toordinal e)) as [Hle | Hgt].
  - rewrite datetime_add_one_day by lia.
    destruct (Z.ltb_spec n MAXORDINAL); [| lia].
    cbn [rbind dt_date]. rewrite IH by lia.
    rewrite (zseq_cons n) by lia. cbn [map]. rewrite <- app_assoc. reflexivity.
  - rewrite zseq_nil by lia. cbn [map]. rewrite app_nil_r. reflexivity.
Qed.

Lemma date_range_loop_overflow p e :
  valid_date e -> toordinal e = MAXORDINAL ->
  forall fuel n acc,
    1 <= n <= MAXORDINAL -> (Z.to_nat (MAXORDINAL - n) < fuel)%nat ->
    date_range_loop fuel p (Datetime (ord2ymd n) 0 0 0 0) (Datetime e 0 0 0 0) acc
    = Raise (Exn OverflowError "date value out of range").
Proof.
  intros He Hmax. induction fuel as [| fuel IH]; intros n acc Hn Hf; [lia |].
  cbn [date_range_loop].
  destruct (ord2ymd_roundtrip n ltac:(lia)) as [Hv Ho].
  rewrite (datetime_le_midnight _ _ Hv He), Ho, Hmax.
  destruct (Z.leb_spec n MAXORDINAL); [| lia].
  rewrite datetime_add_one_day by lia.
  destruct (Z.ltb_spec n MAXORDINAL).
  - cbn [rbind]. apply IH; lia.
  - reflexivity.
Qed.

(** X1.  The dates of a range.  For two strings that [strptime] reads as
    the dates [a] and [b], with [b] before 9999-12-31, the function returns
    the days from [a] to [b], both included, in order and each rendered
    with [strftime]; the list is empty when [a] is after [b]. *)
Theorem generate_date_range_days p start_date end_date a b :
  strptime_ymd start_date = Ret a -> strptime_ymd end_date = Ret b ->
  toordinal (dt_date b) < MAXORDINAL ->
  generate_date_range p start_date end_date
  = Ret (map (fun k => strftime_ymd p (ord2ymd k))
             (zseq (toordinal (dt_date a)) (toordinal (dt_date b) + 1))).
Proof.
  intros Ha Hb Hmax. unfold generate_date_range. rewrite Ha, Hb. cbn [rbind].
  destruct (strptime_valid _ _ Ha) as (Va & Ya & Ea).
  destruct (strptime_valid _ _ Hb) as (Vb & Yb & Eb).
  destruct a as [da ? ? ? ?], b as [db ? ? ? ?]. cbn [dt_date] in *.
  injection Ea as -> -> -> ->. injection Eb as -> -> -> ->.
  pose proof (toordinal_range _ Va Ya) as R.
  pose proof (date_range_loop_spec p db Vb Hmax
                (Z.to_nat (toordinal db - toordinal da + 1) + 1) (toordinal da) []
                ltac:(lia) ltac:(lia)) as L.
  rewrite (ord2ymd_toordinal da Va) in L. exact L.
Qed.

Lemma generate_date_range_days_witness :
  generate_date_range (Platform false) "2023-12-30" "2024-01-02"
  = Ret (map (fun k => strftime_ymd (Platform false) (ord2ymd k))
             (zseq (toordinal (Date 2023 12 30)) (toordinal (Date 2024 1 2) + 1))).
Proof.
  apply (generate_date_range_days (Platform false) "2023-12-30" "2024-01-02"
           (Datetime (Date 2023 12 30) 0 0 0 0) (Datetime (Date 2024 1 2) 0 0 0 0));
    vm_compute; reflexivity.
Defined.

(** X2.  The end of the calendar.  With 9999-12-31 as the end and any
    start that parses, the step past the last day overflows and the
    function raises; no list is returned. *)
Theorem generate_date_range_last_day p start_date a :
  strptime_ymd start_date = Ret a ->
  generate_date_range p start_date "9999-12-31"
  = Raise (Exn OverflowError "date value out of range").
Proof.
  intros Ha. unfold generate_date_range. rewrite Ha.
  change (strptime_ymd "9999-12-31") with (Ret (Datetime (Date 9999 12 31) 0 0 0 0)).
  cbn [rbind dt_date].
  destruct (strptime_valid _ _ Ha) as (Va & Ya & Ea).
  destruct a as [da ? ? ? ?]. cbn [dt_date] in *. injection Ea as -> -> -> ->.
  pose proof (toordinal_range _ Va Ya) as R.
  change (toordinal (Date 9999 12 31)) with MAXORDINAL.
  assert (Ve : valid_date (Date 9999 12 31)) by (vm_compute; repeat split; discriminate).
  pose proof (date_range_loop_overflow p (Date 9999 12 31) Ve eq_refl
                (Z.to_nat (MAXORDINAL - toordinal da + 1) + 1) (toordinal da) []
                R ltac:(unfold MAXORDINAL in *; lia)) as L.
  rewrite (ord2ymd_toordinal da Va) in L. exact L.
Qed.

Lemma generate_date_range_last_day_witness :
  generate_date_range (Platform true) "9999-12-30" "9999-12-31"
  = Raise (Exn OverflowError "date value out of range").
Proof.
  apply (generate_date_range_last_day (Platform true) "9999-12-30"
           (Datetime (Date 9999 12 30) 0 0 0 0)).
  vm_compute. reflexivity.
Defined.

(** ** Dates that go from one function to the next *)

Lemma strptime_strftime p d :
  valid_date d -> year d <= 9999 -> pads_year p = true \/ 1000 <= year d ->
  strptime_ymd (strftime_ymd p d) = Ret (Datetime d 0 0 0 0).
Proof.
  intros Hv Hy Hp. unfold strftime_ymd. rewrite format_Y_iso.
  - exact (strptime_isoformat d Hv Hy).
  - destruct Hp as [Hp | Hp]; [left; exact Hp | right; lia].
Qed.

Lemma toordinal_year_lower d : valid_date d -> 1000 <= year d -> 364878 <= toordinal d.
Proof.
  intros Hv Hy. pose proof (ymd2ord_bounds d Hv) as [Hlo _].
  pose proof (days_before_year_mono 1000 (year d) Hy) as H.
  change (days_before_year 1000) with 364877 in H. lia.
Qed.

Lemma in_zseq k a b : In k (zseq a b) <-> a <= k < b.
Proof.
  unfold zseq. rewrite in_map_iff. split.
  - intros (i & <- & Hi). apply in_seq in Hi. lia.
  - intros H. exists (Z.to_nat (k - a)). split; [lia |]. apply in_seq. lia.
Qed.

Lemma generate_date_range_cases p start_date end_date a b :
  strptime_ymd start_date = Ret a -> strptime_ymd end_date = Ret b ->
  generate_date_range p start_date end_date
  = if toordinal (dt_date b) <? MAXORDINAL then
      Ret (map (fun k => strftime_ymd p (ord2ymd k))
               (zseq (toordinal (dt_date a)) (toordinal (dt_date b) + 1)))
    else Raise (Exn OverflowError "date value out of range").
Proof.
  intros Ha Hb. unfold generate_date_range. rewrite Ha, Hb. cbn [rbind].
  destruct (strptime_valid _ _ Ha) as (Va & Ya & Ea).
  destruct (strptime_valid _ _ Hb) as (Vb & Yb & Eb).
  destruct a as [da ? ? ? ?], b as [db ? ? ? ?]. cbn [dt_date] in *.
  injection Ea as -> -> -> ->. injection Eb as -> -> -> ->.
  pose proof (toordinal_range _ Va Ya) as Ra.
  pose proof (toordinal_range _ Vb Yb) as Rb.
  destruct (Z.ltb_spec (toordinal db) MAXORDINAL) as [Hmax | Hmax].
  - pose proof (date_range_loop_spec p db Vb Hmax
                  (Z.to_nat (toordinal db - toordinal da + 1) + 1) (toordinal da) []
                  ltac:(lia) ltac:(lia)) as L.
    rewrite (ord2ymd_toordinal da Va) in L. exact L.
  - assert (Emax : toordinal db = MAXORDINAL) by lia.
    pose proof (date_range_loop_overflow p db Vb Emax
                  (Z.to_nat (toordinal db - toordinal da + 1) + 1) (toordinal da) []
                  Ra ltac:(lia)) as L.
    rewrite (ord2ymd_toordinal da Va) in L. exact L.
Qed.

(** X3.  A generated range can be queried.  When the range starts in a
    year of four digits, or the platform pads [%Y], every string of
    the list is read back by [strptime] as a date: none of them is
    refused by the date check of [query_grid]. *)
Theorem generated_dates_parse p start_date end_date a l :
  strptime_ymd start_date = Ret a ->
  pads_year p = true \/ 1000 <= year (dt_date a) ->
  generate_date_range p start_date end_date = Ret l ->
  forall s, In s l -> exists d, strptime_ymd s = Ret (Datetime d 0 0 0 0) /\ strftime_ymd p d = s.
Proof.
  intros Ha Hp Hl s Hs.
  destruct (strptime_ymd end_date) as [b | e] eqn:Hb.
  2:{ unfold generate_date_range in Hl. rewrite Ha, Hb in Hl. discriminate. }
  rewrite (generate_date_range_cases p _ _ a b Ha Hb) in Hl.
  destruct (Z.ltb_spec (toordinal (dt_date b)) MAXORDINAL) as [Hmax | _]; [| discriminate].
  injection Hl as <-. apply in_map_iff in Hs. destruct Hs as (k & <- & Hk).
  apply in_zseq in Hk.
  destruct (strptime_valid _ _ Ha) as (Va & Ya & _).
  pose proof (toordinal_range _ Va Ya) as Ra.
  destruct (ord2ymd_roundtrip k ltac:(lia)) as [Vk _].
  pose proof (year_bounds k ltac:(lia)) as Yk.
  exists (ord2ymd k). split; [| reflexivity]. apply strptime_strftime.
  - exact Vk.
  - lia.
  - destruct Hp as [Hp | Hp]; [left; exact Hp | right].
    apply year_lower. pose proof (toordinal_year_lower _ Va Hp). lia.
Qed.

Lemma generated_dates_parse_witness :
  exists d, strptime_ymd "2024-03-01" = Ret (Datetime d 0 0 0 0)
            /\ strftime_ymd (Platform false) d = "2024-03-01".
Proof.
  apply (generated_dates_parse (Platform false) "2024-02-28" "2024-03-02"
           (Datetime (Date 2024 2 28) 0 0 0 0)
           ["2024-02-28"; "2024-02-29"; "2024-03-01"; "2024-03-02"]).
  - reflexivity.
  - right. cbn. lia.
  - vm_compute. reflexivity.
  - cbn. tauto.
Defined.

(** Years of fewer than four digits *)

Lemma short_years :
  all_from (Z.to_nat 999) 1 (fun y => Nat.ltb (String.length (str_of_Z y)) 4) = true.
Proof. vm_cast_no_check (eq_refl true). Qed.

(** A digit read from the front of [s1-...] is read from [s1]: the
    hyphen is no digit and continues no character. *)
Lemma parse_digit_dash s1 rest :
  match parse_digit (s1 +++ String "-" rest) with
  | None => True
  | Some (v, r) =>
      exists s1', r = s1' +++ String "-" rest /\ (String.length s1' < String.length s1)%nat
  end.
Proof.
  destruct s1 as [| b0 s1]; [exact I |].
  cbn [String.append]. unfold parse_digit, next_char. cbv zeta.
  destruct (byte b0 <? 128).
  { destruct (decimal_value (byte b0)); [| exact I].
    exists s1. split; [reflexivity | cbn; lia]. }
  destruct (byte b0 <? 194); [exact I |].
  destruct (byte b0 <? 224).
  { destruct s1 as [| b1 s2]; cbn [String.append]; [exact I |].
    destruct (continuation b1); [| exact I].
    destruct (decimal_value _); [| exact I].
    exists s2. split; [reflexivity | cbn; lia]. }
  destruct (byte b0 <? 240).
  { destruct s1 as [| b1 [| b2 s3]]; cbn [String.append].
    - destruct rest; exact I.
    - destruct (continuation b1); exact I.
    - destruct (continuation b1); [| exact I]. destruct (continuation b2); [| exact I].
      destruct (_ <? 2048); [exact I |].
      destruct (decimal_value _); [| exact I].
      exists s3. split; [reflexivity | cbn; lia]. }
  destruct (byte b0 <? 245); [| exact I].
  destruct s1 as [| b1 [| b2 [| b3 s4]]]; cbn [String.append].
  - destruct rest as [| x [| y r]]; exact I.
  - destruct rest; [exact I |]. destruct (continuation b1); exact I.
  - destruct (continuation b1); [| exact I]. destruct (continuation b2); exact I.
  - destruct (continuation b1); [| exact I]. destruct (continuation b2); [| exact I].
    destruct (continuation b3); [| exact I].
    destruct (_ || _); [exact I |].
    destruct (decimal_value _); [| exact I].
    exists s4. split; [reflexivity | cbn; lia].
Qed.

Lemma parse_Y_dash_early s rest :
  (String.length s < 4)%nat -> parse_Y (s +++ String "-" rest) = None.
Proof.
  intros H. unfold parse_Y.
  pose proof (parse_digit_dash s rest) as P1.
  destruct (parse_digit (s +++ String "-" rest)) as [[a r1] |]; [| reflexivity].
  destruct P1 as (p1 & -> & L1).
  pose proof (parse_digit_dash p1 rest) as P2.
  destruct (parse_digit (p1 +++ String "-" rest)) as [[b r2] |]; [| reflexivity].
  destruct P2 as (p2 & -> & L2).
  pose proof (parse_digit_dash p2 rest) as P3.
  destruct (parse_digit (p2 +++ String "-" rest)) as [[c r3] |]; [| reflexivity].
  destruct P3 as (p3 & -> & L3).
  pose proof (parse_digit_dash p3 rest) as P4.
  destruct (parse_digit (p3 +++ String "-" rest)) as [[d r4] |]; [| reflexivity].
  destruct P4 as (p4 & -> & L4). lia.
Qed.

Lemma strptime_unpadded p d :
  pads_year p = false -> 1 <= year d < 1000 ->
  strptime_ymd (strftime_ymd p d)
  = Raise (Exn ValueError "time data does not match format '%Y-%m-%d'").
Proof.
  intros Hp Hy. unfold strftime_ymd, format_Y. rewrite Hp.
  unfold strptime_ymd. cbn [String.append]. rewrite parse_Y_dash_early; [reflexivity |].
  apply Nat.ltb_lt. apply (all_from_sound _ _ _ short_years (year d)). lia.
Qed.

End DateRangeFacts.

Import DateRangeFacts.

(* ================================================================== *)
(** * [utils.py]: attributes and day counts, further *)
(* ================================================================== *)

Module ConversionFacts.

(** ** Dictionaries *)

Lemma dict_get_set d k v k' :
  dict_get (dict_set d k v) k' = if String.eqb k k' then Some v else dict_get d k'.
Proof.
  induction d as [| [a b] d IH]; cbn [dict_set dict_get].
  - reflexivity.
  - destruct (String.eqb_spec a k) as [-> | Hak]; cbn [dict_get].
    + destruct (String.eqb k k'); reflexivity.
    + rewrite IH. destruct (String.eqb_spec a k') as [-> | Hak']; [| reflexivity].
      destruct (String.eqb_spec k k') as [-> | _]; [contradiction | reflexivity].
Qed.

Lemma dict_get_snoc d a b k :
  dict_get (d ++ [(a, b)]) k
  = match dict_get d k with
    | Some v => Some v
    | None => if String.eqb a k then Some b else None
    end.
Proof.
  induction d as [| [a' b'] d IH]; cbn [app dict_get]; [reflexivity |].
  destruct (String.eqb a' k); [reflexivity | exact IH].
Qed.

(** After an update the last binding of a key wins; keys that are not
    updated keep their value. *)
Lemma dict_get_update e : forall d k,
  dict_get (dict_update d e) k
  = match dict_get (rev e) k with
    | Some v => Some v
    | None => dict_get d k
    end.
Proof.
  unfold dict_update. induction e as [| [a b] e IH]; intros d k; cbn [fold_left rev fst snd].
  - reflexivity.
  - rewrite IH, dict_get_snoc, dict_get_set.
    destruct (dict_get (rev e) k); [reflexivity |].
    destruct (String.eqb a k); reflexivity.
Qed.

Lemma dict_get_none d k : dict_get d k = None <-> ~ In k (map fst d).
Proof.
  induction d as [| [a b] d IH]; cbn [dict_get map fst In].
  - tauto.
  - destruct (String.eqb_spec a k) as [-> | Hak].
    + split; [discriminate | intros H; exfalso; apply H; left; reflexivity].
    + rewrite IH. tauto.
Qed.

Lemma dict_get_rev d k : NoDup (map fst d) -> dict_get (rev d) k = dict_get d k.
Proof.
  induction d as [| [a b] d IH]; cbn [rev map fst dict_get]; intros Hnd; [reflexivity |].
  inversion Hnd as [| ? ? Hnotin Hnd']; subst.
  rewrite dict_get_snoc, (IH Hnd').
  destruct (String.eqb_spec a k) as [-> | Hak].
  - apply dict_get_none in Hnotin. rewrite Hnotin. reflexivity.
  - destruct (dict_get d k); reflexivity.
Qed.

Lemma dict_set_keys d k v :
  map fst (dict_set d k v)
  = match dict_get d k with
    | Some _ => map fst d
    | None => map fst d ++ [k]
    end.
Proof.
  induction d as [| [a b] d IH]; cbn [dict_set dict_get map fst app]; [reflexivity |].
  destruct (String.eqb_spec a k) as [-> | Hak]; cbn [map fst]; [reflexivity |].
  rewrite IH. destruct (dict_get d k); reflexivity.
Qed.

Lemma dict_set_nodup d k v : NoDup (map fst d) -> NoDup (map fst (dict_set d k v)).
Proof.
  intros Hnd. rewrite dict_set_keys. destruct (dict_get d k) eqn:E; [exact Hnd |].
  apply dict_get_none in E.
  apply NoDup_rev in Hnd. rewrite <- (rev_involutive (map fst d ++ [k])).
  apply NoDup_rev. rewrite rev_app_distr. cbn [rev app]. constructor; [| exact Hnd].
  rewrite <- in_rev. exact E.
Qed.

Lemma dict_update_nodup e : forall d, NoDup (map fst d) -> NoDup (map fst (dict_update d e)).
Proof.
  unfold dict_update. induction e as [| [a b] e IH]; intros d Hnd; cbn [fold_left fst snd].
  - exact Hnd.
  - apply IH. apply dict_set_nodup. exact Hnd.
Qed.

Lemma default_attrs_nodup : NoDup (map fst default_attrs).
Proof.
  cbn. repeat constructor; cbn; intros H;
    repeat (destruct H as [H | H]; [discriminate H |]); exact H.
Qed.

Lemma attrs_lookup (ds : dataset) (extra_attrs : option (list (string * string)))
  (k : string) :
  dict_get (ds_attrs (apply_netcdf_global_attributes ds extra_attrs)) k
  = match dict_get (rev (match extra_attrs with Some e => e | None => [] end)) k with
    | Some v => Some v
    | None =>
        match dict_get default_attrs k with
        | Some v => Some v
        | None => dict_get (ds_attrs ds) k
        end
    end.
Proof.
  unfold apply_netcdf_global_attributes. cbn [ds_attrs].
  rewrite dict_get_update.
  destruct extra_attrs as [[| kv extra] |].
  - rewrite dict_get_rev by exact default_attrs_nodup. reflexivity.
  - rewrite dict_get_rev by (apply dict_update_nodup; exact default_attrs_nodup).
    rewrite dict_get_update.
    destruct (dict_get (rev (kv :: extra)) k); reflexivity.
  - rewrite dict_get_rev by exact default_attrs_nodup. reflexivity.
Qed.

(** The defaults are on the dataset whenever no extra attribute is given. *)
Lemma global_attributes_defaults ds k v :
  In (k, v) default_attrs ->
  dict_get (ds_attrs (apply_netcdf_global_attributes ds None)) k = Some v.
Proof.
  intros Hin. rewrite attrs_lookup. cbn [rev dict_get].
  unfold default_attrs in *. cbn [In] in Hin.
  repeat (destruct Hin as [Hin | Hin]; [injection Hin as <- <-; reflexivity |]).
  contradiction.
Qed.

(** X4.  The attributes after [apply_netcdf_global_attributes].  For every
    key, the value on the dataset afterwards is the one given in
    [extra_attrs] (the last one, should the key come twice), else the
    package default of that key, else the value the dataset had.  In
    particular an attribute of the dataset that has the name of a default
    is overwritten.  The records of the dataset are left as they are. *)
Theorem global_attributes_precedence (ds : dataset)
  (extra_attrs : option (list (string * string))) (k : string) :
  dict_get (ds_attrs (apply_netcdf_global_attributes ds extra_attrs)) k
  = match dict_get (rev (match extra_attrs with Some e => e | None => [] end)) k with
    | Some v => Some v
    | None =>
        match dict_get default_attrs k with
        | Some v => Some v
        | None => dict_get (ds_attrs ds) k
        end
    end
  /\ (forall v, In (k, v) default_attrs -> extra_attrs = None ->
      dict_get (ds_attrs (apply_netcdf_global_attributes ds extra_attrs)) k = Some v)
  /\ ds_profiles (apply_netcdf_global_attributes ds extra_attrs) = ds_profiles ds.
Proof.
  split; [apply attrs_lookup |]. split; [| reflexivity].
  intros v Hin ->. apply global_attributes_defaults. exact Hin.
Qed.

(** ** Day counts and the strings made of them *)

Lemma datenum_string p v d :
  whole_days v = Some d -> 0 <= d <= 3652058 ->
  _datenum_to_iso_string p v = Ret (strftime_ymd p (ord2ymd (1 + d))).
Proof.
  intros Hv Hd. rewrite datenum_unfold.
  destruct (guarded_body_finite v d Hv) as [(e & _ & Hbig) | (q & -> & Hq & _)]; [lia |].
  specialize (Hq Hd). cbn [rbind].
  destruct (date_of_finite q) as [Hin _]. rewrite Hq in Hin.
  destruct (Hin Hd) as (dt & -> & Hdate). rewrite Hdate. reflexivity.
Qed.

(** X5.  A day count can be read back.  For a day count that denotes a
    date from 0001-01-01 to 9999-12-31, in a year of four digits or on a
    platform that pads [%Y], the string produced is read by [strptime] as
    a date, the one whose ordinal is the number of whole days plus one:
    the date check of [query_grid] accepts the string, and day counts in
    different days give different strings. *)
Theorem datenum_reads_back (p : platform) (v : pynum) (d : Z) :
  whole_days v = Some d -> 0 <= d <= 3652058 ->
  pads_year p = true \/ 364877 <= d ->
  exists s day,
    _datenum_to_iso_string p v = Ret s /\
    strptime_ymd s = Ret (Datetime day 0 0 0 0) /\
    toordinal day = 1 + d.
Proof.
  intros Hv Hd Hp. rewrite (datenum_string p v d Hv Hd).
  destruct (ord2ymd_roundtrip (1 + d) ltac:(lia)) as [Vd Od].
  pose proof (year_bounds (1 + d) ltac:(unfold MAXORDINAL; lia)) as Yd.
  exists (strftime_ymd p (ord2ymd (1 + d))), (ord2ymd (1 + d)).
  split; [reflexivity |]. split; [| exact Od].
  apply strptime_strftime; [exact Vd | lia |].
  destruct Hp as [Hp | Hp]; [left; exact Hp | right; apply year_lower; lia].
Qed.

Lemma datenum_reads_back_witness :
  exists s day,
    _datenum_to_iso_string (Platform false) (PyInt 739000) = Ret s /\
    strptime_ymd s = Ret (Datetime day 0 0 0 0) /\
    toordinal day = 1 + 738634.
Proof.
  apply (datenum_reads_back (Platform false) (PyInt 739000) 738634).
  - reflexivity.
  - lia.
  - right. lia.
Defined.

(** ** Inputs that were prepared before *)

End ConversionFacts.

Import ConversionFacts.

(* ================================================================== *)
(** * [grid.py]: what a query does *)
(* ================================================================== *)

Module GridRunFacts.









(** What a query did, read off its result. *)
Lemma query_grid_effects w date_str bbox resolution api_url t r t' :
  query_grid w date_str bbox resolution api_url t = (r, t') ->
  match r with
  | Raise e => writes t' = writes t /\ posts t' = posts t
  | Ret (GridSuccess fn size st) =>
      st = 200 /\
      exists name data,
        output_name date_str bbox resolution = Ret name /\
        fn = GRID_OUTPUT_DIR +++ "/" +++ name /\
        writes t' = writes t ++ [(fn, data)] /\
        size = Z.of_nat (String.length data)
  | Ret (GridFailure (Some code) _) => code <> 200 /\ writes t' = writes t
  | Ret (GridFailure None _) => True
  end.
Proof.
  intros E.
  pose proof (query_grid_run w date_str bbox resolution api_url t) as R.
  destruct (ensure_dir_effects w t) as (r0 & t1 & He & W1 & P1).
  rewrite He in R. destruct r0 as [[] | e].
  2:{ rewrite R in E. injection E as <- <-. split; assumption. }
  destruct (strptime_ymd date_str).
  2:{ rewrite R in E. injection E as <- <-. exact I. }
  destruct (check_bbox bbox _).
  { rewrite R in E. injection E as <- <-. exact I. }
  destruct (check_resolution resolution _).
  { rewrite R in E. injection E as <- <-. exact I. }
  destruct R as (line & _ & R).
  cbv zeta in R. destruct R as (r1 & t2 & E2 & _ & H).
  rewrite E2 in E. injection E as <- <-.
  destruct (w_post w _ _) as [resp | exc].
  2:{ destruct H as [-> _]. exact I. }
  destruct (Z.eqb_spec (status_code resp) 200) as [Hs | Hs].
  - destruct (output_name date_str bbox resolution) as [name | e].
    + cbv zeta in H. destruct H as [Hw ->].
      destruct (w_write_file w _ _ (content resp)); [| exact I].
      split; [exact Hs |]. exists name, (content resp).
      split; [reflexivity |]. split; [reflexivity |].
      rewrite Hw, W1. split; reflexivity.
    + destruct H as [-> _]. exact I.
  - destruct H as [-> Hw]. split; [exact Hs | rewrite Hw; exact W1].
Qed.

(** X10.  What a success means.  Whenever a grid query reports success, the
    status it reports is 200, it wrote one file in the run, the file it
    names, which is the output name under the grid directory, and the
    size it reports is the length of what it wrote. *)
Theorem query_grid_success_is_saved w date_str bbox resolution api_url t fn size st t' :
  query_grid w date_str bbox resolution api_url t = (Ret (GridSuccess fn size st), t') ->
  st = 200 /\
  exists name data,
    output_name date_str bbox resolution = Ret name /\
    fn = GRID_OUTPUT_DIR +++ "/" +++ name /\
    writes t' = writes t ++ [(fn, data)] /\
    size = Z.of_nat (String.length data).
Proof. intros E. exact (query_grid_effects _ _ _ _ _ _ _ _ E). Qed.

Lemma query_grid_success_is_saved_witness :
  exists name data,
    output_name "2024-03-01" None None = Ret name /\
    "uses/grid/nespreso_grid_2024-03-01.nc" = GRID_OUTPUT_DIR +++ "/" +++ name /\
    writes (snd (query_grid calm_world "2024-03-01" None None DEFAULT_API_URL []))
    = writes [] ++ [("uses/grid/nespreso_grid_2024-03-01.nc", data)] /\
    3 = Z.of_nat (String.length data).
Proof.
  apply (query_grid_success_is_saved calm_world "2024-03-01" None None DEFAULT_API_URL []
           "uses/grid/nespreso_grid_2024-03-01.nc" 3 200
           (snd (query_grid calm_world "2024-03-01" None None DEFAULT_API_URL []))).
  vm_compute. reflexivity.
Defined.

(** X11.  What a reported status means.  Whenever a grid query fails and
    reports a status, that status is not 200 and the query wrote no
    file. *)
Theorem query_grid_failure_status w date_str bbox resolution api_url t code error t' :
  query_grid w date_str bbox resolution api_url t
  = (Ret (GridFailure (Some code) error), t') ->
  code <> 200 /\ writes t' = writes t.
Proof. intros E. exact (query_grid_effects _ _ _ _ _ _ _ _ E). Qed.

Lemma query_grid_failure_status_witness :
  404 <> 200 /\
  writes (snd (query_grid (steady_world (Ret (Response 404 [] "no data" "no data" None))
                                        (Ret tt))
                          "2024-03-01" None None DEFAULT_API_URL []))
  = writes [].
Proof.
  apply (query_grid_failure_status
           (steady_world (Ret (Response 404 [] "no data" "no data" None)) (Ret tt))
           "2024-03-01" None None DEFAULT_API_URL [] 404 "no data").
  vm_compute. reflexivity.
Defined.

Lemma query_grid_stops w date_str bbox resolution api_url t e :
  w_path_exists w t GRID_OUTPUT_DIR = false ->
  w_makedirs w t GRID_OUTPUT_DIR = Raise e ->
  query_grid w date_str bbox resolution api_url t
  = (Raise e, t ++ [EvMakedirs GRID_OUTPUT_DIR]).
Proof.
  intros Hx Hm. unfold query_grid. unfold bind at 1. unfold ensure_grid_output_dir.
  rewrite Hx. run_io. rewrite Hm. reflexivity.
Qed.

(** X12.  A directory that cannot be made.  When the output directory is
    missing and [makedirs] raises, the query raises that exception: the
    result dictionary is not built, whatever the arguments, and nothing
    is checked, printed, sent or written. *)
Theorem query_grid_directory_error w date_str bbox resolution api_url t e :
  w_path_exists w t GRID_OUTPUT_DIR = false ->
  w_makedirs w t GRID_OUTPUT_DIR = Raise e ->
  query_grid w date_str bbox resolution api_url t
  = (Raise e, t ++ [EvMakedirs GRID_OUTPUT_DIR]) /\
  posts (snd (query_grid w date_str bbox resolution api_url t)) = posts t /\
  writes (snd (query_grid w date_str bbox resolution api_url t)) = writes t.
Proof.
  intros Hx Hm.
  rewrite (query_grid_stops w date_str bbox resolution api_url t e Hx Hm). cbn [snd].
  rewrite posts_app, writes_app. split; [reflexivity |]. split; apply app_nil_r.
Qed.

Lemma query_grid_directory_error_witness :
  query_grid (no_dir_world (Exn OSError "Permission denied")) "not a date" None None
             DEFAULT_API_URL []
  = (Raise (Exn OSError "Permission denied"), [] ++ [EvMakedirs GRID_OUTPUT_DIR]).
Proof.
  apply (proj1 (query_grid_directory_error
                  (no_dir_world (Exn OSError "Permission denied"))
                  "not a date" None None DEFAULT_API_URL []
                  (Exn OSError "Permission denied") eq_refl eq_refl)).
Defined.

(** X13.  Dates written by a platform that does not pad the year.  A date
    before the year 1000, rendered by [strftime] without leading zeros,
    is refused by the date check of [query_grid]: no request is sent. *)
Theorem query_grid_refuses_short_year w p d bbox resolution api_url t :
  dir_ready w t -> pads_year p = false -> 1 <= year d < 1000 ->
  query_grid w (strftime_ymd p d) bbox resolution api_url t
  = (Ret (GridFailure None E_date), after_dir w t ++ [EvPrint E_date]).
Proof.
  intros Hdir Hp Hy.
  pose proof (query_grid_run w (strftime_ymd p d) bbox resolution api_url t) as R.
  rewrite (ensure_dir_eq w t Hdir), (strptime_unpadded p d Hp Hy) in R. exact R.
Qed.

Lemma query_grid_refuses_short_year_witness :
  query_grid calm_world "999-12-31" None None DEFAULT_API_URL []
  = (Ret (GridFailure None E_date), after_dir calm_world [] ++ [EvPrint E_date]).
Proof.
  apply (query_grid_refuses_short_year calm_world (Platform false) (Date 999 12 31)
           None None DEFAULT_API_URL []).
  - left. reflexivity.
  - reflexivity.
  - cbn. lia.
Defined.

(** ** Several dates *)

Lemma query_dates_loop_tally w n bbox resolution api_url :
  (forall t, dir_ready w t) ->
  forall dates i acc t,
  exists rs ts t',
    query_dates_loop w n bbox resolution api_url i dates acc t
    = (Ret (Tally (total acc) (successful acc + count_success rs)
                  (failed acc + count_failure rs) (results acc ++ rs)), t') /\
    List.length rs = List.length dates /\
    List.length ts = List.length dates /\
    Forall2 (fun dt r => fst (query_grid w (fst dt) bbox resolution api_url (snd dt)) = Ret r)
            (combine dates ts) rs.
Proof.
  intros Hdir. induction dates as [| date_str rest IH]; intros i acc t.
  - exists [], [], t. cbn [query_dates_loop]. unfold ret, count_success, count_failure, len.
    cbn [filter List.length Z.of_nat]. rewrite !Z.add_0_r, app_nil_r.
    destruct acc; repeat split; constructor.
  - cbn [query_dates_loop]. unfold bind at 1. unfold print at 1, emit at 1.
    unfold bind at 1.
    destruct (query_grid_returns w date_str bbox resolution api_url
                (t ++ [EvPrint (newline +++ "[" +++ str_of_Z i +++ "/" +++ str_of_Z n
                                +++ "] Processing date: " +++ date_str)])
                (Hdir _)) as (r & t1 & E).
    rewrite E.
    match goal with
    | |- context [query_dates_loop w n bbox resolution api_url (i + 1) rest ?a t1] =>
        destruct (IH (i + 1) a t1) as (rs & ts & t2 & E2 & L & Lt & F)
    end.
    rewrite E2.
    exists (r :: rs),
      ((t ++ [EvPrint (newline +++ "[" +++ str_of_Z i +++ "/" +++ str_of_Z n
                       +++ "] Processing date: " +++ date_str)]) :: ts), t2.
    split; [| split; [cbn; rewrite L; reflexivity |
                      split; [cbn; rewrite Lt; reflexivity |]]].
    2:{ cbn [combine]. constructor; [cbn [fst snd]; rewrite E; reflexivity | exact F]. }
    f_equal.
    change (r :: rs) with ([r] ++ rs).
    assert (Hs : count_success ([r] ++ rs) = (if success r then 1 else 0) + count_success rs).
    { unfold count_success, len. rewrite filter_app, length_app. cbn [filter].
      destruct (success r); cbn [List.length]; lia. }
    assert (Hf : count_failure ([r] ++ rs) = (if success r then 0 else 1) + count_failure rs).
    { unfold count_failure, len. rewrite filter_app, length_app. cbn [filter].
      destruct (success r); cbn [negb List.length]; lia. }
    rewrite Hs, Hf.
    destruct (success r); cbn [total successful failed results];
      rewrite <- app_assoc; f_equal; f_equal; lia.
Qed.



Lemma query_multiple_dates_eq w date_list bbox resolution api_url t :
  header_renders bbox resolution ->
  exists t0,
    posts t0 = posts t /\ writes t0 = writes t /\
    forall acc t1,
      query_dates_loop w (len date_list) bbox resolution api_url 1 date_list
                       (Tally (len date_list) 0 0 []) t0 = (Ret acc, t1) ->
      exists t', query_multiple_dates w date_list bbox resolution api_url t = (Ret acc, t')
                 /\ posts t' = posts t1 /\ writes t' = writes t1.
Proof.
  intros [(b & Hb) (r0 & Hr0)]. unfold query_multiple_dates.
  unfold bind at 1, lift at 1. rewrite Hb. unfold bind at 1, lift at 1. rewrite Hr0.
  unfold bind at 1. unfold print at 1, emit at 1.
  eexists. split; [apply posts_snoc_print |]. split; [apply writes_snoc_print |].
  intros acc t1 E. unfold bind at 1. rewrite E. run_io.
  eexists. split; [reflexivity |].
  rewrite !posts_snoc_print, !writes_snoc_print. split; reflexivity.
Qed.






Lemma check_bbox_any_request bbox rd rd' error :
  check_bbox bbox rd = Rejected error -> check_bbox bbox rd' = Rejected error.
Proof.
  unfold check_bbox. destruct bbox as [[items | txt truth] |];
    try discriminate; try (intros H; exact H).
  destruct (negb (len items =? 4)); [intros H; exact H |].
  destruct (floats_of items) as [[| a [| b [| c [| d [| ? ?]]]]] | e];
    try (intros H; exact H).
  destruct (negb _); [intros H; exact H |].
  destruct (negb _); [intros H; exact H | discriminate].
Qed.

Lemma check_bbox_any_accept bbox rd rd' rd1 :
  check_bbox bbox rd = Accepted rd1 -> exists rd1', check_bbox bbox rd' = Accepted rd1'.
Proof.
  destruct (check_bbox bbox rd') as [error | rd1'] eqn:E; [| eauto].
  rewrite (check_bbox_any_request bbox rd' rd error E). discriminate.
Qed.

Lemma check_resolution_any_request resolution rd rd' error :
  check_resolution resolution rd = Rejected error ->
  check_resolution resolution rd' = Rejected error.
Proof.
  unfold check_resolution. destruct resolution as [r |]; [| discriminate].
  destruct (float_of_val r) as [res | e]; [| intros H; exact H].
  destruct (negb _); [intros H; exact H | discriminate].
Qed.

Lemma query_grid_unchecked w date_str bbox resolution api_url t error :
  dir_ready w t ->
  check_bbox bbox [] = Rejected error \/
  ((exists rd, check_bbox bbox [] = Accepted rd)
   /\ check_resolution resolution [] = Rejected error) ->
  exists e t',
    query_grid w date_str bbox resolution api_url t = (Ret (GridFailure None e), t') /\
    (e = E_date \/ e = error) /\ posts t' = posts t /\ writes t' = writes t.
Proof.
  intros Hdir Hrej.
  pose proof (query_grid_run w date_str bbox resolution api_url t) as R.
  rewrite (ensure_dir_eq w t Hdir) in R.
  destruct (strptime_ymd date_str).
  2:{ do 2 eexists. split; [exact R |]. split; [left; reflexivity |].
      rewrite posts_snoc_print, writes_snoc_print, after_dir_posts, writes_after_dir.
      split; reflexivity. }
  destruct Hrej as [Hb | [[rd Hb] Hr]].
  - rewrite (check_bbox_any_request bbox [] _ error Hb) in R.
    do 2 eexists. split; [exact R |]. split; [right; reflexivity |].
    rewrite after_dir_posts, writes_after_dir. split; reflexivity.
  - destruct (check_bbox_any_accept bbox [] [("date", JStr date_str)] rd Hb) as [rd1 Hb1].
    rewrite Hb1, (check_resolution_any_request resolution [] rd1 error Hr) in R.
    do 2 eexists. split; [exact R |]. split; [right; reflexivity |].
    rewrite after_dir_posts, writes_after_dir. split; reflexivity.
Qed.

Lemma query_dates_loop_unchecked w n bbox resolution api_url error :
  (forall t, dir_ready w t) ->
  check_bbox bbox [] = Rejected error \/
  ((exists rd, check_bbox bbox [] = Accepted rd)
   /\ check_resolution resolution [] = Rejected error) ->
  forall dates i acc t,
  exists rs t',
    query_dates_loop w n bbox resolution api_url i dates acc t
    = (Ret (Tally (total acc) (successful acc) (failed acc + len dates)
                  (results acc ++ rs)), t') /\
    Forall (fun r => r = GridFailure None E_date \/ r = GridFailure None error) rs /\
    posts t' = posts t /\ writes t' = writes t.
Proof.
  intros Hdir Hrej. induction dates as [| date_str rest IH]; intros i acc t.
  - exists [], t. cbn [query_dates_loop]. unfold ret, len. cbn [List.length Z.of_nat].
    rewrite Z.add_0_r, app_nil_r. destruct acc. repeat split. constructor.
  - cbn [query_dates_loop]. unfold bind at 1. unfold print at 1, emit at 1.
    unfold bind at 1.
    destruct (query_grid_unchecked w date_str bbox resolution api_url
                (t ++ [EvPrint (newline +++ "[" +++ str_of_Z i +++ "/" +++ str_of_Z n
                                +++ "] Processing date: " +++ date_str)])
                error (Hdir _) Hrej) as (e & t1 & E & He & P & W).
    rewrite E. cbn [success].
    match goal with
    | |- context [query_dates_loop w n bbox resolution api_url (i + 1) rest ?a t1] =>
        destruct (IH (i + 1) a t1) as (rs & t2 & E2 & F & P2 & W2)
    end.
    rewrite E2. exists (GridFailure None e :: rs), t2.
    cbn [total successful failed results].
    split; [| split; [| split]].
    + rewrite <- app_assoc. unfold len. cbn [List.length app].
      do 3 f_equal. lia.
    + constructor; [| exact F]. destruct He as [-> | ->]; [left | right]; reflexivity.
    + rewrite P2, P. apply posts_snoc_print.
    + rewrite W2, W. apply writes_snoc_print.
Qed.

(** X16.  A run whose bbox or resolution is refused.  With the output
    directory in place and a first line that can be put together, the
    run still goes through every date: each result is a failure without
    a status, with the text of the refused check (or of the date check,
    which comes first), the failure counter is the number of dates, and
    nothing is sent or written. *)
Theorem query_multiple_dates_refused w date_list bbox resolution api_url t error :
  (forall t', dir_ready w t') -> header_renders bbox resolution ->
  check_bbox bbox [] = Rejected error \/
  ((exists rd, check_bbox bbox [] = Accepted rd)
   /\ check_resolution resolution [] = Rejected error) ->
  exists acc t',
    query_multiple_dates w date_list bbox resolution api_url t = (Ret acc, t') /\
    successful acc = 0 /\ failed acc = len date_list /\
    List.length (results acc) = List.length date_list /\
    Forall (fun r => r = GridFailure None E_date \/ r = GridFailure None error)
           (results acc) /\
    posts t' = posts t /\ writes t' = writes t.
Proof.
  intros Hdir Hhead Hrej.
  destruct (query_multiple_dates_eq w date_list bbox resolution api_url t Hhead)
    as (t0 & P0 & W0 & H).
  destruct (query_dates_loop_unchecked w (len date_list) bbox resolution api_url error
              Hdir Hrej date_list 1 (Tally (len date_list) 0 0 []) t0)
    as (rs & t1 & E & F & P & W).
  destruct (query_dates_loop_tally w (len date_list) bbox resolution api_url Hdir
              date_list 1 (Tally (len date_list) 0 0 []) t0)
    as (rs' & ts' & t1' & E' & L & _).
  rewrite E in E'. injection E' as _ _ Hrs _.
  cbn [results app] in Hrs. subst rs'.
  destruct (H _ _ E) as (t' & Eq & P' & W').
  eexists. exists t'. split; [exact Eq |].
  cbn [total successful failed results app].
  split; [reflexivity |]. split; [lia |]. split; [exact L |]. split; [exact F |].
  split; [rewrite P', P; exact P0 | rewrite W', W; exact W0].
Qed.

Lemma query_multiple_dates_refused_witness :
  exists acc t',
    query_multiple_dates calm_world ["2024-03-01"; "2024-03-02"]
                         (int_bbox 10 20 5 30) None DEFAULT_API_URL [] = (Ret acc, t') /\
    successful acc = 0 /\ failed acc = 2 /\ posts t' = [].
Proof.
  destruct (query_multiple_dates_refused calm_world ["2024-03-01"; "2024-03-02"]
              (int_bbox 10 20 5 30) None DEFAULT_API_URL [] E_order)
    as (acc & t' & E & Hs & Hf & _ & _ & P & _).
  - intros t'. left. reflexivity.
  - split; eexists; vm_compute; reflexivity.
  - left. vm_compute. reflexivity.
  - exists acc, t'. split; [exact E |]. split; [exact Hs |]. split; [exact Hf | exact P].
Defined.

(** X17.  A run that cannot make its directory.  When the output directory
    is missing and cannot be created, a run over a list that is not
    empty, whose first line can be put together, raises the exception of
    [makedirs] at its first date: no summary is returned and nothing is
    sent. *)
Theorem query_multiple_dates_directory_error w date_str rest bbox resolution api_url t e :
  (forall t', w_path_exists w t' GRID_OUTPUT_DIR = false) ->
  (forall t', w_makedirs w t' GRID_OUTPUT_DIR = Raise e) ->
  header_renders bbox resolution ->
  exists t',
    query_multiple_dates w (date_str :: rest) bbox resolution api_url t = (Raise e, t') /\
    posts t' = posts t.
Proof.
  intros Hx Hm [(b & Hb) (r0 & Hr0)]. unfold query_multiple_dates.
  unfold bind at 1, lift at 1. rewrite Hb. unfold bind at 1, lift at 1. rewrite Hr0.
  unfold bind at 1. unfold print at 1, emit at 1. unfold bind at 1.
  cbn [query_dates_loop]. unfold bind at 1. unfold print at 1, emit at 1.
  unfold bind at 1.
  rewrite (query_grid_stops w date_str bbox resolution api_url _ e (Hx _) (Hm _)).
  eexists. split; [reflexivity |].
  rewrite posts_app, !posts_snoc_print. apply app_nil_r.
Qed.

Lemma query_multiple_dates_directory_error_witness :
  exists t',
    query_multiple_dates (no_dir_world (Exn OSError "Read-only file system"))
                         ["2024-03-01"; "2024-03-02"] None None DEFAULT_API_URL []
    = (Raise (Exn OSError "Read-only file system"), t') /\
    posts t' = posts [].
Proof.
  apply (query_multiple_dates_directory_error
           (no_dir_world (Exn OSError "Read-only file system"))
           "2024-03-01" ["2024-03-02"] None None DEFAULT_API_URL []
           (Exn OSError "Read-only file system"));
    [intros; reflexivity | intros; reflexivity | split; eexists; reflexivity].
Defined.

(** ** The regions on offer *)

(** X18.  The regions pass the checks.  Each bbox that
    [get_common_bbox_regions] offers has four corners, lies within the
    longitude and latitude bounds and is ordered: [query_grid] accepts it
    and sends the four numbers as they are. *)
Theorem common_regions_accepted (repr : Q -> string) name corners rd :
  In (name, corners) get_common_bbox_regions ->
  check_bbox (Some (region_bbox repr corners)) rd
  = Accepted (rd ++ [("bbox", JList (map (fun q => JNum (FFin q)) corners))]).
Proof.
  unfold get_common_bbox_regions. cbn [In].
  intros H. repeat (destruct H as [H | H]; [injection H as <- <-; reflexivity |]).
  contradiction.
Qed.

Lemma common_regions_accepted_witness :
  check_bbox (Some (region_bbox (fun _ => "x") [-82; 24; -79; 26]%Q)) []
  = Accepted ([] ++ [("bbox", JList (map (fun q => JNum (FFin q)) [-82; 24; -79; 26]%Q))]).
Proof.
  apply (common_regions_accepted (fun _ => "x") "florida_straits" [-82; 24; -79; 26]%Q []).
  cbn. tauto.
Defined.

End GridRunFacts.

Import GridRunFacts.

(* ================================================================== *)
(** * [profile.py]: what a run does *)
(* ================================================================== *)

Module ProfileRunFacts.

(** ** One request *)

Lemma fetch_predictions_writes (w : world) (lat lon date : json)
  (filename : string) (api_url : option string) (t : trace) :
  writes (snd (fetch_predictions w lat lon date filename api_url t))
  = writes t
    ++ match w_post w (before_post api_url t)
                    (profile_request (effective_url api_url) (payload lat lon date)) with
       | Ret resp =>
           if (status_code resp =? 200) && content_type_ok resp
           then [(filename, content resp)] else []
       | Raise _ => []
       end.
Proof.
  rewrite fetch_predictions_eq.
  destruct (before_post_shows api_url t) as (W & _).
  set (rq := profile_request _ _). set (t1 := before_post api_url t) in *.
  clearbody t1 rq.
  destruct (w_post w t1 rq) as [resp | exc]; cbn [snd].
  2:{ autorewrite with shows. rewrite W, app_nil_r. reflexivity. }
  destruct (status_code resp =? 200); cbn [negb andb snd].
  2:{ autorewrite with shows. rewrite W, app_nil_r. reflexivity. }
  destruct (content_type_ok resp); cbn [negb snd].
  2:{ autorewrite with shows. rewrite W, app_nil_r. reflexivity. }
  destruct (w_write_file w (t1 ++ [EvPost rq]) filename (content resp)); cbn [snd];
    autorewrite with shows; rewrite W; reflexivity.
Qed.

(** X19.  What one request leaves on disk.  [fetch_predictions] opens a
    file only for an answer with status 200 whose content type starts
    with [application/x-netcdf]; it is then the file [filename], and it
    is handed the body of the answer.  In every other case nothing is
    written.  The deprecation warning is issued once when the URL in use
    ends with [/predict], and not otherwise. *)
Theorem fetch_predictions_saves (w : world) (lat lon date : json)
  (filename : string) (api_url : option string) (t : trace) :
  let rq := profile_request (effective_url api_url) (payload lat lon date) in
  let t1 := before_post api_url t in
  let t' := snd (fetch_predictions w lat lon date filename api_url t) in
  writes t'
  = writes t
    ++ match w_post w t1 rq with
       | Ret resp =>
           if (status_code resp =? 200) && content_type_ok resp
           then [(filename, content resp)] else []
       | Raise _ => []
       end
  /\ warnings t'
     = warnings t
       ++ (if endswith (effective_url api_url) "/predict"
           then ["You are using the deprecated /predict endpoint. Use /v1/profile."]
           else []).
Proof.
  intros rq t1 t'. subst t' rq t1. split; [apply fetch_predictions_writes |].
  rewrite fetch_predictions_eq.
  destruct (before_post_shows api_url t) as (_ & _ & _ & Wa).
  set (rq := profile_request _ _). set (t1 := before_post api_url t) in *.
  rewrite <- Wa. clearbody t1 rq.
  destruct (w_post w t1 rq) as [resp | exc]; cbn [snd]; [| observe; reflexivity].
  destruct (negb (status_code resp =? 200)); cbn [snd]; [observe; reflexivity |].
  destruct (negb (content_type_ok resp)); cbn [snd]; [observe; reflexivity |].
  destruct (w_write_file w (t1 ++ [EvPost rq]) filename (content resp)); cbn [snd];
    observe; reflexivity.
Qed.

(** X20.  The endpoint in use.  Without a URL, or with the empty string as
    the URL, the request goes to the default endpoint,
    [http://localhost:5000/v1/profile], and no deprecation warning is
    issued. *)
Theorem fetch_predictions_default_endpoint (w : world) (lat lon date : json)
  (filename : string) (api_url : option string) (t : trace) :
  api_url = None \/ api_url = Some EmptyString ->
  let t' := snd (fetch_predictions w lat lon date filename api_url t) in
  posts t' = posts t ++ [profile_request DEFAULT_API (payload lat lon date)] /\
  warnings t' = warnings t.
Proof.
  intros Hu t'. subst t'.
  assert (Eu : effective_url api_url = DEFAULT_API) by (destruct Hu as [-> | ->]; reflexivity).
  destruct (fetch_predictions_posts w lat lon date filename api_url t) as (r & t' & E & _ & P).
  rewrite E. cbn [snd]. rewrite Eu in P. split; [exact P |].
  rewrite fetch_predictions_eq in E.
  assert (Eb : before_post api_url t = t).
  { unfold before_post. rewrite Eu. reflexivity. }
  rewrite Eb, Eu in E.
  destruct (w_post w t _) as [resp | exc].
  2:{ injection E as _ <-. observe. reflexivity. }
  destruct (negb (status_code resp =? 200)).
  { injection E as _ <-. observe. reflexivity. }
  destruct (negb (content_type_ok resp)).
  { injection E as _ <-. observe. reflexivity. }
  destruct (w_write_file w _ filename (content resp));
    injection E as _ <-; observe; reflexivity.
Qed.

Lemma fetch_predictions_default_endpoint_witness :
  posts (snd (fetch_predictions calm_world (JList []) (JList []) (JList []) "output.nc"
                                (Some EmptyString) []))
  = posts [] ++ [profile_request DEFAULT_API (payload (JList []) (JList []) (JList []))].
Proof.
  apply (fetch_predictions_default_endpoint calm_world (JList []) (JList []) (JList [])
           "output.nc" (Some EmptyString) []).
  right. reflexivity.
Defined.



(** ** The batches of a run *)

Lemma served_all w t rq f :
  all_served w ->
  served w t rq f = true /\ exists data, saved (w_post w t rq) f = [(f, data)].
Proof.
  intros [Hpost Hwrite]. unfold served, saved.
  destruct (Hpost t rq) as (resp & -> & Hs & Hc).
  rewrite Hs, Hc, Hwrite. split; [reflexivity | eexists; reflexivity].
Qed.

Lemma served_none w t rq f :
  none_served w -> served w t rq f = false /\ saved (w_post w t rq) f = [].
Proof.
  intros Hnone. unfold served, saved. pose proof (Hnone t rq) as Hn.
  destruct (w_post w t rq) as [resp | exc]; [| split; reflexivity].
  rewrite (Hn resp eq_refl). split; reflexivity.
Qed.

Section Answers.

Variable w : world.
Variable api_url : option string.
Hypothesis Hsync : w_running_loop w = false.

Lemma for_each_served total bs :
  all_served w -> Forall (fun b => truthy (Some (b_filename b)) = true) bs ->
  forall files t,
  exists t',
    for_each (process_batch w api_url total) bs files t
    = (Ret (Returned (files ++ map b_filename bs)), t') /\
    map fst (writes t') = map fst (writes t) ++ map b_filename bs.
Proof.
  intros Hall. induction bs as [| b bs IH]; intros Hnames files t.
  - exists t. cbn. rewrite !app_nil_r. split; reflexivity.
  - inversion Hnames as [| ? ? Hb Hrest]; subst.
    cbn [for_each]. unfold bind at 1.
    destruct (process_batch_sync w api_url total files b t Hsync Hb)
      as (t0 & t1 & E & _ & W & _).
    destruct (served_all w t0 (batch_request api_url b) (b_filename b) Hall)
      as (Hs & data & Hd).
    rewrite Hs in E. rewrite Hd in W. rewrite E.
    destruct (IH Hrest (files ++ [b_filename b]) t1) as (t2 & E2 & W2).
    rewrite E2. exists t2. cbn [map]. rewrite <- app_assoc. split; [reflexivity |].
    rewrite W2, W, map_app. cbn [map fst]. rewrite <- app_assoc. reflexivity.
Qed.

Lemma for_each_unserved total bs :
  none_served w -> Forall (fun b => truthy (Some (b_filename b)) = true) bs ->
  forall files t,
  exists t',
    for_each (process_batch w api_url total) bs files t = (Ret (Returned files), t') /\
    writes t' = writes t /\ opens t' = opens t /\ netcdf_writes t' = netcdf_writes t.
Proof.
  intros Hnone. induction bs as [| b bs IH]; intros Hnames files t.
  - exists t. repeat split; reflexivity.
  - inversion Hnames as [| ? ? Hb Hrest]; subst.
    cbn [for_each]. unfold bind at 1.
    destruct (process_batch_sync w api_url total files b t Hsync Hb)
      as (t0 & t1 & E & _ & W & O & N).
    destruct (served_none w t0 (batch_request api_url b) (b_filename b) Hnone) as (Hs & Hd).
    rewrite Hs in E. rewrite Hd, app_nil_r in W. rewrite E.
    destruct (IH Hrest files t1) as (t2 & E2 & W2 & O2 & N2).
    rewrite E2. exists t2. split; [reflexivity |].
    rewrite W2, O2, N2. repeat split; assumption.
Qed.

(** The loop when the answer to the request of a batch does not depend
    on the moment. *)
Lemma for_each_answered total (answer : batch -> result response) bs :
  Forall (fun b => truthy (Some (b_filename b)) = true) bs ->
  (forall b t, In b bs -> w_post w t (batch_request api_url b) = answer b) ->
  forall files t,
  exists files' t',
    for_each (process_batch w api_url total) bs files t = (Ret (Returned files'), t') /\
    writes t' = writes t ++ flat_map (fun b => saved (answer b) (b_filename b)) bs.
Proof.
  induction bs as [| b bs IH]; intros Hnames Hans files t.
  - exists files, t. cbn. rewrite app_nil_r. split; reflexivity.
  - cbn [for_each]. unfold bind at 1.
    destruct (process_batch_sync w api_url total files b t Hsync (Forall_inv Hnames))
      as (t0 & t1 & E & _ & W & _).
    rewrite (Hans b t0 (or_introl eq_refl)) in W. rewrite E.
    destruct (IH (Forall_inv_tail Hnames) (fun b' t' Hb => Hans b' t' (or_intror Hb))
                 (if served w t0 (batch_request api_url b) (b_filename b)
                  then files ++ [b_filename b] else files) t1)
      as (files' & t2 & E2 & W2).
    rewrite E2. exists files', t2. split; [reflexivity |].
    rewrite W2, W. cbn [flat_map]. rewrite <- app_assoc. reflexivity.
Qed.

End Answers.

(** X22.  A run in which every request is served.  Take a run from a
    thread without an event loop, with inputs that convert to lists and a
    batch size other than zero that [str] renders.  When every request is
    answered with 200 and a NetCDF content type and every write goes
    through, every batch counts as successful: the files written by the
    loop are the batch files, one per batch and in order, and the code
    after the loop receives all their names; without merging it returns
    them, the single name as it is when there is one batch. *)
Theorem batch_run_all_served w lat0 lon0 date0 B prefix api_url merge_output t
  (lat lon : list fvalue) (date : list string) :
  w_running_loop w = false ->
  preprocess_inputs (w_platform w) lat0 lon0 date0 = Ret (FList lat, FList lon, date) ->
  B <> 0 -> Z.abs B < 10 ^ INT_MAX_STR_DIGITS -> all_served w ->
  exists bs tl,
    batches lat lon date B prefix = Ret bs /\
    get_predictions_batch w lat0 lon0 date0 B prefix api_url merge_output t
    = returning (finish w merge_output prefix (map b_filename bs)) tl /\
    map fst (writes tl) = map fst (writes t) ++ map b_filename bs /\
    (merge_output = false ->
     fst (get_predictions_batch w lat0 lon0 date0 B prefix api_url merge_output t)
     = Ret (Returned (match bs with
                      | [b] => OutFile (b_filename b)
                      | _ => OutFiles (map b_filename bs)
                      end))).
Proof.
  intros Hsync Hpre HB0 HB Hall.
  destruct (batches_returns lat lon date B prefix HB0) as (bs & Hbs).
  pose proof (get_predictions_batch_eq w lat0 lon0 date0 B prefix api_url merge_output t
                lat lon date bs Hpre HB Hbs) as E.
  destruct (for_each_served w api_url Hsync (len lat) bs Hall
              (batches_made _ _ _ _ _ _ Hbs) []
              (t ++ [EvPrint ("Processing " +++ str_of_Z (len lat)
                              +++ " points in batches of " +++ str_of_Z B)]))
    as (tl & El & Wl).
  rewrite El in E. cbn [app] in E.
  exists bs. eexists. split; [exact Hbs |]. split; [exact E |].
  split; [rewrite writes_snoc_print, Wl, writes_snoc_print; reflexivity |].
  intros ->. rewrite E. unfold returning, bind.
  match goal with
  | |- context [finish w false prefix ?fs ?t0] =>
      destruct (finish_cases w false prefix fs t0) as (_ & C2 & C3 & C4)
  end.
  destruct bs as [| b [| b' bs]].
  - rewrite (C3 eq_refl). reflexivity.
  - rewrite (C2 (b_filename b) eq_refl). reflexivity.
  - rewrite (C4 eq_refl); [reflexivity |]. cbn. lia.
Qed.

Lemma batch_run_all_served_witness :
  exists bs tl,
    batches [FFin 10; FFin 20; FFin 30] [FFin 1; FFin 2; FFin 3]
            ["2023-04-25"; "2023-04-26"; "2023-04-27"] 2 "output" = Ret bs /\
    get_predictions_batch calm_world (CoordInt [10; 20; 30]) (CoordInt [1; 2; 3])
      (DatesInt [739000; 739001; 739002]) 2 "output" None false []
    = returning (finish calm_world false "output" (map b_filename bs)) tl /\
    map fst (writes tl) = map fst (writes []) ++ map b_filename bs.
Proof.
  destruct (batch_run_all_served calm_world (CoordInt [10; 20; 30]) (CoordInt [1; 2; 3])
              (DatesInt [739000; 739001; 739002]) 2 "output" None false []
              [FFin 10; FFin 20; FFin 30] [FFin 1; FFin 2; FFin 3]
              ["2023-04-25"; "2023-04-26"; "2023-04-27"])
    as (bs & tl & Hbs & E & W & _).
  - reflexivity.
  - vm_compute. reflexivity.
  - discriminate.
  - vm_compute. reflexivity.
  - split.
    + intros t rq. exists netcdf_response. repeat split; reflexivity.
    + intros; reflexivity.
  - exists bs, tl. split; [exact Hbs |]. split; [exact E | exact W].
Defined.

(** X23.  A run in which no request is served.  Take a run from a thread
    without an event loop, with inputs that convert to lists and a batch
    size other than zero that [str] renders.  When every request raises
    or is answered with another status or another content type, the run
    returns the empty list, whether merging was requested or not; no
    file is written and the merge step opens and writes nothing. *)
Theorem batch_run_none_served w lat0 lon0 date0 B prefix api_url merge_output t
  (lat lon : list fvalue) (date : list string) :
  w_running_loop w = false ->
  preprocess_inputs (w_platform w) lat0 lon0 date0 = Ret (FList lat, FList lon, date) ->
  B <> 0 -> Z.abs B < 10 ^ INT_MAX_STR_DIGITS -> none_served w ->
  exists t',
    get_predictions_batch w lat0 lon0 date0 B prefix api_url merge_output t
    = (Ret (Returned (OutFiles [])), t') /\
    writes t' = writes t /\ opens t' = opens t /\ netcdf_writes t' = netcdf_writes t.
Proof.
  intros Hsync Hpre HB0 HB Hnone.
  destruct (batches_returns lat lon date B prefix HB0) as (bs & Hbs).
  rewrite (get_predictions_batch_eq w lat0 lon0 date0 B prefix api_url merge_output t
             lat lon date bs Hpre HB Hbs).
  destruct (for_each_unserved w api_url Hsync (len lat) bs Hnone
              (batches_made _ _ _ _ _ _ Hbs) []
              (t ++ [EvPrint ("Processing " +++ str_of_Z (len lat)
                              +++ " points in batches of " +++ str_of_Z B)]))
    as (tl & El & Wl & Ol & Nl).
  rewrite El. unfold returning, bind.
  match goal with
  | |- context [finish w merge_output prefix [] ?t0] =>
      destruct (finish_cases w merge_output prefix [] t0) as (_ & _ & C3 & _)
  end.
  rewrite (C3 eq_refl). eexists. split; [reflexivity |].
  autorewrite with shows. rewrite Wl, Ol, Nl. autorewrite with shows.
  repeat split; reflexivity.
Qed.

Lemma batch_run_none_served_witness :
  exists t',
    get_predictions_batch
      (steady_world (Raise (Exn RequestException "connection refused")) (Ret tt))
      (CoordInt [10; 20; 30]) (CoordInt [1; 2; 3]) (DatesInt [739000; 739001; 739002])
      2 "output" None true []
    = (Ret (Returned (OutFiles [])), t') /\
    writes t' = writes [].
Proof.
  destruct (batch_run_none_served
              (steady_world (Raise (Exn RequestException "connection refused")) (Ret tt))
              (CoordInt [10; 20; 30]) (CoordInt [1; 2; 3])
              (DatesInt [739000; 739001; 739002]) 2 "output" None true []
              [FFin 10; FFin 20; FFin 30] [FFin 1; FFin 2; FFin 3]
              ["2023-04-25"; "2023-04-26"; "2023-04-27"])
    as (t' & E & W & _).
  - reflexivity.
  - vm_compute. reflexivity.
  - discriminate.
  - vm_compute. reflexivity.
  - intros t rq resp H. discriminate H.
  - exists t'. split; [exact E | exact W].
Defined.

Lemma batches_of_none lat lon date B prefix :
  B < 0 \/ (0 < B /\ lat = []) -> batches_of lat lon date B prefix = Ret [].
Proof.
  intros HB.
  assert (Hr : range 0 (len lat) B = Ret []).
  { unfold range. destruct HB as [HB | [HB ->]].
    - destruct (Z.eqb_spec B 0); [lia |]. destruct (Z.ltb_spec 0 B); [lia |].
      replace (Z.to_nat (0 - len lat)) with O by (unfold len; lia). reflexivity.
    - destruct (Z.eqb_spec B 0); [lia |]. destruct (Z.ltb_spec 0 B); [| lia]. reflexivity. }
  unfold batches_of, batches. destruct lon; rewrite Hr; reflexivity.
Qed.

(** X24.  A run without batches.  When the latitudes convert to a list
    and the batch size is negative and has a text, or positive with no
    point at all, the loop is not entered: the run returns the empty
    list and sends nothing, whatever the longitudes are. *)
Theorem batch_run_without_batches w lat0 lon0 date0 B prefix api_url merge_output t
  (lat : list fvalue) (lon : floats) (date : list string) :
  preprocess_inputs (w_platform w) lat0 lon0 date0 = Ret (FList lat, lon, date) ->
  Z.abs B < 10 ^ INT_MAX_STR_DIGITS ->
  B < 0 \/ (0 < B /\ lat = []) ->
  exists t',
    get_predictions_batch w lat0 lon0 date0 B prefix api_url merge_output t
    = (Ret (Returned (OutFiles [])), t') /\
    posts t' = posts t /\ writes t' = writes t.
Proof.
  intros Hpre HB Hnone.
  unfold get_predictions_batch.
  unfold bind at 1, lift at 1. rewrite Hpre.
  unfold bind at 1, lift at 1. rewrite (str_int_small B HB).
  unfold bind at 1. unfold print at 1, emit at 1.
  unfold bind at 1, lift at 1. rewrite (batches_of_none lat lon date B prefix Hnone).
  unfold bind at 1. cbn [for_each]. unfold ret at 1.
  unfold bind at 1. unfold print at 1, emit at 1. unfold bind at 1.
  match goal with
  | |- context [finish w merge_output prefix [] ?t0] =>
      destruct (finish_cases w merge_output prefix [] t0) as (_ & _ & C3 & _)
  end.
  rewrite (C3 eq_refl). eexists. split; [reflexivity |].
  autorewrite with shows. split; reflexivity.
Qed.

Lemma batch_run_without_batches_witness :
  exists t',
    get_predictions_batch calm_world (CoordInt [10; 20; 30]) (CoordFloatScalar (FFin 1))
      (DatesInt [739000; 739001; 739002]) (-1) "output" None true []
    = (Ret (Returned (OutFiles [])), t') /\
    posts t' = posts [] /\ writes t' = writes [].
Proof.
  apply (batch_run_without_batches calm_world (CoordInt [10; 20; 30])
           (CoordFloatScalar (FFin 1))
           (DatesInt [739000; 739001; 739002]) (-1) "output" None true []
           [FFin 10; FFin 20; FFin 30] (FScalar (FFin 1))
           ["2023-04-25"; "2023-04-26"; "2023-04-27"]).
  - vm_compute. reflexivity.
  - vm_compute. reflexivity.
  - left. lia.
Defined.

(** ** How the points are cut *)

Lemma concat_slices_upto {A} (l : list A) (B N : Z) : 0 < B -> 0 <= N ->
  forall m : nat,
  List.concat (map (fun i => slice l (Z.of_nat i * B) (Z.min (Z.of_nat i * B + B) N))
                   (seq 0 m))
  = firstn (Z.to_nat (Z.min (Z.of_nat m * B) N)) l.
Proof.
  intros HB HN. induction m as [| m IH].
  - cbn [seq map List.concat]. replace (Z.to_nat _) with O by lia. reflexivity.
  - rewrite seq_S, map_app, concat_app, IH. cbn [map List.concat Nat.add]. rewrite app_nil_r.
    destruct (Z.le_gt_cases (Z.of_nat m * B) N) as [Hle | Hgt].
    + rewrite (Z.min_l (Z.of_nat m * B)) by lia.
      rewrite firstn_slice by lia. f_equal. f_equal. lia.
    + rewrite (Z.min_r (Z.of_nat m * B)) by lia.
      rewrite (Z.min_r (Z.of_nat (S m) * B)) by lia.
      rewrite (Z.min_r (Z.of_nat m * B + B)) by lia.
      unfold slice. rewrite skipn_all2; [apply app_nil_r |].
      rewrite length_firstn. lia.
Qed.

Lemma slice_length {A} (l : list A) (a b : Z) :
  0 <= a <= b -> b <= len l -> len (slice l a b) = b - a.
Proof.
  intros Ha Hb. unfold slice, len in *. rewrite length_skipn, length_firstn. lia.
Qed.

(** X25.  The batches follow the latitudes alone.  For a positive batch
    size the cut points come from the number of latitudes; the longitudes
    and the dates are sliced at the same indices without any check of
    their lengths.  Put end to end, the longitudes and dates of the
    batches are the first [len lat] entries of each input: entries beyond
    are sent in no request, and missing ones are not noticed. *)
Theorem batches_follow_latitudes (lat lon : list fvalue) (date : list string)
  (B : Z) (prefix : string) (bs : list batch) :
  0 < B -> batches lat lon date B prefix = Ret bs ->
  List.concat (map b_lon bs) = firstn (List.length lat) lon /\
  List.concat (map b_date bs) = firstn (List.length lat) date.
Proof.
  intros HB Hbs. rewrite (batches_eq lat lon date B prefix HB) in Hbs.
  injection Hbs as <-.
  assert (HN : 0 <= len lat) by (unfold len; lia).
  destruct (ceil_div_covers (len lat) B HB HN) as [Hcov Hc0].
  rewrite !map_map. unfold make_batch. cbn [b_lon b_date].
  rewrite !concat_slices_upto by assumption.
  rewrite Z2Nat.id by assumption. rewrite Z.min_r by lia.
  unfold len. rewrite Nat2Z.id. split; reflexivity.
Qed.

Lemma batches_follow_latitudes_witness :
  List.concat (map b_lon
     [make_batch [FFin 10; FFin 20; FFin 30] [FFin 1; FFin 2; FFin 3; FFin 4; FFin 5]
                 ["a"] 3 2 "output" 0;
      make_batch [FFin 10; FFin 20; FFin 30] [FFin 1; FFin 2; FFin 3; FFin 4; FFin 5]
                 ["a"] 3 2 "output" 2])
  = firstn 3 [FFin 1; FFin 2; FFin 3; FFin 4; FFin 5]
  /\
  List.concat (map b_date
     [make_batch [FFin 10; FFin 20; FFin 30] [FFin 1; FFin 2; FFin 3; FFin 4; FFin 5]
                 ["a"] 3 2 "output" 0;
      make_batch [FFin 10; FFin 20; FFin 30] [FFin 1; FFin 2; FFin 3; FFin 4; FFin 5]
                 ["a"] 3 2 "output" 2])
  = firstn 3 ["a"].
Proof.
  apply (batches_follow_latitudes [FFin 10; FFin 20; FFin 30]
           [FFin 1; FFin 2; FFin 3; FFin 4; FFin 5] ["a"] 2 "output").
  - lia.
  - reflexivity.
Defined.

(** X26.  The size of a batch.  For a positive batch size [B] every batch
    carries at least one latitude and at most [B]; every batch but the
    last carries exactly [B]. *)
Theorem batch_sizes (lat lon : list fvalue) (date : list string)
  (B : Z) (prefix : string) (bs : list batch) (k : nat) (b : batch) :
  0 < B -> batches lat lon date B prefix = Ret bs -> nth_error bs k = Some b ->
  1 <= len (b_lat b) <= B /\
  (Z.of_nat k + 1 < len bs -> len (b_lat b) = B).
Proof.
  intros HB Hbs Hk.
  destruct (batches_cover lat lon date B prefix HB) as (bs' & Hbs' & Hlen & Hbound & Hnth & _).
  rewrite Hbs in Hbs'. injection Hbs' as <-.
  assert (Hlt : (k < List.length bs)%nat) by (apply nth_error_Some; congruence).
  destruct (Hnth k Hlt) as (b' & Hb' & Hs & He & Hl & _).
  rewrite Hk in Hb'. injection Hb' as <-.
  unfold len in Hbound, Hlen |- *. fold (len lat) in *. fold (len (b_lat b)).
  assert (Hkb : Z.of_nat k * B < len lat).
  { assert (Z.of_nat k * B <= (Z.of_nat (List.length bs) - 1) * B) by nia. lia. }
  rewrite Hl, slice_length; rewrite ?Hs, ?He; try lia.
  split; [lia |]. intros Hnl.
  assert ((Z.of_nat k + 1) * B <= (Z.of_nat (List.length bs) - 1) * B) by nia. lia.
Qed.

Lemma batch_sizes_witness :
  1 <= len (b_lat (make_batch [FFin 10; FFin 20; FFin 30] [] [] 3 2 "output" 2)) <= 2.
Proof.
  apply (batch_sizes [FFin 10; FFin 20; FFin 30] [] [] 2 "output"
           [make_batch [FFin 10; FFin 20; FFin 30] [] [] 3 2 "output" 0;
            make_batch [FFin 10; FFin 20; FFin 30] [] [] 3 2 "output" 2] 1%nat).
  - lia.
  - reflexivity.
  - reflexivity.
Defined.

(** ** The merge step, whatever happens *)

Lemma closes_app a b : closes (a ++ b) = closes a ++ closes b.
Proof. apply flat_map_app. Qed.

Lemma closes_map datasets : closes (map EvCloseDataset datasets) = datasets.
Proof.
  induction datasets as [| ds rest IH]; [reflexivity |].
  cbn [map]. change (closes (EvCloseDataset ds :: map EvCloseDataset rest))
    with (ds :: closes (map EvCloseDataset rest)). rewrite IH. reflexivity.
Qed.

Lemma others_map_close datasets :
  opens (map EvCloseDataset datasets) = [] /\
  netcdf_writes (map EvCloseDataset datasets) = [] /\
  writes (map EvCloseDataset datasets) = [].
Proof. induction datasets as [| ds rest IH]; [repeat split | exact IH]. Qed.

Lemma open_all_shows w n files : forall i datasets t,
  exists dss r t' (k : nat),
    open_all w n i files datasets t = (Ret (datasets ++ dss, r), t') /\
    opens t' = opens t ++ firstn k files /\
    closes t' = closes t /\ netcdf_writes t' = netcdf_writes t /\ writes t' = writes t /\
    match r with
    | Ret _ => k = List.length files /\ List.length dss = List.length files
    | Raise _ => k = S (List.length dss) /\ (k <= List.length files)%nat
    end.
Proof.
  induction files as [| f rest IH]; intros i datasets t.
  - exists [], (Ret tt), t, O. cbn [open_all]. unfold ret. rewrite !app_nil_r.
    repeat split; reflexivity.
  - cbn [open_all]. run_io.
    destruct (w_open_dataset w _ f) as [ds | e].
    + destruct (IH (i + 1) (datasets ++ [ds])
                   ((t ++ [EvPrint ("  Loading file " +++ str_of_Z (i + 1) +++ "/"
                                    +++ str_of_Z n +++ ": " +++ f)])
                    ++ [EvOpenDataset f])) as (dss & r & t' & k & E & O & C & N & W & H).
      rewrite E. exists (ds :: dss), r, t', (S k).
      split; [rewrite <- app_assoc; reflexivity |].
      rewrite O, C, N, W. observe. rewrite <- app_assoc.
      repeat split; try reflexivity.
      destruct r; cbn [List.length]; lia.
    + exists [], (Raise e). eexists. exists 1%nat. rewrite app_nil_r.
      split; [reflexivity |]. observe.
      repeat split; try reflexivity. cbn [List.length]. lia.
Qed.

(** What the merge step shows on every path: it opens a prefix of the
    list, closes what it opened, hands at most one dataset to
    [to_netcdf], and writes no file otherwise. *)
Lemma merge_shows (w : world) (files : list string) (out : string) (t : trace) :
  exists r t' dss (k : nat),
    merge_netcdf_files w files out t = (Ret r, t') /\
    opens t' = opens t ++ firstn k files /\
    closes t' = closes t ++ dss /\
    (List.length dss = k \/ S (List.length dss) = k) /\
    (netcdf_writes t' = netcdf_writes t \/
     exists ds, netcdf_writes t' = netcdf_writes t ++ [(out, ds)]
                /\ List.length dss = List.length files) /\
    writes t' = writes t /\
    (r = None \/ (r = Some out /\ exists ds, netcdf_writes t' = netcdf_writes t ++ [(out, ds)])) /\
    (w_xarray_installed w = false \/ files = [] -> r = None /\ k = O /\ dss = []).
Proof.
  unfold merge_netcdf_files.
  destruct (w_xarray_installed w) eqn:Hx; cbn [negb].
  2:{ run_io. exists None. eexists. exists [], O. split; [reflexivity |].
      observe. repeat split; auto. }
  destruct files as [| f rest].
  { run_io. exists None. eexists. exists [], O. split; [reflexivity |].
    observe. repeat split; auto. }
  unfold bind at 1. unfold print at 1, emit at 1.
  unfold bind at 1.
  destruct (open_all_shows w (len (f :: rest)) (f :: rest) 0 []
              (t ++ [EvPrint ("Merging " +++ str_of_Z (len (f :: rest))
                              +++ " NetCDF files into " +++ out)]))
    as (dss & r & t1 & k & E & Ho & C & N & W & H).
  rewrite E. cbn [app].
  rewrite opens_snoc_print in Ho. rewrite closes_snoc_print in C.
  rewrite netcdf_snoc_print in N. rewrite writes_snoc_print in W.
  destruct (others_map_close dss) as (Oc & Nc & Wc).
  destruct r as [[] | e].
  - destruct H as [-> Hl]. run_io. destruct (xr_concat dss) as [merged | e].
    + destruct (w_to_netcdf w _ out _) as [[] | e].
      * rewrite close_all_eq. exists (Some out). eexists. exists dss, (List.length (f :: rest)).
        split; [reflexivity |].
        unfold opens, closes, netcdf_writes, writes in *.
        rewrite !flat_map_app, Ho, C, N, W, Oc, Nc, Wc. cbn [flat_map app].
        rewrite !app_nil_r. fold (closes (map EvCloseDataset dss)). rewrite closes_map.
        split; [reflexivity |]. split; [reflexivity |]. split; [left; exact Hl |].
        split; [right; eexists; split; [reflexivity | exact Hl] |].
        split; [reflexivity |].
        split; [right; split; [reflexivity | eexists; reflexivity] |].
        intros [Hc | Hc]; discriminate.
      * rewrite close_all_eq. exists None. eexists. exists dss, (List.length (f :: rest)).
        split; [reflexivity |].
        unfold opens, closes, netcdf_writes, writes in *.
        rewrite !flat_map_app, Ho, C, N, W, Oc, Nc, Wc. cbn [flat_map app].
        rewrite !app_nil_r. fold (closes (map EvCloseDataset dss)). rewrite closes_map.
        split; [reflexivity |]. split; [reflexivity |]. split; [left; exact Hl |].
        split; [right; eexists; split; [reflexivity | exact Hl] |].
        split; [reflexivity |]. split; [left; reflexivity |].
        intros [Hc | Hc]; discriminate.
    + rewrite close_all_eq. exists None. eexists. exists dss, (List.length (f :: rest)).
      split; [reflexivity |].
      unfold opens, closes, netcdf_writes, writes in *.
      rewrite !flat_map_app, Ho, C, N, W, Oc, Nc, Wc. cbn [flat_map app].
      rewrite !app_nil_r. fold (closes (map EvCloseDataset dss)). rewrite closes_map.
      split; [reflexivity |]. split; [reflexivity |]. split; [left; exact Hl |].
      split; [left; reflexivity |].
      split; [reflexivity |]. split; [left; reflexivity |].
      intros [Hc | Hc]; discriminate.
  - destruct H as [-> Hl]. run_io. rewrite close_all_eq.
    exists None. eexists. exists dss, (S (List.length dss)).
    split; [reflexivity |].
    unfold opens, closes, netcdf_writes, writes in *.
    rewrite !flat_map_app, Ho, C, N, W, Oc, Nc, Wc. cbn [flat_map app].
    rewrite !app_nil_r. fold (closes (map EvCloseDataset dss)). rewrite closes_map.
    split; [reflexivity |]. split; [reflexivity |]. split; [right; reflexivity |].
    split; [left; reflexivity |].
    split; [reflexivity |]. split; [left; reflexivity |].
    intros [Hc | Hc]; discriminate.
Qed.

Lemma open_all_stops w store n ok rest :
  (forall t' f, In f ok -> w_open_dataset w t' f = Ret (store f)) ->
  match rest with
  | [] => True
  | f :: _ => forall t', exists e, w_open_dataset w t' f = Raise e
  end ->
  forall i datasets t,
  exists r t',
    open_all w n i (ok ++ rest) datasets t = (Ret (datasets ++ map store ok, r), t') /\
    opens t' = opens t ++ ok ++ firstn 1 rest /\
    closes t' = closes t /\ netcdf_writes t' = netcdf_writes t /\ writes t' = writes t /\
    match rest with
    | [] => r = Ret tt
    | _ :: _ => exists e, r = Raise e
    end.
Proof.
  intros Hok Hrest. induction ok as [| g ok IH]; intros i datasets t.
  - cbn [app map]. rewrite app_nil_r. destruct rest as [| f rest].
    + exists (Ret tt), t. cbn [open_all firstn]. unfold ret. rewrite app_nil_r.
      repeat split; reflexivity.
    + cbn [open_all firstn]. run_io.
      match goal with
      | |- context [w_open_dataset w ?t0 f] => destruct (Hrest t0) as (e & ->)
      end.
      exists (Raise e). eexists. split; [reflexivity |]. observe.
      repeat split; try reflexivity. exists e. reflexivity.
  - cbn [app open_all]. run_io. rewrite (Hok _ g (or_introl eq_refl)).
    destruct (IH (fun t' f Hf => Hok t' f (or_intror Hf)) (i + 1) (datasets ++ [store g])
                 ((t ++ [EvPrint ("  Loading file " +++ str_of_Z (i + 1) +++ "/"
                                  +++ str_of_Z n +++ ": " +++ g)])
                  ++ [EvOpenDataset g])) as (r & t' & E & O & C & N & W & H).
    rewrite E. exists r, t'. cbn [map]. rewrite <- app_assoc.
    split; [reflexivity |].
    rewrite O, C, N, W. observe. rewrite <- app_assoc.
    repeat split; try reflexivity. exact H.
Qed.

(** X27.  The merge step cleans up.  Let the files of a first part of
    the list open, whatever the moment, and let the file after them, if
    there is one, be refused.  With xarray installed and a list that is
    not empty, the merge step opens the files of the first part in order
    and then the one that is refused, and no file after it; it closes
    the datasets of the first part, in order; when a file is refused it
    returns [None] and hands nothing to [to_netcdf]; when none is, it
    hands one dataset to [to_netcdf] under the output name, the records
    of the inputs renumbered, and returns the output name if that call
    goes through and [None] if it raises.  Without xarray, or for an
    empty list, nothing is opened and [None] is returned.  No file is
    written in any other way. *)
Theorem merge_cleans_up (w : world) (store : string -> dataset)
  (ok rest : list string) (out : string) (t : trace) :
  (forall t' f, In f ok -> w_open_dataset w t' f = Ret (store f)) ->
  match rest with
  | [] => True
  | f :: _ => forall t', exists e, w_open_dataset w t' f = Raise e
  end ->
  exists r t',
    merge_netcdf_files w (ok ++ rest) out t = (Ret r, t') /\
    writes t' = writes t /\
    (w_xarray_installed w = false \/ ok ++ rest = [] ->
     r = None /\ opens t' = opens t /\ closes t' = closes t
     /\ netcdf_writes t' = netcdf_writes t) /\
    (w_xarray_installed w = true -> ok ++ rest <> [] ->
     opens t' = opens t ++ ok ++ firstn 1 rest /\
     closes t' = closes t ++ map store ok /\
     match rest with
     | _ :: _ => r = None /\ netcdf_writes t' = netcdf_writes t
     | [] =>
         exists ds,
           netcdf_writes t' = netcdf_writes t ++ [(out, ds)] /\
           ds_profiles ds = renumbered (flat_map (fun f => ds_profiles (store f)) ok) /\
           ((forall t'' ds', w_to_netcdf w t'' out ds' = Ret tt) -> r = Some out) /\
           ((forall t'' ds', exists e, w_to_netcdf w t'' out ds' = Raise e) -> r = None)
     end).
Proof.
  intros Hok Hrest. unfold merge_netcdf_files.
  destruct (w_xarray_installed w) eqn:Hx; cbn [negb].
  2:{ run_io. exists None. eexists. split; [reflexivity |]. observe.
      split; [reflexivity |]. split; [intros _; repeat split; reflexivity | discriminate]. }
  destruct (ok ++ rest) as [| f0 files0] eqn:Hfiles.
  { run_io. exists None. eexists. split; [reflexivity |]. observe.
    split; [reflexivity |].
    split; [intros _; repeat split; reflexivity | intros _ Hne; contradiction]. }
  rewrite <- Hfiles.
  unfold bind at 1. unfold print at 1, emit at 1.
  unfold bind at 1.
  destruct (open_all_stops w store (len (ok ++ rest)) ok rest Hok Hrest 0 []
              (t ++ [EvPrint ("Merging " +++ str_of_Z (len (ok ++ rest))
                              +++ " NetCDF files into " +++ out)]))
    as (r & t1 & E & Ho & C & N & W & H).
  rewrite E. cbn [app].
  rewrite opens_snoc_print in Ho. rewrite closes_snoc_print in C.
  rewrite netcdf_snoc_print in N. rewrite writes_snoc_print in W.
  destruct rest as [| f rest].
  - subst r. run_io.
    assert (Hne : ok <> []).
    { intros ->. discriminate Hfiles. }
    destruct ok as [| g ok]; [contradiction |].
    cbn [map xr_concat].
    destruct (others_map_close (store g :: map store ok)) as (Oc & Nc & Wc).
    set (merged := apply_netcdf_global_attributes _ None).
    assert (Hrec : ds_profiles merged
                   = renumbered (flat_map (fun f => ds_profiles (store f)) (g :: ok))).
    { subst merged. unfold apply_netcdf_global_attributes, assign_coords.
      cbn [ds_profiles]. unfold renumbered.
      change (store g :: map store ok) with (map store (g :: ok)).
      rewrite !flat_map_concat_map, !map_map. reflexivity. }
    destruct (w_to_netcdf w _ out merged) as [[] | e] eqn:Hnc.
    + rewrite close_all_eq. exists (Some out). eexists. split; [reflexivity |].
      unfold opens, closes, netcdf_writes, writes in *.
      rewrite !flat_map_app, Ho, C, N, W, Oc, Nc, Wc. cbn [flat_map app].
      rewrite !app_nil_r.
      fold (closes (map EvCloseDataset (store g :: map store ok))). rewrite closes_map.
      split; [reflexivity |].
      split; [intros [Hc | Hc]; discriminate |].
      intros _ _. split; [reflexivity |]. split; [reflexivity |].
      exists merged. split; [reflexivity |]. split; [exact Hrec |].
      split; [reflexivity |].
      intros Hall.
      match type of Hnc with
      | w_to_netcdf w ?t0 out merged = _ => destruct (Hall t0 merged) as (e' & He')
      end.
      rewrite He' in Hnc. discriminate.
    + rewrite close_all_eq. exists None. eexists. split; [reflexivity |].
      unfold opens, closes, netcdf_writes, writes in *.
      rewrite !flat_map_app, Ho, C, N, W, Oc, Nc, Wc. cbn [flat_map app].
      rewrite !app_nil_r.
      fold (closes (map EvCloseDataset (store g :: map store ok))). rewrite closes_map.
      split; [reflexivity |].
      split; [intros [Hc | Hc]; discriminate |].
      intros _ _. split; [reflexivity |]. split; [reflexivity |].
      exists merged. split; [reflexivity |]. split; [exact Hrec |].
      split; [| reflexivity].
      intros Hall. rewrite Hall in Hnc. discriminate.
  - destruct H as (e & ->). run_io. rewrite close_all_eq.
    destruct (others_map_close (map store ok)) as (Oc & Nc & Wc).
    exists None. eexists. split; [reflexivity |].
    unfold opens, closes, netcdf_writes, writes in *.
    rewrite !flat_map_app, Ho, C, N, W, Oc, Nc, Wc. cbn [flat_map app].
    rewrite !app_nil_r.
    fold (closes (map EvCloseDataset (map store ok))). rewrite closes_map.
    split; [reflexivity |].
    split; [intros [Hc | Hc]; [discriminate | destruct ok; discriminate] |].
    intros _ _. split; [reflexivity |]. split; [reflexivity |]. split; reflexivity.
Qed.

Lemma merge_cleans_up_witness :
  exists r t',
    merge_netcdf_files (missing_file_world "b.nc") ["a.nc"; "b.nc"; "c.nc"] "out.nc" []
    = (Ret r, t') /\
    opens t' = ["a.nc"; "b.nc"] /\
    closes t' = [sample_store "a.nc"] /\
    r = None /\ netcdf_writes t' = [].
Proof.
  destruct (merge_cleans_up (missing_file_world "b.nc") sample_store
              ["a.nc"] ["b.nc"; "c.nc"] "out.nc" [])
    as (r & t' & E & _ & _ & H).
  - intros t' f [<- | []]. reflexivity.
  - intros t'. eexists. reflexivity.
  - destruct (H eq_refl) as (O & C & -> & N); [discriminate |].
    exists None, t'. split; [exact E |]. split; [exact O |]. split; [exact C |].
    split; [reflexivity | exact N].
Defined.

(** X28.  The attributes of a merged file.  Whenever the merge step returns
    the output name, the dataset it handed to [to_netcdf] under that name
    carries the five package attributes with their default values, and
    its records are numbered from 0. *)
Theorem merged_file_attributes (w : world) (files : list string) (out : string)
  (t t' : trace) :
  merge_netcdf_files w files out t = (Ret (Some out), t') ->
  exists ds,
    netcdf_writes t' = netcdf_writes t ++ [(out, ds)] /\
    (forall k v, In (k, v) default_attrs -> dict_get (ds_attrs ds) k = Some v) /\
    map profile_number (ds_profiles ds) = arange (List.length (ds_profiles ds)).
Proof.
  unfold merge_netcdf_files.
  destruct (w_xarray_installed w); cbn [negb].
  2:{ run_io. discriminate. }
  destruct files as [| f rest].
  { run_io. discriminate. }
  unfold bind at 1. unfold print at 1, emit at 1.
  unfold bind at 1.
  destruct (open_all_shows w (len (f :: rest)) (f :: rest) 0 []
              (t ++ [EvPrint ("Merging " +++ str_of_Z (len (f :: rest))
                              +++ " NetCDF files into " +++ out)]))
    as (dss & r & t1 & k & E & _ & _ & N & _ & _).
  rewrite E. cbn [app]. rewrite netcdf_snoc_print in N.
  destruct (others_map_close dss) as (_ & Nc & _).
  destruct r as [[] | e].
  - run_io. destruct (xr_concat dss) as [merged | e].
    + destruct (w_to_netcdf w _ out _) as [[] | e].
      * rewrite close_all_eq. intros [= <-].
        eexists. split; [| split].
        -- unfold netcdf_writes in *.
           rewrite !flat_map_app, N, Nc. cbn [flat_map app]. rewrite !app_nil_r.
           reflexivity.
        -- intros k0 v Hin. apply global_attributes_defaults. exact Hin.
        -- unfold apply_netcdf_global_attributes, assign_coords. cbn [ds_profiles].
           fold (renumbered (ds_profiles merged)).
           rewrite renumbered_numbers.
           rewrite <- (length_map profile_data (renumbered (ds_profiles merged))).
           rewrite renumbered_data, length_map. reflexivity.
      * rewrite close_all_eq. discriminate.
    + rewrite close_all_eq. discriminate.
  - run_io. rewrite close_all_eq. discriminate.
Qed.

Lemma merged_file_attributes_witness :
  exists ds,
    netcdf_writes (snd (merge_netcdf_files calm_world ["a.nc"; "b.nc"] "out.nc" []))
    = netcdf_writes [] ++ [("out.nc", ds)] /\
    dict_get (ds_attrs ds) "institution" = Some "COAPS, FSU".
Proof.
  destruct (merged_file_attributes calm_world ["a.nc"; "b.nc"] "out.nc" []
              (snd (merge_netcdf_files calm_world ["a.nc"; "b.nc"] "out.nc" [])))
    as (ds & Hw & Ha & _).
  - vm_compute. reflexivity.
  - exists ds. split; [exact Hw |]. apply Ha. cbn. tauto.
Defined.

(** ** The name of the merged file *)

Lemma length_append a b : String.length (a +++ b) = (String.length a + String.length b)%nat.
Proof. induction a as [| c a IH]; cbn; [reflexivity | rewrite IH; reflexivity]. Qed.

Lemma string_rev_acc_append s : forall acc,
  string_rev_acc s acc = string_rev_acc s EmptyString +++ acc.
Proof.
  induction s as [| c s IH]; intros acc; cbn [string_rev_acc]; [reflexivity |].
  rewrite (IH (String c acc)), (IH (String c EmptyString)).
  rewrite append_assoc. reflexivity.
Qed.

Lemma string_rev_append a b : string_rev (a +++ b) = string_rev b +++ string_rev a.
Proof.
  unfold string_rev. induction a as [| c a IH]; cbn [String.append string_rev_acc].
  - induction (string_rev_acc b EmptyString) as [| x r IHr]; cbn; [reflexivity |].
    rewrite <- IHr. reflexivity.
  - rewrite (string_rev_acc_append (a +++ b)), IH.
    rewrite (string_rev_acc_append a (String c EmptyString)).
    rewrite append_assoc. reflexivity.
Qed.

Lemma prefix_append a b : String.prefix a (a +++ b) = true.
Proof.
  induction a as [| c a IH]; cbn; [destruct b; reflexivity |].
  destruct (ascii_dec c c) as [_ | H]; [exact IH | contradiction].
Qed.

Lemma endswith_append s p : endswith (s +++ p) p = true.
Proof. unfold endswith. rewrite string_rev_append. apply prefix_append. Qed.

(** X29.  The name of the merged file.  The name under which the batch
    files are merged ends with [.nc] (a prefix that already does is
    taken as it is), and it is the name of none of the batch files, so
    the merge never writes over one of its inputs. *)
Theorem merged_name_is_fresh (lat lon : list fvalue) (date : list string)
  (B : Z) (prefix : string) (bs : list batch) (b : batch) :
  batches lat lon date B prefix = Ret bs -> In b bs ->
  endswith (final_output prefix) ".nc" = true /\
  b_filename b <> final_output prefix.
Proof.
  intros Hbs Hb. split.
  - unfold final_output. destruct (endswith prefix ".nc") eqn:E; [exact E |].
    apply endswith_append.
  - unfold batches in Hbs. destruct (range 0 (len lat) B) as [starts | e]; [| discriminate].
    cbn [rbind] in Hbs. injection Hbs as <-.
    apply in_map_iff in Hb. destruct Hb as (s & <- & _).
    unfold make_batch. cbn [b_filename]. intros H.
    apply (f_equal String.length) in H. unfold final_output in H.
    destruct (endswith prefix ".nc"); rewrite !length_append in H; cbn [String.length] in H;
      lia.
Qed.

Lemma merged_name_is_fresh_witness :
  endswith (final_output "out.nc") ".nc" = true /\
  b_filename (make_batch [FFin 10] [FFin 1] ["2024-03-01"] 1 5 "out.nc" 0)
  <> final_output "out.nc".
Proof.
  apply (merged_name_is_fresh [FFin 10] [FFin 1] ["2024-03-01"] 5 "out.nc"
           [make_batch [FFin 10] [FFin 1] ["2024-03-01"] 1 5 "out.nc" 0]).
  - reflexivity.
  - left. reflexivity.
Defined.

(** ** Whole runs *)

(** The code after the loop sends nothing and writes no file the way a
    batch does. *)
Lemma finish_shows w merge_output prefix files t :
  exists r t',
    finish w merge_output prefix files t = (Ret r, t') /\
    posts t' = posts t /\ writes t' = writes t.
Proof.
  unfold finish.
  destruct (merge_output && (1 <? len files)).
  - run_io.
    match goal with
    | |- context [merge_netcdf_files w files ?out ?t0] =>
        destruct (merge_returns w files out t0) as (r & t2 & E & _ & P);
        destruct (merge_shows w files out t0) as (r' & t2' & dss & k & E' & _ & _ & _ & _ & W & _)
    end.
    rewrite E in E'. injection E' as <- <-. rewrite E.
    rewrite posts_snoc_print in P. rewrite writes_snoc_print in W.
    destruct (truthy r); [destruct r |]; do 2 eexists;
      (split; [reflexivity |]); autorewrite with shows; split; assumption.
  - destruct (len files =? 1); [destruct files |]; do 2 eexists;
      split; try reflexivity; split; reflexivity.
Qed.

(** *** Histories only grow *)

Lemma grows_ret {A} (a : A) t : exists post, snd (ret a t) = t ++ post.
Proof. exists []. symmetry. apply app_nil_r. Qed.

Lemma grows_emit e t : exists post, snd (emit e t) = t ++ post.
Proof. eexists. reflexivity. Qed.

Lemma grows_ask {A} e (answer : trace -> result A) t :
  exists post, snd (ask e answer t) = t ++ post.
Proof. eexists. reflexivity. Qed.

Lemma grows_try {A} (m : M A) t :
  (exists post, snd (m t) = t ++ post) -> exists post, snd (try m t) = t ++ post.
Proof. unfold try. destruct (m t). exact (fun H => H). Qed.

Lemma grows_bind {A B} (m : M A) (k : A -> M B) t :
  (exists post, snd (m t) = t ++ post) ->
  (forall a t', exists post, snd (k a t') = t' ++ post) ->
  exists post, snd (bind m k t) = t ++ post.
Proof.
  intros (post & Hm) Hk. unfold bind. destruct (m t) as [[a | e] t']; cbn [snd] in Hm.
  - destruct (Hk a t') as (post' & ->). exists (post ++ post').
    rewrite Hm. symmetry. apply app_assoc.
  - exists post. exact Hm.
Qed.

Lemma open_all_grows w n files : forall i datasets t,
  exists post, snd (open_all w n i files datasets t) = t ++ post.
Proof.
  induction files as [| f files IH]; intros i datasets t; cbn [open_all].
  - apply grows_ret.
  - apply grows_bind; [apply grows_emit |]. intros _ t1.
    apply grows_bind; [apply grows_try, grows_ask |]. intros [ds | e] t2.
    + apply IH.
    + apply grows_ret.
Qed.

Lemma close_all_grows datasets : forall t,
  exists post, snd (close_all datasets t) = t ++ post.
Proof.
  induction datasets as [| ds datasets IH]; intros t; cbn [close_all].
  - apply grows_ret.
  - apply grows_bind; [apply grows_emit |]. intros _ t1. apply IH.
Qed.

Lemma merge_grows w files out t :
  exists post, snd (merge_netcdf_files w files out t) = t ++ post.
Proof.
  unfold merge_netcdf_files. destruct (negb (w_xarray_installed w)).
  { apply grows_bind; [apply grows_emit |]. intros; apply grows_ret. }
  destruct files as [| f files].
  { apply grows_bind; [apply grows_emit |]. intros; apply grows_ret. }
  apply grows_bind; [apply grows_emit |]. intros _ t1.
  apply grows_bind; [apply open_all_grows |]. intros [datasets r] t2.
  apply grows_bind.
  { destruct r as [[] | e]; [| apply grows_ret].
    apply grows_try. apply grows_bind; [apply grows_emit |]. intros _ t3.
    apply grows_bind; [unfold lift; eexists; symmetry; apply app_nil_r |]. intros merged t4.
    apply grows_bind; [apply grows_emit |]. intros _ t5.
    apply grows_bind; [apply grows_ask |]. intros _ t6.
    apply grows_bind; [apply grows_emit |]. intros; apply grows_ret. }
  intros outcome t3. apply grows_bind.
  { destruct outcome; [apply grows_ret |].
    apply grows_bind; [apply grows_emit |]. intros; apply grows_ret. }
  intros result t4. apply grows_bind; [apply close_all_grows |]. intros; apply grows_ret.
Qed.

Lemma finish_grows w merge_output prefix files t :
  exists post, snd (finish w merge_output prefix files t) = t ++ post.
Proof.
  unfold finish. destruct (merge_output && (1 <? len files)).
  - apply grows_bind; [apply grows_emit |]. intros _ t1.
    apply grows_bind; [apply merge_grows |]. intros r t2.
    destruct (truthy r); [destruct r |].
    + apply grows_bind; [apply grows_emit |]. intros; apply grows_ret.
    + apply grows_ret.
    + apply grows_bind; [apply grows_emit |]. intros; apply grows_ret.
  - destruct (len files =? 1); [destruct files |]; apply grows_ret.
Qed.

(** The code after the loop only adds to the history, and no request. *)
Lemma finish_extends w merge_output prefix files t :
  exists post,
    snd (finish w merge_output prefix files t) = t ++ post /\ posts post = [].
Proof.
  destruct (finish_shows w merge_output prefix files t) as (r & t' & E & P & _).
  rewrite E. cbn [snd].
  destruct (finish_grows w merge_output prefix files t) as (post & Ex).
  rewrite E in Ex. cbn [snd] in Ex. exists post. split; [exact Ex |].
  rewrite Ex, posts_app in P.
  apply (app_inv_head (posts t)). rewrite app_nil_r. exact P.
Qed.

(** X30.  The batches of a run.  Take a run from a thread without an
    event loop, with inputs that convert to lists and a positive batch
    size that [str] renders.  For [N] latitudes the run makes
    [ceil(N/B)] batches; the [k]-th one (counting from 0) covers the
    indices from [k*B] up to [min((k+1)*B, N)], carries the
    corresponding slices and is named [{prefix}_batch_{k+1:03d}.nc]; the
    index ranges put end to end are [0, N).  The run returns, and it has
    sent exactly these batches, one request each and in order.  The files
    it has opened for writing are, batch by batch and in order, the file
    of the batch, handed the body of the answer, for a request answered
    with status 200 and a NetCDF content type, and none for a request
    answered otherwise. *)
Theorem batch_run_batches w lat0 lon0 date0 B prefix api_url merge_output t
  (lat lon : list fvalue) (date : list string) :
  w_running_loop w = false ->
  preprocess_inputs (w_platform w) lat0 lon0 date0 = Ret (FList lat, FList lon, date) ->
  0 < B -> B < 10 ^ INT_MAX_STR_DIGITS ->
  exists bs ts r tl,
    batches lat lon date B prefix = Ret bs /\
    len bs = ceil_div (len lat) B /\
    (forall k : nat, (k < List.length bs)%nat ->
       exists b, nth_error bs k = Some b /\
         b_start b = Z.of_nat k * B /\
         b_end b = Z.min ((Z.of_nat k + 1) * B) (len lat) /\
         b_lat b = slice lat (b_start b) (b_end b) /\
         b_lon b = slice lon (b_start b) (b_end b) /\
         b_date b = slice date (b_start b) (b_end b) /\
         b_number b = Z.of_nat k + 1 /\
         b_filename b = prefix +++ "_batch_" +++ format_0d 3 (Z.of_nat k + 1) +++ ".nc") /\
    flat_map (fun b => zseq (b_start b) (b_end b)) bs = zseq 0 (len lat) /\
    List.concat (map b_lat bs) = lat /\
    get_predictions_batch w lat0 lon0 date0 B prefix api_url merge_output t
    = (Ret (Returned r), tl) /\
    moments t (map (batch_request api_url) bs) ts tl /\
    posts tl = posts t ++ map (batch_request api_url) bs /\
    writes tl = writes t ++ flat_map (saved_at w api_url) (combine bs ts).
Proof.
  intros Hsync Hpre HB0 HB.
  destruct (batches_cover lat lon date B prefix HB0) as (bs & Hbs & H1 & _ & H3 & H4 & H5).
  assert (HB' : Z.abs B < 10 ^ INT_MAX_STR_DIGITS) by (rewrite Z.abs_eq by lia; exact HB).
  pose proof (get_predictions_batch_eq w lat0 lon0 date0 B prefix api_url merge_output t
                lat lon date bs Hpre HB' Hbs) as E.
  pose proof (batches_made _ _ _ _ _ _ Hbs) as Hnames.
  match type of E with
  | context [for_each ?body bs [] ?t0] =>
      destruct (for_each_moments w api_url (len lat) bs Hsync Hnames [] t0)
        as (ts & tl & El & Ml & Wl)
  end.
  rewrite El in E. unfold returning, bind in E.
  match type of E with
  | context [finish w merge_output prefix ?fs ?t0] =>
      destruct (finish_shows w merge_output prefix fs t0) as (r & t' & Ef & Pf & Wf);
      destruct (finish_extends w merge_output prefix fs t0) as (post & Ex & Hpost)
  end.
  rewrite Ef in E, Ex. cbn [snd] in Ex. unfold ret in E.
  apply (moments_earlier _ t) in Ml; [| reflexivity].
  apply (moments_later _ _ _ _
           [EvPrint ("Completed " +++ str_of_Z (len ([] ++ successful_files w api_url bs ts))
                     +++ " out of " +++ str_of_Z ((len lat + B - 1) / B) +++ " batches")])
    in Ml; [| reflexivity].
  apply (moments_later _ _ _ _ post Hpost) in Ml. rewrite <- Ex in Ml.
  exists bs, ts, r, t'. repeat (split; [assumption |]).
  split; [exact (proj1 (moments_posts _ _ _ _ Ml)) |].
  rewrite Wf, writes_snoc_print, Wl, writes_snoc_print. reflexivity.
Qed.

Lemma batch_run_batches_witness :
  (exists bs ts r tl,
     batches [FFin 10; FFin 20; FFin 30; FFin 40; FFin 50]
             [FFin 1; FFin 2; FFin 3; FFin 4; FFin 5]
             ["2023-04-25"; "2023-04-26"; "2023-04-27"; "2023-04-28"; "2023-04-29"]
             2 "output" = Ret bs /\
     len bs = ceil_div 5 2 /\
     get_predictions_batch calm_world (CoordInt [10; 20; 30; 40; 50])
       (CoordInt [1; 2; 3; 4; 5]) (DatesInt [739000; 739001; 739002; 739003; 739004])
       2 "output" None false [] = (Ret (Returned r), tl) /\
     writes tl = writes [] ++ flat_map (saved_at calm_world None) (combine bs ts)) /\
  writes (snd (get_predictions_batch calm_world (CoordInt [10; 20; 30; 40; 50])
                 (CoordInt [1; 2; 3; 4; 5])
                 (DatesInt [739000; 739001; 739002; 739003; 739004])
                 2 "output" None false []))
  = [("output_batch_001.nc", "CDF"); ("output_batch_002.nc", "CDF");
     ("output_batch_003.nc", "CDF")].
Proof.
  split; [| vm_compute; reflexivity].
  destruct (batch_run_batches calm_world (CoordInt [10; 20; 30; 40; 50])
              (CoordInt [1; 2; 3; 4; 5]) (DatesInt [739000; 739001; 739002; 739003; 739004])
              2 "output" None false []
              [FFin 10; FFin 20; FFin 30; FFin 40; FFin 50]
              [FFin 1; FFin 2; FFin 3; FFin 4; FFin 5]
              ["2023-04-25"; "2023-04-26"; "2023-04-27"; "2023-04-28"; "2023-04-29"])
    as (bs & ts & r & tl & Hbs & Hn & _ & _ & _ & E & _ & _ & W);
    [reflexivity | vm_compute; reflexivity | lia | vm_compute; reflexivity |].
  exists bs, ts, r, tl. repeat split; assumption.
Defined.

(** X31.  A run from a thread that runs an event loop.  With inputs that
    convert to lists, at least one point and a positive batch size that
    [str] renders, the run gets as far as the first call of
    [get_predictions], which hands the request to the loop of its own
    thread and waits for it: the run does not return, and it has sent
    nothing and written nothing. *)
Theorem batch_run_blocked w lat0 lon0 date0 B prefix api_url merge_output t
  (lat lon : list fvalue) (date : list string) :
  w_running_loop w = true ->
  preprocess_inputs (w_platform w) lat0 lon0 date0 = Ret (FList lat, FList lon, date) ->
  0 < B -> B < 10 ^ INT_MAX_STR_DIGITS -> lat <> [] ->
  exists tl,
    get_predictions_batch w lat0 lon0 date0 B prefix api_url merge_output t
    = (Ret Blocked, tl) /\
    posts tl = posts t /\ writes tl = writes t.
Proof.
  intros Hloop Hpre HB0 HB Hne.
  destruct (batches_cover lat lon date B prefix HB0) as (bs & Hbs & _ & H2 & _).
  assert (HB' : Z.abs B < 10 ^ INT_MAX_STR_DIGITS) by (rewrite Z.abs_eq by lia; exact HB).
  rewrite (get_predictions_batch_eq w lat0 lon0 date0 B prefix api_url merge_output t
             lat lon date bs Hpre HB' Hbs).
  destruct bs as [| b bs].
  { exfalso. destruct lat; [contradiction |]. unfold len in H2. cbn [List.length] in H2. lia. }
  match goal with
  | |- context [for_each ?body (b :: bs) [] ?t0] =>
      destruct (for_each_blocked w api_url (len lat) b bs [] t0 Hloop) as (tl & E & P & W)
  end.
  rewrite E. exists tl. split; [reflexivity |].
  rewrite P, W. autorewrite with shows. split; reflexivity.
Qed.

Lemma batch_run_blocked_witness :
  exists tl,
    get_predictions_batch notebook_world (CoordInt [10; 20; 30]) (CoordInt [1; 2; 3])
      (DatesInt [739000; 739001; 739002]) 2 "output" None true []
    = (Ret Blocked, tl) /\
    posts tl = posts [] /\ writes tl = writes [].
Proof.
  apply (batch_run_blocked notebook_world (CoordInt [10; 20; 30]) (CoordInt [1; 2; 3])
           (DatesInt [739000; 739001; 739002]) 2 "output" None true []
           [FFin 10; FFin 20; FFin 30] [FFin 1; FFin 2; FFin 3]
           ["2023-04-25"; "2023-04-26"; "2023-04-27"]);
    [reflexivity | vm_compute; reflexivity | lia | vm_compute; reflexivity | discriminate].
Defined.

End ProfileRunFacts.

Import ProfileRunFacts.
